(** * Gemini Exfil Detector: a shallow embedding of the correlation engine

    The development follows the Python modules of the detector:
    [recon_tracker.py], [intent_classifier.py], [file_context.py],
    [detector.py] and [burstiness.py].  Python objects that are mutated in place (the
    classifier's baselines and reputation cache, the enricher's file cache)
    are threaded explicitly: a method [m] of an object [o] becomes a function
    returning its result together with the new [o].

    Numbers.  A [dt.datetime] is the number of microseconds since the Unix
    epoch (the events carry UTC-aware datetimes).  Python floats are modelled
    by exact numbers: rationals ([Q]) where the code only adds, divides by a
    constant and compares (the correlation delta, the intent confidence),
    and reals ([R]) for the recon score, whose decay [0.5 ** x] is not a
    rational function.  IEEE rounding error is not modelled: a float sum
    that lands one unit in the last place beside a threshold (0.5 - 0.2 +
    0.3 - 0.2 against 0.4), or beside a rounding tie of [round(x, 2)],
    compares or rounds differently in the code, and [0.5 ** x] is total here
    where Python raises [OverflowError] for [x <= -1024].

    Strings.  Text is ASCII: [py.lower] folds the letters A-Z and [py.strip]
    removes ASCII white space only. *)

From Stdlib Require Import ZArith QArith Qround Reals Lra Lia.
From Stdlib Require Import String Ascii List.
From stdpp Require Import gmap strings list.
From Stdlib Require Import Sorted.
Import ListNotations.

Local Open Scope string_scope.
Local Open Scope list_scope.

(** ** Python strings *)

Module py.

(** [needle in hay] on [str]. *)
Fixpoint str_in (needle hay : string) : bool :=
  if String.prefix needle hay then true
  else match hay with
       | EmptyString => false
       | String _ rest => str_in needle rest
       end.

Definition lower_ascii (c : ascii) : ascii :=
  let n := nat_of_ascii c in
  if andb (Nat.leb 65 n) (Nat.leb n 90) then ascii_of_nat (n + 32) else c.

(** [s.lower()], on ASCII text. *)
Fixpoint lower (s : string) : string :=
  match s with
  | EmptyString => EmptyString
  | String c rest => String (lower_ascii c) (lower rest)
  end.

(** [str.isspace] on one ASCII character. *)
Definition is_space (c : ascii) : bool :=
  let n := nat_of_ascii c in
  orb (andb (Nat.leb 9 n) (Nat.leb n 13))
      (orb (andb (Nat.leb 28 n) (Nat.leb n 31)) (Nat.eqb n 32)).

Fixpoint lstrip (s : string) : string :=
  match s with
  | EmptyString => EmptyString
  | String c rest => if is_space c then lstrip rest else s
  end.

Fixpoint rstrip (s : string) : string :=
  match s with
  | EmptyString => EmptyString
  | String c rest =>
      match rstrip rest with
      | EmptyString => if is_space c then EmptyString else String c EmptyString
      | r => String c r
      end
  end.

(** [s.strip()]. *)
Definition strip (s : string) : string := rstrip (lstrip s).

(** [s.split(sep)[-1]] for a one-character separator: the text after the
    last occurrence of [sep], or all of [s] when there is none. *)
Fixpoint split_last (sep : ascii) (s : string) : string :=
  match s with
  | EmptyString => EmptyString
  | String c rest =>
      if str_in (String sep EmptyString) rest then split_last sep rest
      else if Ascii.eqb c sep then rest
      else s
  end.

(** Truthiness of an [Optional[str]]: [None] and the empty string are falsy. *)
Definition truthy (o : option string) : bool :=
  match o with
  | Some s => negb (String.eqb s "")
  | None => false
  end.

(** [x in xs] for a list of strings. *)
Definition list_in (x : string) (xs : list string) : bool :=
  existsb (String.eqb x) xs.

(** [sep.join(parts)]. *)
Fixpoint join (sep : string) (parts : list string) : string :=
  match parts with
  | [] => ""
  | [p] => p
  | p :: rest => p ++ sep ++ join sep rest
  end.

End py.

(** ** Time *)

(** A UTC datetime, in microseconds since 1970-01-01T00:00:00Z. *)
Definition datetime := Z.

Definition MICROS_PER_SECOND : Z := 1000000.
Definition MICROS_PER_HOUR : Z := 3600 * MICROS_PER_SECOND.
Definition MICROS_PER_DAY : Z := 24 * MICROS_PER_HOUR.

(** [timestamp.hour], 0..23. *)
Definition hour (t : datetime) : Z := (t / MICROS_PER_HOUR) mod 24.

(** [timestamp.weekday()], Monday = 0; the epoch was a Thursday. *)
Definition weekday (t : datetime) : Z := (t / MICROS_PER_DAY + 3) mod 7.

(** [(a - b).total_seconds()] as a rational and as a real. *)
Definition total_seconds_Q (a b : datetime) : Q :=
  (inject_Z (a - b) / inject_Z MICROS_PER_SECOND)%Q.

Definition total_seconds_R (a b : datetime) : R :=
  (IZR (a - b) / IZR MICROS_PER_SECOND)%R.

(** ** Rounding: Python's [round(x, 2)] *)

(** Round-half-to-even of [f + d] given the floor [f] and whether the
    fractional part is below, at or above one half. *)
Definition half_even (f : Z) (c : comparison) : Z :=
  match c with
  | Lt => f
  | Gt => (f + 1)%Z
  | Eq => if Z.even f then f else (f + 1)%Z
  end.

Definition Qround_half_even (q : Q) : Z :=
  let f := Qfloor q in
  half_even f (Qcompare (q - inject_Z f) (1 # 2)).

Definition round2_Q (q : Q) : Q :=
  (inject_Z (Qround_half_even (q * 100)) / 100)%Q.

Definition Rcompare_half (d : R) : comparison :=
  if Rlt_dec d (1 / 2) then Lt
  else if Rlt_dec (1 / 2) d then Gt else Eq.

Definition Rround_half_even (x : R) : Z :=
  let f := Zfloor x in
  half_even f (Rcompare_half (x - IZR f)).

Definition round2_R (x : R) : R :=
  (IZR (Rround_half_even (x * 100)) / 100)%R.

(** Float comparisons on the recon score, as booleans. *)
Definition Rgeb (x y : R) : bool := if Rge_dec x y then true else false.
Definition Rgtb (x y : R) : bool := if Rgt_dec x y then true else false.

(** ** recon_tracker.py *)

Module recon_tracker.

Definition DECAY_HALF_LIFE_HOURS : R := 48.
Definition SCORE_THRESHOLD_HIGH : R := 10.0.
Definition SCORE_THRESHOLD_MEDIUM : R := 5.0.

(** One stored activity: the dict that [record_recon] writes
    ([asdict(ReconActivity)] with the timestamp as ISO text).  When an entry
    is read back, ["timestamp"] and ["score"] may be missing or unparsable
    (the [KeyError]/[ValueError] that [get_recon_score] skips): such a field
    is [None] here. *)
Record activity_data := {
  ad_actor : string;
  ad_timestamp : option datetime;
  ad_app : string;
  ad_action : string;
  ad_score : option R;
  ad_doc_id : option string
}.

(** The Redis server as the tracker sees it: a key-value store that may be
    unreachable.  Key expiry happens in real time and is not modelled. *)
Record redis := {
  redis_up : bool;
  redis_data : gmap string (list activity_data)
}.

Record ReconTracker := {
  ttl_seconds : Z;
  redis_client : option redis;
  memory_store : gmap string (list activity_data)
}.

(** [__init__]: [client] is what [redis.from_url] produced, [None] without a
    URL or when it raised.  A failing [ping] leaves the client set. *)
Definition __init__ (client : option redis) (ttl_days : Z) : ReconTracker :=
  {| ttl_seconds := ttl_days * 24 * 60 * 60;
     redis_client := client;
     memory_store := ∅ |}.

Definition _calculate_decay_factor (activity_time current_time : datetime) : R :=
  let hours_elapsed := (total_seconds_R current_time activity_time / 3600)%R in
  Rpower 0.5 (hours_elapsed / DECAY_HALF_LIFE_HOURS).

(** [high_signal_actions.get(action) or medium_signal_actions.get(action, 1.0)] *)
Definition _action_to_score (action : string) : R :=
  if String.eqb action "ask_about_this_file" then 3.0
  else if String.eqb action "summarize_file" then 3.0
  else if String.eqb action "analyze_documents" then 4.0
  else if String.eqb action "catch_me_up" then 5.0
  else if String.eqb action "summarize_long" then 2.0
  else if String.eqb action "ask_about_context" then 2.0
  else if String.eqb action "summarize" then 1.5
  else 1.0.

Definition key_of (actor : string) : string := "recon:" ++ actor.

(** A failing [GET] is swallowed and reads as no data. *)
Definition _get_redis_activities (r : redis) (key : string) : list activity_data :=
  if redis_up r then default [] (redis_data r !! key) else [].

Definition _store_in_memory (self : ReconTracker) (key : string)
    (activity : activity_data) : ReconTracker :=
  {| ttl_seconds := ttl_seconds self;
     redis_client := redis_client self;
     memory_store :=
       <[key := default [] (memory_store self !! key) ++ [activity]]>
         (memory_store self) |}.

Definition record_recon (self : ReconTracker) (actor : string)
    (timestamp : datetime) (app action : string) (doc_id : option string)
    : ReconTracker :=
  let base_score := _action_to_score action in
  let activity_data :=
    {| ad_actor := actor; ad_timestamp := Some timestamp; ad_app := app;
       ad_action := action; ad_score := Some base_score;
       ad_doc_id := doc_id |} in
  let key := key_of actor in
  match redis_client self with
  | Some r =>
      let activities := _get_redis_activities r key ++ [activity_data] in
      if redis_up r then
        {| ttl_seconds := ttl_seconds self;
           redis_client :=
             Some {| redis_up := true;
                     redis_data := <[key := activities]> (redis_data r) |};
           memory_store := memory_store self |}
      else _store_in_memory self key activity_data
  | None => _store_in_memory self key activity_data
  end.

(** The activities [get_recon_score] reads for a key. *)
Definition stored_activities (self : ReconTracker) (key : string)
    : list activity_data :=
  match redis_client self with
  | Some r => _get_redis_activities r key
  | None => default [] (memory_store self !! key)
  end.

(** One iteration of the summing loop; a malformed entry is skipped. *)
Definition add_activity (current_time : datetime) (total_score : R)
    (a : activity_data) : R :=
  match ad_timestamp a, ad_score a with
  | Some activity_time, Some base_score =>
      let decay_factor := _calculate_decay_factor activity_time current_time in
      (total_score + base_score * decay_factor)%R
  | _, _ => total_score
  end.

Definition get_recon_score (self : ReconTracker) (actor : string)
    (current_time : datetime) : R :=
  let activities := stored_activities self (key_of actor) in
  let total_score := fold_left (add_activity current_time) activities 0%R in
  round2_R total_score.

Definition get_risk_level (self : ReconTracker) (actor : string)
    (current_time : datetime) : string :=
  let score := get_recon_score self actor current_time in
  if Rgeb score SCORE_THRESHOLD_HIGH then "high"
  else if Rgeb score SCORE_THRESHOLD_MEDIUM then "medium"
  else "low".

(** Tracker states a run can be in: a fresh tracker, then any number of
    [record_recon] calls. *)
Inductive recorded : ReconTracker -> Prop :=
| recorded_init client ttl_days :
    (forall r, client = Some r -> redis_data r = ∅) ->
    recorded (__init__ client ttl_days)
| recorded_step self actor timestamp app action doc_id :
    recorded self ->
    recorded (record_recon self actor timestamp app action doc_id)
| recorded_outage self r :
    recorded self -> redis_client self = Some r ->
    recorded {| ttl_seconds := ttl_seconds self;
                redis_client :=
                  Some {| redis_up := negb (redis_up r);
                          redis_data := redis_data r |};
                memory_store := memory_store self |}.

End recon_tracker.

(** ** intent_classifier.py *)

Module intent_classifier.

Record UserBaseline := {
  ub_actor : string;
  typical_share_domains : gset string;
  typical_share_count : Z;
  typical_download_count : Z;
  first_seen : datetime;
  last_updated : datetime
}.

Record IntentClassifier := {
  trusted_domains : gset string;
  partner_domains : gset string;
  user_baselines : gmap string UserBaseline;
  domain_reputation_cache : gmap string string
}.

(** The dict [classify_intent] returns. *)
Record IntentAnalysis := {
  intent : string;
  confidence : Q;
  reasons : list string;
  should_suppress : bool;
  destination_domain : option string
}.

Definition set_baselines (self : IntentClassifier)
    (b : gmap string UserBaseline) : IntentClassifier :=
  {| trusted_domains := trusted_domains self;
     partner_domains := partner_domains self;
     user_baselines := b;
     domain_reputation_cache := domain_reputation_cache self |}.

Definition set_cache (self : IntentClassifier)
    (c : gmap string string) : IntentClassifier :=
  {| trusted_domains := trusted_domains self;
     partner_domains := partner_domains self;
     user_baselines := user_baselines self;
     domain_reputation_cache := c |}.

(** [__init__]: the two domain sets come from the configuration. *)
Definition __init__ (allowed_external_domains partner : list string)
    : IntentClassifier :=
  {| trusted_domains := list_to_set allowed_external_domains;
     partner_domains := list_to_set partner;
     user_baselines := ∅;
     domain_reputation_cache := ∅ |}.

Definition _extract_destination_domain (new_value visibility : option string)
    : option string :=
  match new_value with
  | None => None
  | Some nv =>
      if String.eqb nv "" then None
      else if py.str_in "@" nv then Some (py.strip (py.split_last "@" nv))
      else None
  end.

Definition _get_domain_reputation (self : IntentClassifier) (domain : string)
    : string * IntentClassifier :=
  let domain_lower := py.lower domain in
  match domain_reputation_cache self !! domain_lower with
  | Some reputation => (reputation, self)
  | None =>
      let reputation :=
        if bool_decide (domain_lower ∈ trusted_domains self) then "trusted"
        else if bool_decide (domain_lower ∈ partner_domains self) then "partner"
        else "unknown" in
      (reputation,
       set_cache self (<[domain_lower := reputation]> (domain_reputation_cache self)))
  end.

Definition _normalize_email (email : string) : string :=
  py.strip (py.lower email).

(** [wall] is the reading of [dt.datetime.utcnow()]. *)
Definition _get_or_create_baseline (self : IntentClassifier) (wall : datetime)
    (actor : string) : UserBaseline * IntentClassifier :=
  match user_baselines self !! actor with
  | Some baseline => (baseline, self)
  | None =>
      let baseline :=
        {| ub_actor := actor;
           typical_share_domains := ∅;
           typical_share_count := 0;
           typical_download_count := 0;
           first_seen := wall;
           last_updated := wall |} in
      (baseline, set_baselines self (<[actor := baseline]> (user_baselines self)))
  end.

Definition update_baseline (self : IntentClassifier) (wall : datetime)
    (actor exfil_event : string) (destination_domain : option string)
    : IntentClassifier :=
  let '(baseline, self) := _get_or_create_baseline self wall actor in
  let '(domains, share_count) :=
    match destination_domain with
    | Some d =>
        if String.eqb d "" then
          (typical_share_domains baseline, typical_share_count baseline)
        else
          ({[d]} ∪ typical_share_domains baseline,
           (typical_share_count baseline + 1)%Z)
    | None => (typical_share_domains baseline, typical_share_count baseline)
    end in
  let download_count :=
    if py.list_in exfil_event ["download"; "export"]
    then (typical_download_count baseline + 1)%Z
    else typical_download_count baseline in
  let baseline :=
    {| ub_actor := ub_actor baseline;
       typical_share_domains := domains;
       typical_share_count := share_count;
       typical_download_count := download_count;
       first_seen := first_seen baseline;
       last_updated := wall |} in
  set_baselines self (<[actor := baseline]> (user_baselines self)).

Definition _is_off_hours (timestamp : datetime) : bool :=
  let hour := hour timestamp in
  let weekday := weekday timestamp in
  if (5 <=? weekday)%Z then true
  else if orb (hour <? 6)%Z (20 <? hour)%Z then true
  else false.

(** The locals of [classify_intent] that its rules update. *)
Record verdict := {
  v_reasons : list string;
  v_confidence : Q;
  v_should_suppress : bool
}.

Definition say (v : verdict) (reason : string) (delta : Q) : verdict :=
  {| v_reasons := v_reasons v ++ [reason];
     v_confidence := (v_confidence v + delta)%Q;
     v_should_suppress := v_should_suppress v |}.

Definition suppress (v : verdict) : verdict :=
  {| v_reasons := v_reasons v;
     v_confidence := v_confidence v;
     v_should_suppress := true |}.

Definition classify_intent (self : IntentClassifier) (wall : datetime)
    (actor exfil_event : string) (doc_id doc_owner visibility : option string)
    (timestamp : datetime) (new_value : option string)
    : IntentAnalysis * IntentClassifier :=
  let v := {| v_reasons := []; v_confidence := 0.5; v_should_suppress := false |} in
  let destination_domain := _extract_destination_domain new_value visibility in
  let '(v, self) :=
    match destination_domain with
    | Some d =>
        if String.eqb d "" then (v, self)
        else
          let '(domain_reputation, self) := _get_domain_reputation self d in
          if String.eqb domain_reputation "trusted" then
            (suppress (say v ("Destination domain " ++ d ++ " is trusted") (- 0.4)),
             self)
          else if String.eqb domain_reputation "partner" then
            (say v ("Destination domain " ++ d ++ " is a known partner") (- 0.2),
             self)
          else if String.eqb domain_reputation "unknown" then
            (say v ("Destination domain " ++ d ++ " is unknown/untrusted") 0.3,
             self)
          else (v, self)
    | None => (v, self)
    end in
  let v :=
    if andb (py.truthy doc_owner) (negb (String.eqb actor "")) then
      if String.eqb (_normalize_email (default "" doc_owner))
                    (_normalize_email actor)
      then say v "User is sharing their own file" (- 0.1)
      else say v "User is sharing someone else's file" 0.3
    else v in
  let '(baseline, self) := _get_or_create_baseline self wall actor in
  let v :=
    match destination_domain with
    | Some d =>
        if String.eqb d "" then v
        else if bool_decide (d ∈ typical_share_domains baseline) then
          say v ("User has historically shared with " ++ d) (- 0.2)
        else say v ("First-time share with " ++ d) 0.2
    | None => v
    end in
  let v :=
    if _is_off_hours timestamp
    then say v "Activity occurred during off-hours" 0.2
    else v in
  let v :=
    if py.list_in exfil_event ["download"; "export"] then
      if (10 <? typical_download_count baseline)%Z
      then say v "User frequently downloads files (likely legitimate workflow)"
                 (- 0.15)
      else v
    else v in
  let confidence := v_confidence v in
  let intent :=
    if Qle_bool 0.7 confidence then "malicious"
    else if Qle_bool 0.4 confidence then "suspicious"
    else "legitimate" in
  ({| intent := intent;
      confidence := round2_Q confidence;
      reasons := v_reasons v;
      should_suppress := v_should_suppress v;
      destination_domain := destination_domain |},
   self).

End intent_classifier.

(** ** Findings *)

(** A Python [str] built with f-strings that interpolate a float: the literal
    pieces and the numbers, in order.  The decimal rendering of the float is
    not modelled. *)
Inductive fragment :=
| Text (s : string)
| Float (x : R).

Definition fstring := list fragment.

(** [sep.join(parts)] on such strings. *)
Fixpoint fjoin (sep : string) (parts : list fstring) : fstring :=
  match parts with
  | [] => []
  | [p] => p
  | p :: rest => p ++ Text sep :: fjoin sep rest
  end.

(** A time rendered as text: an ISO timestamp, or a fixed literal. *)
Inductive time_text :=
| Iso (t : datetime)
| Literal (s : string).

(** The ["file_context"] block that enrichment attaches. *)
Record file_context_block := {
  fc_sensitivity : string;
  fc_labels : list string;
  fc_owner : string;
  fc_shared_externally_before : bool
}.

(** [detector.Finding], also standing for its [asdict] form.  [exfil_time]
    keeps the instant; the configured zone only changes its rendering. *)
Module Finding.
Record t := mk {
  severity : string;
  actor : string;
  exfil_event : string;
  exfil_time : time_text;
  doc_id : option string;
  doc_title : option string;
  recon_action : string;
  recon_time : time_text;
  delta_minutes : Q;
  visibility : option string;
  reason : fstring;
  event_ids : string * string;
  recon_score : option R;
  file_context : option file_context_block;
  intent_analysis : option intent_classifier.IntentAnalysis;
  reason_codes : option (list string);
  ip_address : option string;
  geo_anomaly : option bool
}.

Definition set_severity (f : t) (s : string) : t :=
  mk s (actor f) (exfil_event f) (exfil_time f) (doc_id f) (doc_title f)
     (recon_action f) (recon_time f) (delta_minutes f) (visibility f)
     (reason f) (event_ids f) (recon_score f) (file_context f)
     (intent_analysis f) (reason_codes f) (ip_address f) (geo_anomaly f).

Definition set_reason (f : t) (r : fstring) : t :=
  mk (severity f) (actor f) (exfil_event f) (exfil_time f) (doc_id f)
     (doc_title f) (recon_action f) (recon_time f) (delta_minutes f)
     (visibility f) r (event_ids f) (recon_score f) (file_context f)
     (intent_analysis f) (reason_codes f) (ip_address f) (geo_anomaly f).

Definition set_file_context (f : t) (c : option file_context_block) : t :=
  mk (severity f) (actor f) (exfil_event f) (exfil_time f) (doc_id f)
     (doc_title f) (recon_action f) (recon_time f) (delta_minutes f)
     (visibility f) (reason f) (event_ids f) (recon_score f) c
     (intent_analysis f) (reason_codes f) (ip_address f) (geo_anomaly f).

Definition set_intent_analysis (f : t)
    (a : option intent_classifier.IntentAnalysis) : t :=
  mk (severity f) (actor f) (exfil_event f) (exfil_time f) (doc_id f)
     (doc_title f) (recon_action f) (recon_time f) (delta_minutes f)
     (visibility f) (reason f) (event_ids f) (recon_score f) (file_context f)
     a (reason_codes f) (ip_address f) (geo_anomaly f).
End Finding.

(** ** file_context.py *)

Module file_context.

Record FileMetadata := {
  fm_doc_id : string;
  title : string;
  owner : string;
  labels : list string;
  sensitivity : string;
  last_accessed : datetime;
  shared_externally : bool
}.

(** One entry of ["permissions"] in a Drive [files.get] response. *)
Record permission := {
  p_type : option string;
  p_emailAddress : option string
}.

(** The Drive [files.get] response, as far as the enricher reads it:
    ["name"], the ["emailAddress"] of each of ["owners"], the ["id"] of each
    of ["labelInfo"]["labels"], the items of ["labels"] with the truthiness
    of each value, and ["permissions"].  An absent key is [None]. *)
Record file_info := {
  fi_name : option string;
  fi_owners : option (list (option string));
  fi_labelInfo_labels : list (option string);
  fi_labels : option (list (string * bool));
  fi_permissions : list permission
}.

(** [drive_files_get doc_id] is the outcome of the Drive request: [None]
    when it raises (404, another HTTP error, anything else). *)
Record FileContextEnricher := {
  drive_files_get : string -> option file_info;
  sensitive_labels : gset string;
  high_risk_folders : gset string;
  file_cache : gmap string FileMetadata
}.

Definition set_file_cache (self : FileContextEnricher)
    (c : gmap string FileMetadata) : FileContextEnricher :=
  {| drive_files_get := drive_files_get self;
     sensitive_labels := sensitive_labels self;
     high_risk_folders := high_risk_folders self;
     file_cache := c |}.

Definition _extract_labels (info : file_info) : list string :=
  let labels := map (default "") (fi_labelInfo_labels info) in
  match fi_labels info with
  | Some items =>
      labels ++ map fst (filter (fun kv => snd kv = true) items)
  | None => labels
  end.

Definition OWNER_TERMS : list string := ["exec"; "ceo"; "cfo"; "finance"].

Definition restricted_terms : list string :=
  ["confidential"; "restricted"; "internal"; "sensitive"; "private"].

(** The first test of [_determine_sensitivity]: some configured sensitive
    label occurs in some file label. *)
Definition matches_sensitive_label (self : FileContextEnricher)
    (labels : list string) : bool :=
  let label_lower := map py.lower labels in
  existsb
    (fun sensitive_label =>
       existsb (py.str_in (py.lower sensitive_label)) label_lower)
    (elements (sensitive_labels self)).

Definition _determine_sensitivity (self : FileContextEnricher)
    (labels : list string) (owner : string) : string :=
  let label_lower := map py.lower labels in
  if matches_sensitive_label self labels then "high"
  else if existsb (fun term => py.str_in term (py.lower owner)) OWNER_TERMS
  then "high"
  else if existsb (fun term => existsb (py.str_in term) label_lower)
                  restricted_terms
  then "medium"
  else "low".

Definition get_file_metadata (self : FileContextEnricher) (wall : datetime)
    (doc_id : string) : option FileMetadata * FileContextEnricher :=
  match file_cache self !! doc_id with
  | Some metadata => (Some metadata, self)
  | None =>
      match drive_files_get self doc_id with
      | None => (None, self)
      | Some info =>
          (* owners[0]: an empty list raises IndexError, caught below *)
          match default [None] (fi_owners info) with
          | [] => (None, self)
          | first :: _ =>
              let owner := default "unknown" first in
              let labels := _extract_labels info in
              let sensitivity := _determine_sensitivity self labels owner in
              let shared_externally :=
                existsb
                  (fun p =>
                     orb (bool_decide (p_type p = Some "anyone"))
                         (negb (py.str_in "@" (default "" (p_emailAddress p)))))
                  (fi_permissions info) in
              let metadata :=
                {| fm_doc_id := doc_id;
                   title := default "Unknown" (fi_name info);
                   owner := owner;
                   labels := labels;
                   sensitivity := sensitivity;
                   last_accessed := wall;
                   shared_externally := shared_externally |} in
              (Some metadata,
               set_file_cache self (<[doc_id := metadata]> (file_cache self)))
          end
      end
  end.

Definition enrich_finding (self : FileContextEnricher) (wall : datetime)
    (finding_dict : Finding.t) (doc_id : option string)
    : Finding.t * FileContextEnricher :=
  if negb (py.truthy doc_id) then (finding_dict, self)
  else
    let '(metadata, self) := get_file_metadata self wall (default "" doc_id) in
    match metadata with
    | None => (finding_dict, self)
    | Some metadata =>
        let finding_dict :=
          Finding.set_file_context finding_dict
            (Some {| fc_sensitivity := sensitivity metadata;
                     fc_labels := labels metadata;
                     fc_owner := owner metadata;
                     fc_shared_externally_before := shared_externally metadata |}) in
        let finding_dict :=
          if String.eqb (sensitivity metadata) "high" then
            if String.eqb (Finding.severity finding_dict) "medium" then
              Finding.set_reason (Finding.set_severity finding_dict "high")
                (Finding.reason finding_dict ++ [Text " (high-sensitivity file)"])
            else if String.eqb (Finding.severity finding_dict) "low" then
              Finding.set_reason (Finding.set_severity finding_dict "medium")
                (Finding.reason finding_dict ++ [Text " (high-sensitivity file)"])
            else finding_dict
          else finding_dict in
        (finding_dict, self)
    end.

End file_context.

(** ** detector.py *)

Module detector.

Import recon_tracker intent_classifier file_context.

Definition HIGH_RISK_VISIBILITY : gset string :=
  {[ "people_with_link"; "public_on_the_web"; "shared_externally" ]}.

Module ReconEvent.
Record t := mk {
  actor : string;
  timestamp : datetime;
  app : string;
  action : string;
  event_id : string
}.
End ReconEvent.

Module ExfilEvent.
Record t := mk {
  actor : string;
  timestamp : datetime;
  event_name : string;
  doc_id : option string;
  doc_title : option string;
  visibility : option string;
  old_visibility : option string;
  new_value : option string;
  old_value : option string;
  owner : option string;
  destination_folder_id : option string;
  event_id : string;
  ip_address : option string;
  is_revert : bool
}.
End ExfilEvent.

(** The detector object: the part of [config] that correlation reads, the
    tracker, and the two collaborators that exist only once the admin
    service has been built. *)
Record GeminiExfilDetector := {
  canary_doc_ids : list string;
  recon_tracker : ReconTracker;
  file_enricher : option FileContextEnricher;
  intent_classifier : option IntentClassifier
}.

Definition set_collaborators (self : GeminiExfilDetector)
    (fe : option FileContextEnricher) (ic : option IntentClassifier)
    : GeminiExfilDetector :=
  {| canary_doc_ids := canary_doc_ids self;
     recon_tracker := recon_tracker self;
     file_enricher := fe;
     intent_classifier := ic |}.

(** [exfil.visibility in HIGH_RISK_VISIBILITY] *)
Definition high_risk (visibility : option string) : bool :=
  match visibility with
  | Some v => bool_decide (v ∈ HIGH_RISK_VISIBILITY)
  | None => false
  end.

Definition _calculate_severity (exfil : ExfilEvent.t) (delta_minutes : Q)
    (recon_score : R) : string * fstring * list string :=
  let event_name := ExfilEvent.event_name exfil in
  let is_external_share :=
    andb (orb (py.str_in "change_acl" event_name)
              (py.str_in "change_visibility" event_name))
         (high_risk (ExfilEvent.visibility exfil)) in
  let is_export_download :=
    orb (py.str_in "download" event_name) (py.str_in "export" event_name) in
  let is_ownership_transfer := py.str_in "transfer_ownership" event_name in
  let is_shortcut := py.str_in "create_shortcut" event_name in
  let is_publish := py.str_in "publish_to_web" event_name in
  let '(reasons, reason_codes, severity) :=
    if ExfilEvent.is_revert exfil then
      ([[Text "External toggle with rapid revert (evasion pattern)"]],
       ["external_toggle_revert"], "high")
    else if Qle_bool delta_minutes 10 then
      if orb is_external_share (orb is_ownership_transfer is_publish) then
        ([[Text "External share/transfer within 10min of recon"]],
         ["external_share_immediate"], "high")
      else if is_export_download then
        ([[Text "Export/download within 10min of recon"]],
         ["export_immediate"], "high")
      else if is_shortcut then
        ([[Text "Shortcut creation within 10min of recon"]],
         ["shortcut_immediate"], "medium")
      else
        ([[Text "Activity within 10min"]], ["activity_immediate"], "medium")
    else if Qle_bool delta_minutes 30 then
      if orb is_external_share (orb is_export_download is_ownership_transfer)
      then
        ([[Text "Suspicious activity within 30min"]],
         ["suspicious_30min"], "medium")
      else
        ([[Text "Activity correlation detected"]],
         ["activity_correlated"], "low")
    else
      ([[Text "Activity correlation detected"]], ["activity_correlated"], "low") in
  let '(reasons, reason_codes, severity) :=
    if Rgeb recon_score 10.0 then
      (reasons ++ [[Text "High cumulative recon score ("; Float recon_score;
                    Text ")"]],
       reason_codes ++ ["high_recon_score"],
       if String.eqb severity "medium" then "high"
       else if String.eqb severity "low" then "medium"
       else severity)
    else if Rgeb recon_score 5.0 then
      (reasons ++ [[Text "Elevated recon score ("; Float recon_score; Text ")"]],
       reason_codes ++ ["elevated_recon_score"], severity)
    else (reasons, reason_codes, severity) in
  (severity, fjoin "; " reasons, reason_codes).

(** The loop state of [correlate_events]: the findings so far, the
    [matched_recon] flag of the current exfil event, and the detector, whose
    collaborators are mutated by the calls. *)
Record loop := {
  findings : list Finding.t;
  matched_recon : bool;
  self_ : GeminiExfilDetector
}.

(** The draft [Finding] built for a matching (recon, exfil) pair. *)
Definition draft (exfil : ExfilEvent.t) (recon : ReconEvent.t)
    (delta_minutes : Q) (recon_score : R)
    (severity : string) (reason : fstring) (reason_codes : list string)
    : Finding.t :=
  {| Finding.severity := severity;
     Finding.actor := ExfilEvent.actor exfil;
     Finding.exfil_event := ExfilEvent.event_name exfil;
     Finding.exfil_time := Iso (ExfilEvent.timestamp exfil);
     Finding.doc_id := ExfilEvent.doc_id exfil;
     Finding.doc_title := ExfilEvent.doc_title exfil;
     Finding.recon_action := ReconEvent.action recon;
     Finding.recon_time := Iso (ReconEvent.timestamp recon);
     Finding.delta_minutes := round2_Q delta_minutes;
     Finding.visibility := ExfilEvent.visibility exfil;
     Finding.reason := reason;
     Finding.event_ids := (ReconEvent.event_id recon, ExfilEvent.event_id exfil);
     Finding.recon_score := Some recon_score;
     Finding.file_context := None;
     Finding.intent_analysis := None;
     Finding.reason_codes := Some reason_codes;
     Finding.ip_address := ExfilEvent.ip_address exfil;
     Finding.geo_anomaly := None |}.

(** The "delayed exfil" [Finding]. *)
Definition delayed (exfil : ExfilEvent.t) (recon_score : R) : Finding.t :=
  {| Finding.severity := "medium";
     Finding.actor := ExfilEvent.actor exfil;
     Finding.exfil_event := ExfilEvent.event_name exfil;
     Finding.exfil_time := Iso (ExfilEvent.timestamp exfil);
     Finding.doc_id := ExfilEvent.doc_id exfil;
     Finding.doc_title := ExfilEvent.doc_title exfil;
     Finding.recon_action := "cumulative_recon";
     Finding.recon_time := Literal "N/A (multi-stage)";
     Finding.delta_minutes := 0.0;
     Finding.visibility := ExfilEvent.visibility exfil;
     Finding.reason :=
       [Text "Delayed exfil after cumulative recon (score="; Float recon_score;
        Text ")"];
     Finding.event_ids := ("N/A", ExfilEvent.event_id exfil);
     Finding.recon_score := Some recon_score;
     Finding.file_context := None;
     Finding.intent_analysis := None;
     Finding.reason_codes := None;
     Finding.ip_address := None;
     Finding.geo_anomaly := None |}.

(** [0 <= delta_minutes <= window_minutes] *)
Definition in_window (delta_minutes : Q) (window_minutes : Z) : bool :=
  andb (Qle_bool 0 delta_minutes)
       (Qle_bool delta_minutes (inject_Z window_minutes)).

Definition delta_minutes_of (exfil : ExfilEvent.t) (recon : ReconEvent.t) : Q :=
  let delta_seconds :=
    total_seconds_Q (ExfilEvent.timestamp exfil) (ReconEvent.timestamp recon) in
  (delta_seconds / 60.0)%Q.

(** The body of the inner loop: one recon event of the exfil's actor. *)
Definition correlate_recon (wall : datetime) (window_minutes : Z)
    (exfil : ExfilEvent.t) (recon_score : R) (st : loop)
    (recon : ReconEvent.t) : loop :=
  let self := self_ st in
  let delta_minutes := delta_minutes_of exfil recon in
  if in_window delta_minutes window_minutes then
    let result := _calculate_severity exfil delta_minutes recon_score in
    let severity := fst (fst result) in
    let reason := snd (fst result) in
    let reason_codes := snd result in
    let canary_docs : gset string := list_to_set (canary_doc_ids self) in
    let '(severity, reason, reason_codes) :=
      if andb (py.truthy (ExfilEvent.doc_id exfil))
              (bool_decide (default "" (ExfilEvent.doc_id exfil) ∈ canary_docs))
      then ("high", Text "CANARY DOCUMENT ACCESS - " :: reason,
            reason_codes ++ ["canary_doc_access"])
      else (severity, reason, reason_codes) in
    let finding :=
      draft exfil recon delta_minutes recon_score severity reason reason_codes in
    let finding_dict := finding in
    let '(finding_dict, enricher) :=
      match file_enricher self with
      | Some fe =>
          if py.truthy (ExfilEvent.doc_id exfil) then
            let '(d, fe) :=
              enrich_finding fe wall finding_dict (ExfilEvent.doc_id exfil) in
            (d, Some fe)
          else (finding_dict, Some fe)
      | None => (finding_dict, None)
      end in
    match intent_classifier self with
    | Some ic =>
        let '(intent_analysis, ic) :=
          classify_intent ic wall
            (ExfilEvent.actor exfil) (ExfilEvent.event_name exfil)
            (ExfilEvent.doc_id exfil) (ExfilEvent.owner exfil)
            (ExfilEvent.visibility exfil) (ExfilEvent.timestamp exfil)
            (ExfilEvent.new_value exfil) in
        let self := set_collaborators self enricher (Some ic) in
        let finding_dict :=
          Finding.set_intent_analysis finding_dict (Some intent_analysis) in
        if should_suppress intent_analysis then
          (* continue *)
          {| findings := findings st; matched_recon := true; self_ := self |}
        else
          let finding_dict :=
            if String.eqb (intent intent_analysis) "legitimate" then
              if String.eqb (Finding.severity finding_dict) "high" then
                Finding.set_severity finding_dict "medium"
              else if String.eqb (Finding.severity finding_dict) "medium" then
                Finding.set_severity finding_dict "low"
              else finding_dict
            else finding_dict in
          {| findings := findings st ++ [finding_dict];
             matched_recon := true;
             self_ := self |}
    | None =>
        {| findings := findings st ++ [finding_dict];
           matched_recon := true;
           self_ := set_collaborators self enricher None |}
    end
  else st.

(** [recon_by_actor[recon.actor].append(recon)] over all recon events. *)
Definition bucket (recon_by_actor : gmap string (list ReconEvent.t))
    (recon : ReconEvent.t) : gmap string (list ReconEvent.t) :=
  <[ReconEvent.actor recon :=
      default [] (recon_by_actor !! ReconEvent.actor recon) ++ [recon]]>
    recon_by_actor.

Definition build_baselines_from_history (ic : IntentClassifier)
    (wall : datetime) (drive_events : list ExfilEvent.t) : IntentClassifier :=
  fold_left
    (fun ic event =>
       let destination_domain :=
         _extract_destination_domain (ExfilEvent.new_value event)
                                     (ExfilEvent.visibility event) in
       update_baseline ic wall (ExfilEvent.actor event)
                       (ExfilEvent.event_name event) destination_domain)
    drive_events ic.

(** The body of the outer loop: one exfil event. *)
Definition correlate_exfil (wall : datetime) (window_minutes : Z)
    (recon_by_actor : gmap string (list ReconEvent.t))
    (st : loop) (exfil : ExfilEvent.t) : loop :=
  let recon_score :=
    get_recon_score (recon_tracker (self_ st)) (ExfilEvent.actor exfil)
                    (ExfilEvent.timestamp exfil) in
  let st :=
    fold_left (correlate_recon wall window_minutes exfil recon_score)
      (default [] (recon_by_actor !! ExfilEvent.actor exfil))
      {| findings := findings st; matched_recon := false; self_ := self_ st |} in
  if andb (negb (matched_recon st)) (Rgtb recon_score 5.0) then
    {| findings := findings st ++ [delayed exfil recon_score];
       matched_recon := matched_recon st;
       self_ := self_ st |}
  else st.

(** [correlate_events]: the findings, and the detector after the run. *)
Definition correlate_events (self : GeminiExfilDetector) (wall : datetime)
    (recon_events : list ReconEvent.t) (exfil_events : list ExfilEvent.t)
    (window_minutes : Z) : list Finding.t * GeminiExfilDetector :=
  let recon_by_actor := fold_left bucket recon_events ∅ in
  let self :=
    match intent_classifier self with
    | Some ic =>
        set_collaborators self (file_enricher self)
          (Some (build_baselines_from_history ic wall exfil_events))
    | None => self
    end in
  let st :=
    fold_left (correlate_exfil wall window_minutes recon_by_actor) exfil_events
      {| findings := []; matched_recon := false; self_ := self |} in
  (findings st, self_ st).

End detector.

(** ** The tables of the specification, for comparison with the code *)

Module spec.

Import detector.

(** Section 4.7: the classification of an egress event. *)
Definition external_share (exfil : ExfilEvent.t) : bool :=
  andb (orb (py.str_in "change_acl" (ExfilEvent.event_name exfil))
            (py.str_in "change_visibility" (ExfilEvent.event_name exfil)))
       (match ExfilEvent.visibility exfil with
        | Some v =>
            py.list_in v
              ["people_with_link"; "public_on_the_web"; "shared_externally"]
        | None => false
        end).

Definition export_download (exfil : ExfilEvent.t) : bool :=
  orb (py.str_in "download" (ExfilEvent.event_name exfil))
      (py.str_in "export" (ExfilEvent.event_name exfil)).

Definition ownership_transfer (exfil : ExfilEvent.t) : bool :=
  py.str_in "transfer_ownership" (ExfilEvent.event_name exfil).

Definition shortcut (exfil : ExfilEvent.t) : bool :=
  py.str_in "create_shortcut" (ExfilEvent.event_name exfil).

Definition publish (exfil : ExfilEvent.t) : bool :=
  py.str_in "publish_to_web" (ExfilEvent.event_name exfil).

(** The base-severity table: condition, severity, code. *)
Definition base_table (exfil : ExfilEvent.t) (delta : Q)
    : list (bool * (string * string)) :=
  [ (ExfilEvent.is_revert exfil, ("high", "external_toggle_revert"));
    (andb (Qle_bool delta 10)
          (orb (external_share exfil)
               (orb (ownership_transfer exfil) (publish exfil))),
     ("high", "external_share_immediate"));
    (andb (Qle_bool delta 10) (export_download exfil),
     ("high", "export_immediate"));
    (andb (Qle_bool delta 10) (shortcut exfil),
     ("medium", "shortcut_immediate"));
    (Qle_bool delta 10, ("medium", "activity_immediate"));
    (andb (Qle_bool delta 30)
          (orb (external_share exfil)
               (orb (export_download exfil) (ownership_transfer exfil))),
     ("medium", "suspicious_30min"));
    (true, ("low", "activity_correlated")) ].

(** First matching row wins. *)
Fixpoint first_match (rows : list (bool * (string * string)))
    : string * string :=
  match rows with
  | [] => ("low", "activity_correlated")
  | (c, r) :: rest => if c then r else first_match rest
  end.

(** Promotion by one step: low to medium, medium to high. *)
Definition promote (severity : string) : string :=
  if String.eqb severity "low" then "medium"
  else if String.eqb severity "medium" then "high"
  else severity.

(** Base severity followed by recon-score amplification: the severity and
    the reason codes. *)
Definition severity_engine (exfil : ExfilEvent.t) (delta : Q)
    (recon_score : R) : string * list string :=
  let '(severity, code) := first_match (base_table exfil delta) in
  if Rgeb recon_score 10.0
  then (promote severity, [code; "high_recon_score"])
  else if andb (Rgeb recon_score 5.0) (negb (Rgeb recon_score 10.0))
  then (severity, [code; "elevated_recon_score"])
  else (severity, [code]).

(** Section 4.3, step 2: the local part of an e-mail address, the text
    before the [@]. *)
Fixpoint local_part (email : string) : string :=
  match email with
  | EmptyString => EmptyString
  | String c rest =>
      if Ascii.eqb c "@" then EmptyString else String c (local_part rest)
  end.

End spec.

(** ** Concrete inputs *)

Module examples.

Import recon_tracker intent_classifier file_context detector.

(** Wednesday 2024-01-10, 11:00:00 and 11:02:00 UTC. *)
Definition T_11_00 : datetime := 1704884400000000%Z.
Definition T_11_02 : datetime := 1704884520000000%Z.

Definition alice : string := "alice@corp.example".

(** A detector with one canary document and one partner domain. *)
Definition c2_detector : GeminiExfilDetector :=
  {| canary_doc_ids := ["doc-canary"];
     recon_tracker := recon_tracker.__init__ None 14;
     file_enricher := None;
     intent_classifier :=
       Some (intent_classifier.__init__ [] ["partner.example"]) |}.

Definition c2_recon : ReconEvent.t :=
  ReconEvent.mk alice T_11_00 "docs" "summarize_file" "r-1".

(** A shortcut to the canary document, shared with a partner address. *)
Definition c2_exfil : ExfilEvent.t :=
  ExfilEvent.mk alice T_11_02 "create_shortcut" (Some "doc-canary") None None
    None (Some "bob@partner.example") None None None "e-1" None false.

(** A detector without collaborators, and a download at the very instant of
    the recon event. *)
Definition c8_detector : GeminiExfilDetector :=
  {| canary_doc_ids := [];
     recon_tracker := recon_tracker.__init__ None 14;
     file_enricher := None;
     intent_classifier := None |}.

Definition c8_exfil : ExfilEvent.t :=
  ExfilEvent.mk alice T_11_00 "download" (Some "doc-1") None None None None
    None None None "e-1" None false.

Definition c8_state : loop :=
  {| findings := []; matched_recon := false; self_ := c8_detector |}.

(** A classifier that trusts one domain, and a share to that domain. *)
Definition c1_classifier : IntentClassifier :=
  intent_classifier.__init__ ["example-partner.com"] [].

Definition c1_state : loop :=
  {| findings := [];
     matched_recon := false;
     self_ := {| canary_doc_ids := ["doc-canary"];
                 recon_tracker := recon_tracker.__init__ None 14;
                 file_enricher := None;
                 intent_classifier := Some c1_classifier |} |}.

Definition c1_exfil : ExfilEvent.t :=
  ExfilEvent.mk alice T_11_02 "change_user_access" (Some "doc-canary") None
    None None (Some "alice@example-partner.com") None None None "e-1" None
    false.

(** A classifier that has seen one download to [evil.example] by alice. *)
Definition c5_classifier : IntentClassifier :=
  update_baseline (intent_classifier.__init__ [] []) 0%Z alice "download"
    (Some "evil.example").

(** An enricher without configured sensitive labels. *)
Definition c6_enricher : FileContextEnricher :=
  {| drive_files_get := fun _ => None;
     sensitive_labels := ∅;
     high_risk_folders := ∅;
     file_cache := ∅ |}.

(** A tracker holding two [catch_me_up] activities of alice at 11:00. *)
Definition c10_tracker : ReconTracker :=
  record_recon
    (record_recon (recon_tracker.__init__ None 14) alice T_11_00 "docs"
       "catch_me_up" None)
    alice T_11_00 "docs" "catch_me_up" None.

Definition c10_state : loop :=
  {| findings := [];
     matched_recon := false;
     self_ := {| canary_doc_ids := ["doc-canary"];
                 recon_tracker := c10_tracker;
                 file_enricher := None;
                 intent_classifier := Some c1_classifier |} |}.

Definition c10_exfil : ExfilEvent.t :=
  ExfilEvent.mk alice T_11_00 "change_user_access" (Some "doc-canary") None
    None None (Some "alice@example-partner.com") None None None "e-9" None
    false.

End examples.

(** ** Predicates used in the statements *)

Import recon_tracker intent_classifier file_context detector.

(** *** Stored scores *)

(** Stored scores are never negative. *)
Definition nonneg_scores (l : list activity_data) : Prop :=
  Forall (fun a => forall s, ad_score a = Some s -> (0 <= s)%R) l.

Definition store_ok (m : gmap string (list activity_data)) : Prop :=
  forall key l, m !! key = Some l -> nonneg_scores l.

Definition tracker_ok (self : ReconTracker) : Prop :=
  store_ok (memory_store self) /\
  forall r, redis_client self = Some r -> store_ok (redis_data r).

(** *** Findings of the correlator *)

(** A finding that carries an intent analysis was not to be suppressed. *)
Definition not_suppressed (f : Finding.t) : Prop :=
  match Finding.intent_analysis f with
  | Some ia => should_suppress ia = false
  | None => True
  end.

(** The canary test of [correlate_events]. *)
Definition is_canary (canary : list string) (doc_id : option string) : bool :=
  andb (py.truthy doc_id)
       (bool_decide (default "" doc_id ∈ (list_to_set canary : gset string))).

(** The severity of an emitted canary finding: [high], lowered to [medium]
    by the intent downgrade. *)
Definition canary_severity (f : Finding.t) : string :=
  match Finding.intent_analysis f with
  | Some ia => if String.eqb (intent ia) "legitimate" then "medium" else "high"
  | None => "high"
  end.

(** What is known of a finding emitted for the pair [(recon, exfil)]. *)
Definition pair_facts (canary : list string) (exfil : ExfilEvent.t)
    (recon : ReconEvent.t) (score : R) (f : Finding.t) : Prop :=
  let delta := delta_minutes_of exfil recon in
  Finding.recon_time f = Iso (ReconEvent.timestamp recon)
  /\ Finding.exfil_time f = Iso (ExfilEvent.timestamp exfil)
  /\ Finding.recon_action f = ReconEvent.action recon
  /\ Finding.event_ids f = (ReconEvent.event_id recon, ExfilEvent.event_id exfil)
  /\ Finding.delta_minutes f = round2_Q delta
  /\ Finding.doc_id f = ExfilEvent.doc_id exfil
  /\ not_suppressed f
  /\ (is_canary canary (ExfilEvent.doc_id exfil) = true ->
      Finding.reason f
      = Text "CANARY DOCUMENT ACCESS - "
          :: snd (fst (_calculate_severity exfil delta score))
      /\ Finding.reason_codes f
         = Some (snd (_calculate_severity exfil delta score)
                 ++ ["canary_doc_access"])
      /\ Finding.severity f = canary_severity f).

(** Whether the intent classifier of [self], if any, asks to suppress the
    findings of the egress event [exfil]. *)
Definition suppresses (self : GeminiExfilDetector) (wall : datetime)
    (exfil : ExfilEvent.t) : bool :=
  match intent_classifier self with
  | Some ic =>
      should_suppress
        (fst (classify_intent ic wall
                (ExfilEvent.actor exfil) (ExfilEvent.event_name exfil)
                (ExfilEvent.doc_id exfil) (ExfilEvent.owner exfil)
                (ExfilEvent.visibility exfil) (ExfilEvent.timestamp exfil)
                (ExfilEvent.new_value exfil)))
  | None => false
  end.

(** The optional enrichment step of [correlate_events]. *)
Definition enrich_step (enricher : option FileContextEnricher)
    (wall : datetime) (exfil : ExfilEvent.t) (f : Finding.t)
    : Finding.t * option FileContextEnricher :=
  match enricher with
  | Some fe =>
      if py.truthy (ExfilEvent.doc_id exfil) then
        let '(d, fe) := enrich_finding fe wall f (ExfilEvent.doc_id exfil) in
        (d, Some fe)
      else (f, Some fe)
  | None => (f, None)
  end.

(** The intent downgrade of [correlate_events]. *)
Definition downgrade (ia : IntentAnalysis) (f : Finding.t) : Finding.t :=
  if String.eqb (intent ia) "legitimate" then
    if String.eqb (Finding.severity f) "high" then Finding.set_severity f "medium"
    else if String.eqb (Finding.severity f) "medium"
    then Finding.set_severity f "low"
    else f
  else f.

(** The rule the code follows for canary documents. *)
Definition canary_rule (canary : list string) (f : Finding.t) : Prop :=
  is_canary canary (Finding.doc_id f) = true ->
  match Finding.recon_time f with
  | Iso _ =>
      (exists rest,
         Finding.reason f = Text "CANARY DOCUMENT ACCESS - " :: rest)
      /\ (exists codes,
            Finding.reason_codes f = Some (codes ++ ["canary_doc_access"]))
      /\ Finding.severity f = canary_severity f
  | Literal _ => Finding.severity f = "medium"
  end.

(** The bound on [delta_minutes], by kind of finding. *)
Definition delta_rule (window_minutes : Z) (f : Finding.t) : Prop :=
  match Finding.recon_time f with
  | Iso _ =>
      (0 <= Finding.delta_minutes f)%Q
      /\ (Finding.delta_minutes f <= inject_Z window_minutes)%Q
  | Literal _ => Finding.delta_minutes f = 0.0%Q
  end.

(** What a delayed-exfil finding looks like. *)
Definition delayed_rule (f : Finding.t) : Prop :=
  match Finding.recon_time f with
  | Literal _ =>
      Finding.severity f = "medium"
      /\ Finding.file_context f = None
      /\ Finding.intent_analysis f = None
      /\ Finding.reason_codes f = None
  | Iso _ => True
  end.

(** *** Baselines *)

(** The baseline [_get_or_create_baseline] creates for an unknown actor. *)
Definition fresh_baseline (wall : datetime) (actor : string) : UserBaseline :=
  {| ub_actor := actor;
     typical_share_domains := ∅;
     typical_share_count := 0;
     typical_download_count := 0;
     first_seen := wall;
     last_updated := wall |}.

(** ** Further predicates and functions *)

(** The store [get_recon_score] reads is the one [record_recon] writes: no
    Redis client, or one that answers. *)
Definition readable (self : ReconTracker) : Prop :=
  match redis_client self with
  | Some r => redis_up r = true
  | None => True
  end.

(** The activity [record_recon] stores. *)
Definition recorded_activity (actor : string) (timestamp : datetime)
    (app action : string) (doc_id : option string) : activity_data :=
  {| ad_actor := actor; ad_timestamp := Some timestamp; ad_app := app;
     ad_action := action; ad_score := Some (_action_to_score action);
     ad_doc_id := doc_id |}.

(** The reputation the configured sets give to a lower-cased domain. *)
Definition sets_reputation (self : IntentClassifier) (domain_lower : string)
    : string :=
  if bool_decide (domain_lower ∈ trusted_domains self) then "trusted"
  else if bool_decide (domain_lower ∈ partner_domains self) then "partner"
  else "unknown".

(** Every cached reputation is the one the sets give. *)
Definition cache_ok (self : IntentClassifier) : Prop :=
  forall k v,
    domain_reputation_cache self !! k = Some v -> v = sets_reputation self k.

(** Classifier states of a run: a new classifier, then classifications and
    baseline updates in any order. *)
Inductive reachable : IntentClassifier -> Prop :=
| reachable_init allowed partner :
    reachable (intent_classifier.__init__ allowed partner)
| reachable_classify self wall actor exfil_event doc_id doc_owner visibility
    timestamp new_value :
    reachable self ->
    reachable (snd (classify_intent self wall actor exfil_event doc_id
                      doc_owner visibility timestamp new_value))
| reachable_update self wall actor exfil_event destination_domain :
    reachable self ->
    reachable (update_baseline self wall actor exfil_event destination_domain).

(** The baseline of an actor, an empty one when there is none yet. *)
Definition baseline_of (self : IntentClassifier) (wall : datetime)
    (actor : string) : UserBaseline :=
  default (fresh_baseline wall actor) (user_baselines self !! actor).

(** The destination domain of an egress event, when it has one. *)
Definition destination_of (event : ExfilEvent.t) : option string :=
  _extract_destination_domain (ExfilEvent.new_value event)
                              (ExfilEvent.visibility event).

(** The events of [actor] that carry a destination domain, and those named
    exactly [download] or [export]. *)
Definition shares_by (actor : string) (events : list ExfilEvent.t)
    : list ExfilEvent.t :=
  List.filter
    (fun e => andb (String.eqb (ExfilEvent.actor e) actor)
                   (py.truthy (destination_of e)))
    events.

Definition downloads_by (actor : string) (events : list ExfilEvent.t)
    : list ExfilEvent.t :=
  List.filter
    (fun e => andb (String.eqb (ExfilEvent.actor e) actor)
                   (py.list_in (ExfilEvent.event_name e) ["download"; "export"]))
    events.

(** An egress event whose destination domain the actor's baseline knows. *)
Definition familiar (ic : IntentClassifier) (wall : datetime)
    (event : ExfilEvent.t) : Prop :=
  py.truthy (destination_of event) = true ->
  default "" (destination_of event)
  ∈ typical_share_domains (baseline_of ic wall (ExfilEvent.actor event)).

(** A finding whose intent analysis, when it names a destination domain,
    counts that domain as one the actor has shared with before. *)
Definition historically_shared (f : Finding.t) : Prop :=
  forall ia d,
    Finding.intent_analysis f = Some ia ->
    destination_domain ia = Some d -> d <> "" ->
    In ("User has historically shared with " ++ d)%string (reasons ia)
    /\ ~ In ("First-time share with " ++ d)%string (reasons ia).

(** The three severities. *)
Definition valid_severity (s : string) : Prop :=
  s = "high" \/ s = "medium" \/ s = "low".

(** What identifies a finding: every field but the severity, the reason,
    the file context and the intent analysis. *)
Definition identity_fields (f : Finding.t) :=
  (Finding.actor f, Finding.exfil_event f, Finding.exfil_time f,
   Finding.doc_id f, Finding.doc_title f, Finding.recon_action f,
   Finding.recon_time f, Finding.delta_minutes f, Finding.visibility f,
   Finding.event_ids f, Finding.recon_score f, Finding.reason_codes f,
   Finding.ip_address f, Finding.geo_anomaly f).

(** A finding names events that were given to the run, of the finding's
    actor: a recon event and an egress event of one actor when it pairs two
    events, an egress event when it is a delayed-exfil finding. *)
Definition names_given_events (recon_events : list ReconEvent.t)
    (exfil_events : list ExfilEvent.t) (f : Finding.t) : Prop :=
  match Finding.recon_time f with
  | Literal _ =>
      exists exfil,
        In exfil exfil_events
        /\ Finding.actor f = ExfilEvent.actor exfil
        /\ Finding.event_ids f = ("N/A", ExfilEvent.event_id exfil)
        /\ Finding.exfil_event f = ExfilEvent.event_name exfil
  | Iso _ =>
      exists recon exfil,
        In recon recon_events /\ In exfil exfil_events
        /\ ReconEvent.actor recon = ExfilEvent.actor exfil
        /\ Finding.actor f = ExfilEvent.actor exfil
        /\ Finding.event_ids f
           = (ReconEvent.event_id recon, ExfilEvent.event_id exfil)
        /\ Finding.recon_action f = ReconEvent.action recon
        /\ Finding.exfil_event f = ExfilEvent.event_name exfil
  end.

(** The recon events of an egress event's actor that fall in its window. *)
Definition matches (recon_events : list ReconEvent.t) (window_minutes : Z)
    (exfil : ExfilEvent.t) : list ReconEvent.t :=
  List.filter
    (fun recon => in_window (delta_minutes_of exfil recon) window_minutes)
    (List.filter
       (fun recon =>
          String.eqb (ReconEvent.actor recon) (ExfilEvent.actor exfil))
       recon_events).

(** The number of findings one egress event contributes when nothing is
    suppressed: one per matching recon event, or one delayed-exfil finding
    when there is none and the score exceeds 5.0. *)
Definition contribution (tracker : ReconTracker)
    (recon_events : list ReconEvent.t) (window_minutes : Z)
    (exfil : ExfilEvent.t) : nat :=
  match length (matches recon_events window_minutes exfil) with
  | O =>
      if Rgtb (get_recon_score tracker (ExfilEvent.actor exfil)
                 (ExfilEvent.timestamp exfil)) 5.0
      then 1%nat else 0%nat
  | n => n
  end.

(** The egress event goes to a trusted domain. *)
Definition trusted_destination (ic : IntentClassifier) (exfil : ExfilEvent.t)
    : Prop :=
  exists d,
    destination_of exfil = Some d /\ d <> ""
    /\ py.lower d ∈ trusted_domains ic.

(** ** detector.py: revert detection *)

(** [_detect_reverts] files the event objects of [exfil_events] under their
    doc_id and later sets [is_revert] on some of them; the caller sees the
    change through the original list.  An object is referred to here by its
    position in [exfil_events]. *)
Definition reference := nat.

(** [event.doc_id and "visibility" in event.event_name.lower()] *)
Definition is_visibility_change (event : ExfilEvent.t) : bool :=
  andb (py.truthy (ExfilEvent.doc_id event))
       (py.str_in "visibility" (py.lower (ExfilEvent.event_name event))).

(** The first loop: [doc_visibility_changes[event.doc_id].append(event)],
    from position [i] on. *)
Fixpoint group_changes (i : reference) (exfil_events : list ExfilEvent.t)
    (doc_visibility_changes : gmap string (list (reference * ExfilEvent.t)))
    : gmap string (list (reference * ExfilEvent.t)) :=
  match exfil_events with
  | [] => doc_visibility_changes
  | event :: rest =>
      group_changes (S i) rest
        (if is_visibility_change event then
           let doc_id := default "" (ExfilEvent.doc_id event) in
           <[doc_id :=
               default [] (doc_visibility_changes !! doc_id) ++ [(i, event)]]>
             doc_visibility_changes
         else doc_visibility_changes)
  end.

(** [changes.sort(key=lambda e: e.timestamp)]: a stable sort, here by
    insertion after the entries that are not later. *)
Fixpoint insert_sorted (x : reference * ExfilEvent.t)
    (l : list (reference * ExfilEvent.t)) : list (reference * ExfilEvent.t) :=
  match l with
  | [] => [x]
  | y :: rest =>
      if (ExfilEvent.timestamp (snd y) <=? ExfilEvent.timestamp (snd x))%Z
      then y :: insert_sorted x rest
      else x :: y :: rest
  end.

Definition sort_by_timestamp (changes : list (reference * ExfilEvent.t))
    : list (reference * ExfilEvent.t) :=
  fold_left (fun sorted x => insert_sorted x sorted) changes [].

(** The test on two neighbours of one document's sorted changes. *)
Definition is_revert_pair (curr next_event : ExfilEvent.t) : bool :=
  let delta_minutes :=
    (total_seconds_Q (ExfilEvent.timestamp next_event)
                     (ExfilEvent.timestamp curr) / 60)%Q in
  if Qle_bool delta_minutes 10 then
    let curr_external := high_risk (ExfilEvent.visibility curr) in
    let next_internal := negb (high_risk (ExfilEvent.visibility next_event)) in
    andb curr_external next_internal
  else false.

(** The objects flagged while walking one document's sorted changes. *)
Fixpoint revert_pairs (changes : list (reference * ExfilEvent.t))
    : list reference :=
  match changes with
  | curr :: rest =>
      match rest with
      | next_event :: _ =>
          (if is_revert_pair (snd curr) (snd next_event)
           then [fst curr; fst next_event] else [])
          ++ revert_pairs rest
      | [] => []
      end
  | [] => []
  end.

(** The objects flagged over all documents. *)
Definition reverted (exfil_events : list ExfilEvent.t) : list reference :=
  flat_map (fun entry => revert_pairs (sort_by_timestamp (snd entry)))
    (map_to_list (group_changes 0 exfil_events ∅)).

(** [event.is_revert = True] *)
Definition set_is_revert (e : ExfilEvent.t) : ExfilEvent.t :=
  ExfilEvent.mk (ExfilEvent.actor e) (ExfilEvent.timestamp e)
    (ExfilEvent.event_name e) (ExfilEvent.doc_id e) (ExfilEvent.doc_title e)
    (ExfilEvent.visibility e) (ExfilEvent.old_visibility e)
    (ExfilEvent.new_value e) (ExfilEvent.old_value e) (ExfilEvent.owner e)
    (ExfilEvent.destination_folder_id e) (ExfilEvent.event_id e)
    (ExfilEvent.ip_address e) true.

(** The list as the caller sees it once the objects in [flagged] are
    marked. *)
Fixpoint mark_from (flagged : list reference) (i : reference)
    (exfil_events : list ExfilEvent.t) : list ExfilEvent.t :=
  match exfil_events with
  | [] => []
  | event :: rest =>
      (if bool_decide (i ∈ flagged) then set_is_revert event else event)
      :: mark_from flagged (S i) rest
  end.

Definition _detect_reverts (exfil_events : list ExfilEvent.t)
    : list ExfilEvent.t :=
  mark_from (reverted exfil_events) 0 exfil_events.

(** Two visibility changes of one document, the first exposing it, at most
    ten minutes apart. *)
Definition revert_partners (e e' : ExfilEvent.t) : Prop :=
  is_visibility_change e = true /\ is_visibility_change e' = true
  /\ ExfilEvent.doc_id e = ExfilEvent.doc_id e'
  /\ (ExfilEvent.timestamp e <= ExfilEvent.timestamp e')%Z
  /\ (ExfilEvent.timestamp e' - ExfilEvent.timestamp e <= 600000000)%Z
  /\ high_risk (ExfilEvent.visibility e) = true
  /\ high_risk (ExfilEvent.visibility e') = false.

(** Public at 09:00, private at 09:04, and an unrelated download. *)
Definition revert_example : list ExfilEvent.t :=
  [ ExfilEvent.mk "alice@corp.example" 1704877200000000%Z
      "change_document_visibility" (Some "D2") None (Some "public_on_the_web")
      None None None None None "e-1" None false;
    ExfilEvent.mk "alice@corp.example" 1704877300000000%Z "download"
      (Some "D2") None None None None None None None "e-2" None false;
    ExfilEvent.mk "alice@corp.example" 1704877440000000%Z
      "change_document_visibility" (Some "D2") None (Some "private") None None
      None None None "e-3" None false ].

(** An entry of [doc_visibility_changes[d]]: an object of the list, a
    visibility change, of document [d]. *)
Definition entry_ok (all : list ExfilEvent.t) (d : string)
    (x : reference * ExfilEvent.t) : Prop :=
  all !! fst x = Some (snd x)
  /\ is_visibility_change (snd x) = true
  /\ ExfilEvent.doc_id (snd x) = Some d.

Definition entries_ok (all : list ExfilEvent.t)
    (m : gmap string (list (reference * ExfilEvent.t))) : Prop :=
  forall d l, m !! d = Some l -> Forall (entry_ok all d) l.

(** Not later than, on entries. *)
Definition not_later (x y : reference * ExfilEvent.t) : Prop :=
  (ExfilEvent.timestamp (snd x) <= ExfilEvent.timestamp (snd y))%Z.

(** An entry after marking. *)
Definition mark_entry (flagged : list reference)
    (x : reference * ExfilEvent.t) : reference * ExfilEvent.t :=
  (fst x,
   if bool_decide (fst x ∈ flagged) then set_is_revert (snd x) else snd x).

(** ** burstiness.py *)

Module burstiness.

(** [sorted(timestamps)], by insertion. *)
Fixpoint insert (t : datetime) (l : list datetime) : list datetime :=
  match l with
  | [] => [t]
  | y :: rest => if (y <=? t)%Z then y :: insert t rest else t :: y :: rest
  end.

Definition sorted (timestamps : list datetime) : list datetime :=
  fold_left (fun acc t => insert t acc) timestamps [].

(** [(sorted_times[i + 1] - sorted_times[i]).total_seconds()] for every
    neighbouring pair. *)
Fixpoint inter_arrival (sorted_times : list datetime) : list R :=
  match sorted_times with
  | a :: rest =>
      match rest with
      | b :: _ => total_seconds_R b a :: inter_arrival rest
      | [] => []
      end
  | [] => []
  end.

Definition Rsum (xs : list R) : R := fold_right Rplus 0%R xs.

(** [statistics.mean] *)
Definition mean (xs : list R) : R := (Rsum xs / INR (length xs))%R.

(** [statistics.stdev], the sample standard deviation; [None] is the
    [StatisticsError] raised for fewer than two values. *)
Definition stdev (xs : list R) : option R :=
  if (length xs <? 2)%nat then None
  else
    let m := mean xs in
    Some (sqrt (Rsum (map (fun x => Rsqr (x - m)) xs)
                / INR (length xs - 1))%R).

(** [max] of a non-empty list. *)
Definition maximum (xs : list R) : R := fold_right Rmax (hd 0%R xs) xs.

Definition Reqb (x y : R) : bool := if Req_dec_T x y then true else false.

Definition calculate_burstiness_score (timestamps : list datetime)
    (action_count : Z) : R :=
  if (length timestamps <? 2)%nat then 0.0%R
  else
    let sorted_times := sorted timestamps in
    let inter_arrival_seconds := inter_arrival sorted_times in
    if orb (Nat.eqb (length inter_arrival_seconds) 0)
           (forallb (fun t => Reqb t 0) inter_arrival_seconds)
    then 10.0%R
    else
      let mean_interval := mean inter_arrival_seconds in
      if Reqb mean_interval 0 then 10.0%R
      else
        let cv :=
          match stdev inter_arrival_seconds with
          | Some std_interval => (std_interval / mean_interval)%R
          | None => 0.0%R
          end in
        let action_density :=
          if Rgtb (maximum inter_arrival_seconds) 0
          then (IZR action_count / (maximum inter_arrival_seconds / 60.0))%R
          else IZR action_count in
        let burstiness_score :=
          Rmin 10.0 (cv * 2.0 + action_density * 0.5)%R in
        round2_R burstiness_score.

Definition is_burst_pattern (timestamps : list datetime) (threshold : R)
    : bool :=
  let score :=
    calculate_burstiness_score timestamps (Z.of_nat (length timestamps)) in
  Rgeb score threshold.

End burstiness.

(** * Properties *)

Local Open Scope R_scope.

(** ** The embedding on small inputs *)

Example str_in_substring :
  py.str_in "visibility" "change_document_visibility" = true
  /\ py.str_in "change_acl" "change_user_access" = false.
Proof. split; reflexivity. Qed.

Example split_last_takes_last_part :
  py.split_last "@" "a@b@c.org " = "c.org "
  /\ py.strip "  a b  " = "a b"
  /\ py.lower "Bob@Corp.Example" = "bob@corp.example".
Proof. repeat split; reflexivity. Qed.

Example wednesday_eleven :
  weekday examples.T_11_00 = 2%Z /\ hour examples.T_11_00 = 11%Z
  /\ _is_off_hours examples.T_11_00 = false.
Proof. repeat split; reflexivity. Qed.

Example round2_Q_half_even :
  (round2_Q (1 # 8) == 12 # 100)%Q /\ (round2_Q (3 # 8) == 38 # 100)%Q.
Proof. split; reflexivity. Qed.

Example extract_destination_domain_examples :
  _extract_destination_domain (Some "bob@partner.example") None
  = Some "partner.example"
  /\ _extract_destination_domain (Some "people_with_link")
       (Some "people_with_link") = None
  /\ _extract_destination_domain None (Some "public_on_the_web") = None.
Proof. repeat split; reflexivity. Qed.

Example base_table_shortcut :
  spec.first_match (spec.base_table examples.c2_exfil 2)
  = ("medium", "shortcut_immediate")
  /\ spec.first_match (spec.base_table examples.c8_exfil 25)
     = ("medium", "suspicious_30min").
Proof. split; vm_compute; reflexivity. Qed.

Example classify_partner_share :
  let ic := build_baselines_from_history
              (intent_classifier.__init__ [] ["partner.example"]) 0%Z
              [examples.c2_exfil] in
  let ia := fst (classify_intent ic 0%Z examples.alice "create_shortcut"
                   (Some "doc-canary") None None examples.T_11_02
                   (Some "bob@partner.example")) in
  intent ia = "legitimate" /\ should_suppress ia = false
  /\ (confidence ia == 0.1)%Q
  /\ reasons ia
     = ["Destination domain partner.example is a known partner";
        "User has historically shared with partner.example"].
Proof. cbv zeta. repeat split; vm_compute; reflexivity. Qed.

(** ** Numbers *)

Lemma Rgeb_true x y : Rgeb x y = true <-> x >= y.
Proof. unfold Rgeb. destruct (Rge_dec x y); split; (congruence || tauto). Qed.

Lemma Rgeb_false x y : Rgeb x y = false <-> x < y.
Proof.
  unfold Rgeb. destruct (Rge_dec x y); split; try congruence; try lra.
Qed.

Lemma Rgtb_true x y : Rgtb x y = true <-> x > y.
Proof. unfold Rgtb. destruct (Rgt_dec x y); split; (congruence || tauto). Qed.

Lemma Rgtb_false x y : Rgtb x y = false <-> x <= y.
Proof.
  unfold Rgtb. destruct (Rgt_dec x y); split; try congruence; try lra.
Qed.

Lemma Rcompare_half_Lt d : d < 1 / 2 -> Rcompare_half d = Lt.
Proof. intros H. unfold Rcompare_half. destruct (Rlt_dec d (1 / 2)); tauto. Qed.

Lemma Rcompare_half_Gt d : 1 / 2 < d -> Rcompare_half d = Gt.
Proof.
  intros H. unfold Rcompare_half.
  destruct (Rlt_dec d (1 / 2)); [lra|].
  destruct (Rlt_dec (1 / 2) d); tauto.
Qed.

Lemma Rcompare_half_Eq d : d = 1 / 2 -> Rcompare_half d = Eq.
Proof.
  intros H. unfold Rcompare_half.
  destruct (Rlt_dec d (1 / 2)); [lra|].
  destruct (Rlt_dec (1 / 2) d); [lra|reflexivity].
Qed.

Lemma half_even_bounds f c : (f <= half_even f c <= f + 1)%Z.
Proof. destruct c; simpl; try destruct (Z.even f); lia. Qed.

(** Rounding half to even is monotone. *)
Lemma Rround_half_even_mono x y :
  x <= y -> (Rround_half_even x <= Rround_half_even y)%Z.
Proof.
  intros Hxy. unfold Rround_half_even.
  pose proof (Zfloor_le x y Hxy) as Hf.
  pose proof (half_even_bounds (Zfloor x) (Rcompare_half (x - IZR (Zfloor x)))).
  pose proof (half_even_bounds (Zfloor y) (Rcompare_half (y - IZR (Zfloor y)))).
  destruct (Z.eq_dec (Zfloor x) (Zfloor y)) as [E|NE]; [|lia].
  rewrite <- E in *. clear Hf.
  set (f := Zfloor x) in *.
  destruct (Rtotal_order (x - IZR f) (1 / 2)) as [Hx|[Hx|Hx]].
  - rewrite (Rcompare_half_Lt _ Hx). simpl. lia.
  - rewrite (Rcompare_half_Eq _ Hx).
    destruct (Rtotal_order (y - IZR f) (1 / 2)) as [Hy|[Hy|Hy]]; [lra| |].
    + rewrite (Rcompare_half_Eq _ Hy). lia.
    + rewrite (Rcompare_half_Gt _ Hy). simpl. destruct (Z.even f); lia.
  - rewrite (Rcompare_half_Gt _ Hx).
    assert (Hy : 1 / 2 < y - IZR f) by lra.
    rewrite (Rcompare_half_Gt _ Hy). lia.
Qed.

Lemma round2_R_mono x y : x <= y -> round2_R x <= round2_R y.
Proof.
  intros H. unfold round2_R.
  assert (Hm : (Rround_half_even (x * 100) <= Rround_half_even (y * 100))%Z)
    by (apply Rround_half_even_mono; lra).
  apply IZR_le in Hm. lra.
Qed.

Lemma Rround_half_even_IZR n : Rround_half_even (IZR n) = n.
Proof.
  unfold Rround_half_even. rewrite ZfloorZ.
  rewrite Rcompare_half_Lt by lra. reflexivity.
Qed.

(** A whole number is its own rounding. *)
Lemma round2_R_IZR n : round2_R (IZR n) = IZR n.
Proof.
  unfold round2_R.
  replace (IZR n * 100) with (IZR (n * 100)) by (rewrite mult_IZR; reflexivity).
  rewrite Rround_half_even_IZR, mult_IZR. field.
Qed.

(** ** recon_tracker: decay and score *)

Section Decay.

Lemma ln_half_neg : ln 0.5 < 0.
Proof. rewrite <- ln_1. apply ln_increasing; lra. Qed.

(** [0.5 ** x] is antitone in [x]. *)
Lemma Rpower_half_antitone x y : x <= y -> Rpower 0.5 y <= Rpower 0.5 x.
Proof.
  intros H. unfold Rpower. pose proof ln_half_neg as Hl.
  destruct (Req_dec (y * ln 0.5) (x * ln 0.5)) as [E|NE].
  - rewrite E. lra.
  - left. apply exp_increasing. nra.
Qed.

Lemma Rpower_half_gt_1 x : x < 0 -> 1 < Rpower 0.5 x.
Proof.
  intros H. unfold Rpower. rewrite <- exp_0. apply exp_increasing.
  pose proof ln_half_neg. nra.
Qed.

Lemma Rpower_half_lt_1 x : 0 < x -> Rpower 0.5 x < 1.
Proof.
  intros H. unfold Rpower. pose proof ln_half_neg as Hl.
  rewrite <- exp_0. apply exp_increasing. nra.
Qed.

Lemma Rpower_half_0 : Rpower 0.5 0 = 1.
Proof. apply Rpower_O. lra. Qed.

Lemma Rpower_half_pos x : 0 < Rpower 0.5 x.
Proof. unfold Rpower. apply exp_pos. Qed.

(** The exponent of the decay, as a function of the two instants. *)
Lemma decay_exponent_le a t1 t2 :
  (t1 <= t2)%Z ->
  total_seconds_R t1 a / 3600 / DECAY_HALF_LIFE_HOURS
  <= total_seconds_R t2 a / 3600 / DECAY_HALF_LIFE_HOURS.
Proof.
  intros H. unfold total_seconds_R, DECAY_HALF_LIFE_HOURS, MICROS_PER_SECOND.
  assert (IZR (t1 - a) <= IZR (t2 - a)) by (apply IZR_le; lia).
  lra.
Qed.

Lemma decay_factor_antitone a t1 t2 :
  (t1 <= t2)%Z ->
  _calculate_decay_factor a t2 <= _calculate_decay_factor a t1.
Proof.
  intros H. unfold _calculate_decay_factor.
  apply Rpower_half_antitone, decay_exponent_le, H.
Qed.

Lemma decay_factor_same t : _calculate_decay_factor t t = 1.
Proof.
  unfold _calculate_decay_factor, total_seconds_R.
  rewrite Z.sub_diag.
  replace (0 / IZR MICROS_PER_SECOND / 3600 / DECAY_HALF_LIFE_HOURS) with 0.
  - apply Rpower_half_0.
  - unfold MICROS_PER_SECOND, DECAY_HALF_LIFE_HOURS. lra.
Qed.

Lemma action_to_score_pos action : 0 < _action_to_score action.
Proof.
  unfold _action_to_score.
  repeat match goal with |- context [String.eqb ?a ?b] =>
    destruct (String.eqb a b) end; lra.
Qed.

Lemma sum_antitone l t1 t2 :
  nonneg_scores l -> (t1 <= t2)%Z ->
  forall acc1 acc2, acc2 <= acc1 ->
  fold_left (add_activity t2) l acc2 <= fold_left (add_activity t1) l acc1.
Proof.
  intros Hl Ht. induction Hl as [|a l Ha Hl IH]; simpl; intros acc1 acc2 Hacc.
  - exact Hacc.
  - apply IH. unfold add_activity.
    destruct (ad_timestamp a) as [at_|]; [|exact Hacc].
    destruct (ad_score a) as [s|]; [|exact Hacc].
    pose proof (Ha s eq_refl) as Hs.
    pose proof (decay_factor_antitone at_ t1 t2 Ht) as Hd.
    nra.
Qed.

Lemma store_ok_empty : store_ok ∅.
Proof. intros key l H. rewrite lookup_empty in H. discriminate. Qed.

Lemma nonneg_default (m : gmap string (list activity_data)) key :
  store_ok m -> nonneg_scores (default [] (m !! key)).
Proof.
  intros H. destruct (m !! key) as [l|] eqn:E; simpl.
  - exact (H key l E).
  - constructor.
Qed.

Lemma store_ok_append (m : gmap string (list activity_data)) key l a :
  store_ok m -> nonneg_scores l ->
  (forall s, ad_score a = Some s -> 0 <= s) ->
  store_ok (<[key := l ++ [a]]> m).
Proof.
  intros Hm Hl Ha k l' H.
  destruct (decide (key = k)) as [->|Hne].
  - rewrite lookup_insert_eq in H. injection H as <-.
    apply Forall_app. split; [exact Hl|]. constructor; [exact Ha|constructor].
  - rewrite lookup_insert_ne in H by exact Hne. exact (Hm k l' H).
Qed.

Lemma get_redis_nonneg r key :
  store_ok (redis_data r) -> nonneg_scores (_get_redis_activities r key).
Proof.
  intros H. unfold _get_redis_activities.
  destruct (redis_up r); [apply nonneg_default, H|constructor].
Qed.

Lemma store_in_memory_ok self key a :
  tracker_ok self -> (forall s, ad_score a = Some s -> 0 <= s) ->
  tracker_ok (_store_in_memory self key a).
Proof.
  intros [Hm Hr] Ha. split; simpl.
  - apply store_ok_append; [exact Hm|apply nonneg_default, Hm|exact Ha].
  - exact Hr.
Qed.

Lemma record_recon_ok self actor timestamp app action doc_id :
  tracker_ok self ->
  tracker_ok (record_recon self actor timestamp app action doc_id).
Proof.
  intros Hok. unfold record_recon.
  set (a := {| ad_actor := actor; ad_timestamp := Some timestamp;
               ad_app := app; ad_action := action;
               ad_score := Some (_action_to_score action);
               ad_doc_id := doc_id |}).
  assert (Ha : forall s, ad_score a = Some s -> 0 <= s).
  { intros s Hs. injection Hs as <-. left. apply action_to_score_pos. }
  destruct (redis_client self) as [r|] eqn:Er.
  - destruct (redis_up r) eqn:Eu.
    + destruct Hok as [Hm Hr]. split; simpl; [exact Hm|].
      intros r' Hr'. injection Hr' as <-. simpl.
      apply store_ok_append; [exact (Hr r Er)| |exact Ha].
      apply get_redis_nonneg. exact (Hr r Er).
    + apply store_in_memory_ok; assumption.
  - apply store_in_memory_ok; assumption.
Qed.

Lemma recorded_ok self : recorded self -> tracker_ok self.
Proof.
  induction 1 as [client ttl Hc|self actor ts app action doc_id _ IH
                 |self r _ IH Er].
  - split; simpl; [apply store_ok_empty|].
    intros r Hr. rewrite (Hc r Hr). apply store_ok_empty.
  - apply record_recon_ok, IH.
  - destruct IH as [Hm Hr]. split; simpl; [exact Hm|].
    intros r' Hr'. injection Hr' as <-. simpl. exact (Hr r Er).
Qed.

Lemma stored_activities_nonneg self key :
  tracker_ok self -> nonneg_scores (stored_activities self key).
Proof.
  intros [Hm Hr]. unfold stored_activities.
  destruct (redis_client self) as [r|].
  - apply get_redis_nonneg. exact (Hr r eq_refl).
  - apply nonneg_default, Hm.
Qed.

End Decay.

(** C4, as stated, fails: an activity 48 hours after [now] is weighted by
    [0.5 ** (-1.0)], which is 2 and not 1. *)
Lemma C4_future_activity_not_clamped :
  recon_tracker._calculate_decay_factor (48 * MICROS_PER_HOUR)%Z 0%Z = 2
  /\ recon_tracker._calculate_decay_factor (48 * MICROS_PER_HOUR)%Z 0%Z <> 1.
Proof.
  assert (E : recon_tracker._calculate_decay_factor (48 * MICROS_PER_HOUR)%Z 0%Z = 2).
  { unfold recon_tracker._calculate_decay_factor, total_seconds_R,
      recon_tracker.DECAY_HALF_LIFE_HOURS.
    replace (IZR (0 - 48 * MICROS_PER_HOUR)%Z / IZR MICROS_PER_SECOND / 3600 / 48)
      with (Ropp 1).
    - rewrite Rpower_Ropp, Rpower_1 by lra. lra.
    - replace (0 - 48 * MICROS_PER_HOUR)%Z with (-172800000000)%Z
        by reflexivity.
      unfold MICROS_PER_SECOND. lra. }
  split; [exact E|]. rewrite E. lra.
Qed.

(** The sign of the exponent of [_calculate_decay_factor]. *)
Lemma decay_exponent_sign (activity_time current_time : datetime) :
  let x := total_seconds_R current_time activity_time / 3600
           / recon_tracker.DECAY_HALF_LIFE_HOURS in
  ((current_time < activity_time)%Z -> x < 0)
  /\ ((activity_time < current_time)%Z -> 0 < x).
Proof.
  cbv zeta.
  unfold total_seconds_R, recon_tracker.DECAY_HALF_LIFE_HOURS, MICROS_PER_SECOND.
  split; intros H.
  - assert (IZR (current_time - activity_time) < 0) by (apply IZR_lt; lia).
    lra.
  - assert (0 < IZR (current_time - activity_time)) by (apply IZR_lt; lia).
    lra.
Qed.

(** C4 (amended): the decay factor [0.5 ** x] is not clamped.  It is
    strictly greater than 1.0 exactly when the activity's timestamp is later
    than the scoring time (a negative exponent), exactly 1.0 exactly when
    the two instants coincide, and strictly between 0 and 1.0 exactly when
    the activity lies in the past. *)
Theorem C4_future_activity_amplified (activity_time current_time : datetime) :
  let factor :=
    recon_tracker._calculate_decay_factor activity_time current_time in
  (1 < factor <-> (current_time < activity_time)%Z)
  /\ (factor = 1 <-> current_time = activity_time)
  /\ (factor < 1 <-> (activity_time < current_time)%Z)
  /\ 0 < factor.
Proof.
  cbv zeta.
  pose proof (decay_exponent_sign activity_time current_time) as [Hneg Hpos].
  cbv zeta in Hneg, Hpos.
  assert (Hfut : (current_time < activity_time)%Z ->
                 1 < recon_tracker._calculate_decay_factor activity_time
                       current_time)
    by (intros H; apply Rpower_half_gt_1, Hneg, H).
  assert (Hpast : (activity_time < current_time)%Z ->
                  recon_tracker._calculate_decay_factor activity_time
                    current_time < 1)
    by (intros H; apply Rpower_half_lt_1, Hpos, H).
  assert (Hsame : current_time = activity_time ->
                  recon_tracker._calculate_decay_factor activity_time
                    current_time = 1)
    by (intros ->; apply decay_factor_same).
  assert (Hcases : (current_time < activity_time)%Z
                   \/ current_time = activity_time
                   \/ (activity_time < current_time)%Z) by lia.
  repeat match goal with |- _ /\ _ => split end.
  - split; [|exact Hfut]. intros H1.
    destruct Hcases as [H|[H|H]]; [exact H| |].
    + apply Hsame in H. lra.
    + apply Hpast in H. lra.
  - split; [|exact Hsame]. intros H1.
    destruct Hcases as [H|[H|H]]; [|exact H|].
    + apply Hfut in H. lra.
    + apply Hpast in H. lra.
  - split; [|exact Hpast]. intros H1.
    destruct Hcases as [H|[H|H]]; [| |exact H].
    + apply Hfut in H. lra.
    + apply Hsame in H. lra.
  - apply Rpower_half_pos.
Qed.

(** C4, at an activity one microsecond after the scoring time. *)
Lemma C4_future_activity_amplified_witness :
  (0 < 1)%Z /\ 1 < recon_tracker._calculate_decay_factor 1%Z 0%Z.
Proof.
  split; [lia|].
  apply (proj2 (proj1 (C4_future_activity_amplified 1%Z 0%Z))). lia.
Defined.

(** C7: with the stored activities fixed, the cumulative recon score of an
    actor, after rounding to two decimals, never increases as the scoring
    time moves forward. *)
Theorem C7_score_non_increasing (self : recon_tracker.ReconTracker)
    (actor : string) (t1 t2 : datetime) :
  recon_tracker.recorded self -> (t1 <= t2)%Z ->
  recon_tracker.get_recon_score self actor t2
  <= recon_tracker.get_recon_score self actor t1.
Proof.
  intros Hrec Ht. unfold recon_tracker.get_recon_score.
  apply round2_R_mono, sum_antitone; [|exact Ht|lra].
  apply stored_activities_nonneg, recorded_ok, Hrec.
Qed.

(** ** Rounding the correlation delta *)

Lemma Qround_half_even_bounds q :
  (Qfloor q <= Qround_half_even q <= Qfloor q + 1)%Z.
Proof. apply half_even_bounds. Qed.

Lemma Qround_half_even_le_Z q (n : Z) :
  (q <= inject_Z n)%Q -> (Qround_half_even q <= n)%Z.
Proof.
  intros H.
  pose proof (Qfloor_resp_le _ _ H) as Hf. rewrite Qfloor_Z in Hf.
  pose proof (Qround_half_even_bounds q) as Hb.
  destruct (Z.eq_dec (Qfloor q) n) as [E|NE]; [|lia].
  unfold Qround_half_even. rewrite E.
  assert (Hlt : (q - inject_Z n < 1 # 2)%Q).
  { apply Qle_lt_trans with (y := 0%Q); [|reflexivity].
    apply (Qplus_le_l _ _ (inject_Z n)). ring_simplify. exact H. }
  rewrite (proj1 (Qlt_alt _ _) Hlt). simpl. lia.
Qed.

Lemma Qround_half_even_nonneg q : (0 <= q)%Q -> (0 <= Qround_half_even q)%Z.
Proof.
  intros H. pose proof (Qfloor_resp_le _ _ H) as Hf.
  change (Qfloor 0) with 0%Z in Hf.
  pose proof (Qround_half_even_bounds q). lia.
Qed.

Lemma round2_Q_nonneg d : (0 <= d)%Q -> (0 <= round2_Q d)%Q.
Proof.
  intros H. unfold round2_Q.
  assert (Hq : (0 <= d * 100)%Q).
  { apply Qmult_le_0_compat; [exact H|discriminate]. }
  pose proof (Qround_half_even_nonneg _ Hq) as Hr.
  set (r := Qround_half_even (d * 100)) in *. clearbody r.
  unfold Qle, Qdiv, Qmult, Qinv, inject_Z. simpl. lia.
Qed.

Lemma round2_Q_le_Z d (w : Z) : (d <= inject_Z w)%Q -> (round2_Q d <= inject_Z w)%Q.
Proof.
  intros H. unfold round2_Q.
  assert (Hq : (d * 100 <= inject_Z (w * 100))%Q).
  { rewrite inject_Z_mult. apply Qmult_le_compat_r; [exact H|discriminate]. }
  pose proof (Qround_half_even_le_Z _ _ Hq) as Hr.
  set (r := Qround_half_even (d * 100)) in *. clearbody r.
  unfold Qle, Qdiv, Qmult, Qinv, inject_Z. simpl. lia.
Qed.

Lemma in_window_spec d w :
  detector.in_window d w = true <-> (0 <= d)%Q /\ (d <= inject_Z w)%Q.
Proof.
  unfold detector.in_window. rewrite andb_true_iff, !Qle_bool_iff. reflexivity.
Qed.

(** The window test, on the timestamps themselves. *)
Lemma in_window_timestamps exfil recon w :
  detector.in_window (detector.delta_minutes_of exfil recon) w = true <->
  (detector.ReconEvent.timestamp recon <= detector.ExfilEvent.timestamp exfil)%Z
  /\ (detector.ExfilEvent.timestamp exfil - detector.ReconEvent.timestamp recon
      <= w * 60000000)%Z.
Proof.
  rewrite in_window_spec.
  unfold detector.delta_minutes_of, total_seconds_Q, MICROS_PER_SECOND.
  set (d := (detector.ExfilEvent.timestamp exfil
             - detector.ReconEvent.timestamp recon)%Z).
  assert (E : (detector.ReconEvent.timestamp recon
               <= detector.ExfilEvent.timestamp exfil)%Z <-> (0 <= d)%Z)
    by (unfold d; lia).
  rewrite E. clearbody d.
  unfold Qle, Qdiv, Qmult, Qinv, inject_Z. simpl. lia.
Qed.

Ltac splits := repeat match goal with |- _ /\ _ => split end.

(** ** The correlator: what one (recon, exfil) pair can emit *)

Section Correlation.

(** Enrichment touches the severity, the reason and the file context only,
    and leaves a [high] finding's severity and reason alone. *)
Lemma enrich_finding_fields fe wall f d f' fe' :
  enrich_finding fe wall f d = (f', fe') ->
  Finding.recon_time f' = Finding.recon_time f
  /\ Finding.exfil_time f' = Finding.exfil_time f
  /\ Finding.recon_action f' = Finding.recon_action f
  /\ Finding.event_ids f' = Finding.event_ids f
  /\ Finding.delta_minutes f' = Finding.delta_minutes f
  /\ Finding.doc_id f' = Finding.doc_id f
  /\ Finding.intent_analysis f' = Finding.intent_analysis f
  /\ Finding.reason_codes f' = Finding.reason_codes f
  /\ (Finding.severity f = "high" ->
      Finding.severity f' = "high" /\ Finding.reason f' = Finding.reason f).
Proof.
  unfold enrich_finding. intros H.
  destruct (negb (py.truthy d)).
  { injection H as <- <-. splits; tauto. }
  destruct (get_file_metadata fe wall (default "" d)) as [[m|] fe0].
  2: { injection H as <- <-. splits; tauto. }
  destruct (String.eqb (sensitivity m) "high").
  2: { injection H as <- <-. simpl. splits; tauto. }
  simpl in H.
  destruct (String.eqb (Finding.severity f) "medium") eqn:Em.
  { injection H as <- <-. simpl. splits; try reflexivity;
      intros Hs; rewrite Hs in Em; discriminate. }
  destruct (String.eqb (Finding.severity f) "low") eqn:El.
  { injection H as <- <-. simpl. splits; try reflexivity;
      intros Hs; rewrite Hs in El; discriminate. }
  injection H as <- <-. simpl. splits; tauto.
Qed.

Lemma enrich_step_fields enricher wall exfil f f' e' :
  enrich_step enricher wall exfil f = (f', e') ->
  Finding.recon_time f' = Finding.recon_time f
  /\ Finding.exfil_time f' = Finding.exfil_time f
  /\ Finding.recon_action f' = Finding.recon_action f
  /\ Finding.event_ids f' = Finding.event_ids f
  /\ Finding.delta_minutes f' = Finding.delta_minutes f
  /\ Finding.doc_id f' = Finding.doc_id f
  /\ Finding.intent_analysis f' = Finding.intent_analysis f
  /\ Finding.reason_codes f' = Finding.reason_codes f
  /\ (Finding.severity f = "high" ->
      Finding.severity f' = "high" /\ Finding.reason f' = Finding.reason f).
Proof.
  unfold enrich_step. intros H.
  destruct enricher as [fe|].
  - destruct (py.truthy (ExfilEvent.doc_id exfil)).
    + destruct (enrich_finding fe wall f (ExfilEvent.doc_id exfil))
        as [d fe0] eqn:E.
      injection H as <- <-. exact (enrich_finding_fields _ _ _ _ _ _ E).
    + injection H as <- <-. splits; tauto.
  - injection H as <- <-. splits; tauto.
Qed.

Lemma downgrade_fields ia f :
  Finding.recon_time (downgrade ia f) = Finding.recon_time f
  /\ Finding.exfil_time (downgrade ia f) = Finding.exfil_time f
  /\ Finding.recon_action (downgrade ia f) = Finding.recon_action f
  /\ Finding.event_ids (downgrade ia f) = Finding.event_ids f
  /\ Finding.delta_minutes (downgrade ia f) = Finding.delta_minutes f
  /\ Finding.doc_id (downgrade ia f) = Finding.doc_id f
  /\ Finding.intent_analysis (downgrade ia f) = Finding.intent_analysis f
  /\ Finding.reason_codes (downgrade ia f) = Finding.reason_codes f
  /\ Finding.reason (downgrade ia f) = Finding.reason f
  /\ (Finding.severity f = "high" ->
      Finding.severity (downgrade ia f)
      = if String.eqb (intent ia) "legitimate" then "medium" else "high").
Proof.
  unfold downgrade.
  destruct (String.eqb (intent ia) "legitimate");
    [destruct (String.eqb (Finding.severity f) "high") eqn:Eh;
     [|destruct (String.eqb (Finding.severity f) "medium")]|];
    simpl; splits; try reflexivity; try tauto;
    intros Hs; rewrite Hs in Eh; discriminate.
Qed.

(** [correlate_recon], with its steps named. *)
Lemma correlate_recon_unfold wall w exfil score st recon :
  correlate_recon wall w exfil score st recon =
  let self := self_ st in
  let delta := delta_minutes_of exfil recon in
  if in_window delta w then
    let sev := _calculate_severity exfil delta score in
    let f0 :=
      if is_canary (canary_doc_ids self) (ExfilEvent.doc_id exfil)
      then draft exfil recon delta score "high"
             (Text "CANARY DOCUMENT ACCESS - " :: snd (fst sev))
             (snd sev ++ ["canary_doc_access"])
      else draft exfil recon delta score (fst (fst sev)) (snd (fst sev)) (snd sev) in
    let fe := enrich_step (file_enricher self) wall exfil f0 in
    match intent_classifier self with
    | Some ic =>
        let ci :=
          classify_intent ic wall
            (ExfilEvent.actor exfil) (ExfilEvent.event_name exfil)
            (ExfilEvent.doc_id exfil) (ExfilEvent.owner exfil)
            (ExfilEvent.visibility exfil) (ExfilEvent.timestamp exfil)
            (ExfilEvent.new_value exfil) in
        let self' := set_collaborators self (snd fe) (Some (snd ci)) in
        if should_suppress (fst ci) then
          {| findings := findings st; matched_recon := true; self_ := self' |}
        else
          {| findings :=
               findings st
               ++ [downgrade (fst ci)
                     (Finding.set_intent_analysis (fst fe) (Some (fst ci)))];
             matched_recon := true;
             self_ := self' |}
    | None =>
        {| findings := findings st ++ [fst fe];
           matched_recon := true;
           self_ := set_collaborators self (snd fe) None |}
    end
  else st.
Proof.
  unfold correlate_recon, is_canary, enrich_step, downgrade. cbv zeta.
  destruct (in_window (delta_minutes_of exfil recon) w); [|reflexivity].
  destruct (py.truthy (ExfilEvent.doc_id exfil)
            && bool_decide (default "" (ExfilEvent.doc_id exfil)
                            ∈ (list_to_set (canary_doc_ids (self_ st)) : gset string)));
    destruct (file_enricher (self_ st)) as [fe|];
    try destruct (py.truthy (ExfilEvent.doc_id exfil));
    try destruct (enrich_finding fe wall _ (ExfilEvent.doc_id exfil)) as [d fe'];
    destruct (intent_classifier (self_ st)) as [ic|];
    try destruct (classify_intent ic wall _ _ _ _ _ _ _) as [ia ic'];
    cbn [fst snd]; reflexivity.
Qed.

(** One step of the inner loop: either the pair is outside the window and
    nothing changes, or it matches and at most one finding is appended. *)
Lemma correlate_recon_shape wall w exfil score st recon :
  let st' := correlate_recon wall w exfil score st recon in
  canary_doc_ids (self_ st') = canary_doc_ids (self_ st)
  /\ recon_tracker (self_ st') = recon_tracker (self_ st)
  /\ ((in_window (delta_minutes_of exfil recon) w = false /\ st' = st)
      \/ (in_window (delta_minutes_of exfil recon) w = true
          /\ matched_recon st' = true
          /\ (findings st' = findings st
              \/ exists f,
                   findings st' = findings st ++ [f]
                   /\ pair_facts (canary_doc_ids (self_ st)) exfil recon score f))).
Proof.
  cbv zeta. rewrite correlate_recon_unfold. cbv zeta.
  destruct (in_window (delta_minutes_of exfil recon) w) eqn:Ew.
  2: { splits; try reflexivity. left. split; reflexivity. }
  set (delta := delta_minutes_of exfil recon).
  set (sev := _calculate_severity exfil delta score).
  set (f0 := if is_canary _ _ then _ else _).
  destruct (enrich_step (file_enricher (self_ st)) wall exfil f0)
    as [f1 e1] eqn:Een.
  pose proof (enrich_step_fields _ _ _ _ _ _ Een)
    as (Hrt & Het & Hra & Hev & Hdm & Hdoc & Hia & Hrc & Hhigh).
  cbn [fst snd].
  assert (F0 : Finding.recon_time f0 = Iso (ReconEvent.timestamp recon)
          /\ Finding.exfil_time f0 = Iso (ExfilEvent.timestamp exfil)
          /\ Finding.recon_action f0 = ReconEvent.action recon
          /\ Finding.event_ids f0
             = (ReconEvent.event_id recon, ExfilEvent.event_id exfil)
          /\ Finding.delta_minutes f0 = round2_Q delta
          /\ Finding.doc_id f0 = ExfilEvent.doc_id exfil
          /\ Finding.intent_analysis f0 = None
          /\ (is_canary (canary_doc_ids (self_ st)) (ExfilEvent.doc_id exfil)
              = true ->
              Finding.severity f0 = "high"
              /\ Finding.reason f0
                 = Text "CANARY DOCUMENT ACCESS - " :: snd (fst sev)
              /\ Finding.reason_codes f0
                 = Some (snd sev ++ ["canary_doc_access"]))).
  { unfold f0.
    destruct (is_canary (canary_doc_ids (self_ st)) (ExfilEvent.doc_id exfil));
      simpl; splits; try reflexivity; intros; try discriminate;
      splits; reflexivity. }
  destruct F0 as (F0rt & F0et & F0ra & F0ev & F0dm & F0doc & F0ia & F0can).
  destruct (intent_classifier (self_ st)) as [ic|] eqn:Eic.
  - set (ci := classify_intent ic wall _ _ _ _ _ _ _).
    destruct (should_suppress (fst ci)) eqn:Es.
    + simpl. splits; try reflexivity. right. splits; try reflexivity.
      left. reflexivity.
    + simpl. splits; try reflexivity. right. splits; try reflexivity.
      right. eexists. split; [reflexivity|].
      set (f2 := Finding.set_intent_analysis f1 (Some (fst ci))).
      pose proof (downgrade_fields (fst ci) f2)
        as (Drt & Det & Dra & Dev & Ddm & Ddoc & Dia & Drc & Dre & Dhigh).
      assert (F2 : Finding.recon_time f2 = Finding.recon_time f1
              /\ Finding.exfil_time f2 = Finding.exfil_time f1
              /\ Finding.recon_action f2 = Finding.recon_action f1
              /\ Finding.event_ids f2 = Finding.event_ids f1
              /\ Finding.delta_minutes f2 = Finding.delta_minutes f1
              /\ Finding.doc_id f2 = Finding.doc_id f1
              /\ Finding.reason_codes f2 = Finding.reason_codes f1
              /\ Finding.reason f2 = Finding.reason f1
              /\ Finding.severity f2 = Finding.severity f1
              /\ Finding.intent_analysis f2 = Some (fst ci))
        by (splits; reflexivity).
      destruct F2 as (Srt & Set_ & Sra & Sev & Sdm & Sdoc & Src & Sre & Sse & Sia).
      rewrite Sia in Dia.
      unfold pair_facts, not_suppressed, canary_severity. cbv zeta.
      fold delta. fold sev.
      rewrite Drt, Det, Dra, Dev, Ddm, Ddoc, Drc, Dre, Dia.
      rewrite Srt, Set_, Sra, Sev, Sdm, Sdoc, Src, Sre.
      rewrite Hrt, Het, Hra, Hev, Hdm, Hdoc, Hrc.
      splits; try assumption.
      intros H. destruct (F0can H) as (Hs0 & Hr0 & Hc0).
      destruct (Hhigh Hs0) as [Hs1 Hr1]. splits.
      * rewrite Hr1. exact Hr0.
      * exact Hc0.
      * apply Dhigh. rewrite Sse. exact Hs1.
  - simpl. splits; try reflexivity. right. splits; try reflexivity.
    right. eexists. split; [reflexivity|].
    unfold pair_facts. cbv zeta. fold delta. fold sev.
    rewrite Hrt, Het, Hra, Hev, Hdm, Hdoc, Hrc.
    splits; try assumption.
    + unfold not_suppressed. rewrite Hia, F0ia. exact I.
    + intros H. destruct (F0can H) as (Hs0 & Hr0 & Hc0).
      destruct (Hhigh Hs0) as [Hs1 Hr1]. splits.
      * rewrite Hr1. exact Hr0.
      * exact Hc0.
      * unfold canary_severity. rewrite Hia, F0ia. exact Hs1.
Qed.

(** *** Invariants of the two loops *)

Section Invariant.

Variables (wall : datetime) (w : Z) (canary : list string).
Variable P : Finding.t -> Prop.

Hypothesis pair_ok :
  forall exfil recon score f,
    in_window (delta_minutes_of exfil recon) w = true ->
    pair_facts canary exfil recon score f -> P f.

Hypothesis delayed_ok : forall exfil score, P (delayed exfil score).

Lemma inner_loop_inv exfil score recons :
  forall st,
    canary_doc_ids (self_ st) = canary -> Forall P (findings st) ->
    let st' := fold_left (correlate_recon wall w exfil score) recons st in
    canary_doc_ids (self_ st') = canary /\ Forall P (findings st').
Proof.
  induction recons as [|recon recons IH]; intros st Hc HP; simpl.
  - split; assumption.
  - pose proof (correlate_recon_shape wall w exfil score st recon)
      as (Hcan & _ & Hcase).
    cbv zeta in Hcan, Hcase.
    apply IH.
    + rewrite Hcan. exact Hc.
    + destruct Hcase as [[_ ->]|(Hw & _ & [->|(f & -> & Hf)])];
        try assumption.
      apply Forall_app. split; [exact HP|].
      constructor; [|constructor].
      rewrite Hc in Hf. exact (pair_ok _ _ _ _ Hw Hf).
Qed.

Lemma correlate_exfil_inv rba st exfil :
  canary_doc_ids (self_ st) = canary -> Forall P (findings st) ->
  let st' := correlate_exfil wall w rba st exfil in
  canary_doc_ids (self_ st') = canary /\ Forall P (findings st').
Proof.
  intros Hc HP. unfold correlate_exfil. cbv zeta.
  set (score := get_recon_score _ _ _).
  set (st0 := {| findings := findings st; matched_recon := false;
                 self_ := self_ st |}).
  destruct (inner_loop_inv exfil score
              (default [] (rba !! ExfilEvent.actor exfil)) st0 Hc HP)
    as [Hc' HP'].
  cbv zeta in Hc', HP'.
  destruct (negb _ && Rgtb score 5.0); simpl.
  - split; [exact Hc'|]. apply Forall_app. split; [exact HP'|].
    constructor; [apply delayed_ok|constructor].
  - split; assumption.
Qed.

Lemma outer_loop_inv rba exfils :
  forall st,
    canary_doc_ids (self_ st) = canary -> Forall P (findings st) ->
    Forall P (findings (fold_left (correlate_exfil wall w rba) exfils st)).
Proof.
  induction exfils as [|exfil exfils IH]; intros st Hc HP; simpl.
  - exact HP.
  - destruct (correlate_exfil_inv rba st exfil Hc HP) as [Hc' HP'].
    apply IH; assumption.
Qed.

(** Every finding of a run is either emitted for a matching pair or is a
    delayed-exfil finding. *)
Lemma correlate_events_inv self recon_events exfil_events :
  canary_doc_ids self = canary ->
  Forall P (fst (correlate_events self wall recon_events exfil_events w)).
Proof.
  intros Hc. unfold correlate_events. cbv zeta. cbn [fst].
  apply outer_loop_inv; simpl.
  - destruct (intent_classifier self); simpl; exact Hc.
  - constructor.
Qed.

End Invariant.

(** The inner loop sets [matched_recon] exactly when some recon event of the
    bucket falls in the window. *)
Lemma inner_loop_matched wall w exfil score recons :
  forall st,
    matched_recon (fold_left (correlate_recon wall w exfil score) recons st)
    = orb (matched_recon st)
          (existsb (fun recon => in_window (delta_minutes_of exfil recon) w)
                   recons).
Proof.
  induction recons as [|recon recons IH]; intros st; simpl.
  - rewrite orb_false_r. reflexivity.
  - rewrite IH.
    pose proof (correlate_recon_shape wall w exfil score st recon)
      as (_ & _ & Hcase).
    cbv zeta in Hcase.
    destruct Hcase as [[Hw ->]|(Hw & Hm & _)]; rewrite Hw.
    + reflexivity.
    + rewrite Hm. simpl. rewrite orb_true_r. reflexivity.
Qed.

End Correlation.

Section Claims.

(** With no recon event in the window the inner loop changes nothing. *)
Lemma inner_loop_no_match wall w exfil score recons :
  forall st,
    existsb (fun recon => in_window (delta_minutes_of exfil recon) w) recons
    = false ->
    fold_left (correlate_recon wall w exfil score) recons st = st.
Proof.
  induction recons as [|recon recons IH]; intros st H; simpl in *.
  - reflexivity.
  - apply orb_false_iff in H as [Hw Hrest].
    rewrite correlate_recon_unfold. cbv zeta. rewrite Hw. apply IH, Hrest.
Qed.

(** C1: no finding of a run carries an intent analysis whose
    [should_suppress] is true; and whenever [classify_intent] answers
    [should_suppress = true] for the draft of a (recon, exfil) pair, the
    draft is dropped: the findings are those before the pair. *)
Theorem C1_suppressed_never_emitted (self : GeminiExfilDetector)
    (wall : datetime) (recon_events : list ReconEvent.t)
    (exfil_events : list ExfilEvent.t) (window_minutes : Z) :
  Forall not_suppressed
    (fst (correlate_events self wall recon_events exfil_events window_minutes))
  /\ forall st recon exfil score ic,
       intent_classifier (self_ st) = Some ic ->
       should_suppress
         (fst (classify_intent ic wall
                 (ExfilEvent.actor exfil) (ExfilEvent.event_name exfil)
                 (ExfilEvent.doc_id exfil) (ExfilEvent.owner exfil)
                 (ExfilEvent.visibility exfil) (ExfilEvent.timestamp exfil)
                 (ExfilEvent.new_value exfil))) = true ->
       findings (correlate_recon wall window_minutes exfil score st recon)
       = findings st.
Proof.
  split.
  - apply (correlate_events_inv wall window_minutes (canary_doc_ids self));
      [|intros; exact I|reflexivity].
    intros exfil recon score f _ Hf. apply Hf.
  - intros st recon exfil score ic Hic Hs.
    rewrite correlate_recon_unfold. cbv zeta.
    destruct (in_window _ _); [|reflexivity].
    rewrite Hic, Hs. reflexivity.
Qed.

(** C2 (amended): a finding that pairs a recon event with an egress event
    whose doc_id is a non-empty member of [canary_doc_ids] has
    ["CANARY DOCUMENT ACCESS - "] in front of its reason, [canary_doc_access]
    as its last reason code, and severity [high], unless its intent analysis
    says [legitimate], in which case the intent downgrade leaves it at
    [medium].  The delayed-exfil path has no canary override: such a finding
    is [medium]. *)
Theorem C2_canary_override_then_downgrade (self : GeminiExfilDetector)
    (wall : datetime) (recon_events : list ReconEvent.t)
    (exfil_events : list ExfilEvent.t) (window_minutes : Z) :
  Forall (canary_rule (canary_doc_ids self))
    (fst (correlate_events self wall recon_events exfil_events window_minutes)).
Proof.
  apply (correlate_events_inv wall window_minutes (canary_doc_ids self));
    [| |reflexivity].
  - intros exfil recon score f _
      (Hrt & _ & _ & _ & _ & Hdoc & _ & Hcan) Hc.
    rewrite Hrt. rewrite Hdoc in Hc. destruct (Hcan Hc) as (Hr & Hcodes & Hs).
    splits; [eexists; exact Hr|eexists; exact Hcodes|exact Hs].
  - intros exfil score _. reflexivity.
Qed.

(** A matching pair appends its finding exactly when the classifier does
    not ask for suppression. *)
Lemma correlate_recon_findings wall w exfil score st recon :
  in_window (delta_minutes_of exfil recon) w = true ->
  if suppresses (self_ st) wall exfil
  then findings (correlate_recon wall w exfil score st recon) = findings st
  else exists f,
         findings (correlate_recon wall w exfil score st recon)
         = findings st ++ [f]
         /\ pair_facts (canary_doc_ids (self_ st)) exfil recon score f.
Proof.
  intros Hw.
  pose proof (correlate_recon_shape wall w exfil score st recon)
    as (_ & _ & Hcase).
  cbv zeta in Hcase. destruct Hcase as [[Hf _]|(_ & _ & Hcase)]; [congruence|].
  assert (Hlen : length (findings (correlate_recon wall w exfil score st recon))
                 = (length (findings st)
                    + if suppresses (self_ st) wall exfil then 0 else 1)%nat).
  { rewrite correlate_recon_unfold. cbv zeta. rewrite Hw. unfold suppresses.
    destruct (intent_classifier (self_ st)) as [ic|].
    - destruct (should_suppress _); cbn [findings];
        rewrite ?length_app; simpl; lia.
    - cbn [findings]. rewrite length_app. simpl. lia. }
  destruct (suppresses (self_ st) wall exfil).
  - destruct Hcase as [E|(f & E & _)]; [exact E|].
    rewrite E, length_app in Hlen. simpl in Hlen. clear - Hlen. lia.
  - destruct Hcase as [E|Hf]; [|exact Hf].
    rewrite E in Hlen. clear - Hlen. lia.
Qed.

(** At one and the same instant the rounded delta is 0. *)
Lemma delta_minutes_same_instant exfil recon :
  ReconEvent.timestamp recon = ExfilEvent.timestamp exfil ->
  (round2_Q (delta_minutes_of exfil recon) == 0)%Q.
Proof.
  intros Ht. unfold delta_minutes_of, total_seconds_Q. cbv zeta.
  rewrite Ht, Z.sub_diag. vm_compute. reflexivity.
Qed.

(** C8 (amended): the window test is [0 <= delta <= window_minutes], so a
    recon event is matched when the egress event is at the same instant or
    later, up to the window; outside the window the pair changes nothing; a
    recon and an egress with identical timestamps are matched whenever the
    window is not negative: the pair sets [matched_recon], and it appends
    one finding, with delta_minutes 0, unless the intent classifier asks to
    suppress it, in which case no finding is appended; and in every finding
    of a run that pairs two events the recon time is not after the exfil
    time. *)
Theorem C8_matches_at_or_after (wall : datetime) (window_minutes : Z)
    (exfil : ExfilEvent.t) (recon : ReconEvent.t) (score : R) (st : loop) :
  (in_window (delta_minutes_of exfil recon) window_minutes = true <->
   (ReconEvent.timestamp recon <= ExfilEvent.timestamp exfil)%Z
   /\ (ExfilEvent.timestamp exfil - ReconEvent.timestamp recon
       <= window_minutes * 60000000)%Z)
  /\ (in_window (delta_minutes_of exfil recon) window_minutes = false ->
      correlate_recon wall window_minutes exfil score st recon = st)
  /\ (ReconEvent.timestamp recon = ExfilEvent.timestamp exfil ->
      (0 <= window_minutes)%Z ->
      matched_recon (correlate_recon wall window_minutes exfil score st recon)
      = true
      /\ if suppresses (self_ st) wall exfil
         then findings
                (correlate_recon wall window_minutes exfil score st recon)
              = findings st
         else exists f,
                findings
                  (correlate_recon wall window_minutes exfil score st recon)
                = findings st ++ [f]
                /\ Finding.recon_time f = Iso (ReconEvent.timestamp recon)
                /\ Finding.exfil_time f = Iso (ExfilEvent.timestamp exfil)
                /\ Finding.event_ids f
                   = (ReconEvent.event_id recon, ExfilEvent.event_id exfil)
                /\ (Finding.delta_minutes f == 0)%Q)
  /\ forall self recon_events exfil_events,
       Forall (fun f =>
                 match Finding.recon_time f, Finding.exfil_time f with
                 | Iso tr, Iso te => (tr <= te)%Z
                 | _, _ => True
                 end)
         (fst (correlate_events self wall recon_events exfil_events
                 window_minutes)).
Proof.
  splits.
  - apply in_window_timestamps.
  - intros Hw. rewrite correlate_recon_unfold. cbv zeta. rewrite Hw.
    reflexivity.
  - intros Ht Hw.
    assert (Hin : in_window (delta_minutes_of exfil recon) window_minutes
                  = true) by (apply in_window_timestamps; lia).
    split.
    + pose proof (correlate_recon_shape wall window_minutes exfil score st
                    recon) as (_ & _ & Hcase).
      cbv zeta in Hcase.
      destruct Hcase as [[Hf _]|(_ & Hm & _)]; [congruence|exact Hm].
    + pose proof (correlate_recon_findings wall window_minutes exfil score st
                    recon Hin) as Hf.
      destruct (suppresses (self_ st) wall exfil); [exact Hf|].
      destruct Hf as (f & E & Hrt & Het & _ & Hev & Hdm & _).
      exists f. splits; try assumption.
      rewrite Hdm. apply delta_minutes_same_instant, Ht.
  - intros self recon_events exfil_events.
    apply (correlate_events_inv wall window_minutes (canary_doc_ids self));
      [| |reflexivity].
    + intros e r s f Hw (Hrt & Het & _). rewrite Hrt, Het.
      apply in_window_timestamps in Hw. tauto.
    + intros e s. exact I.
Qed.

(** C9: in every finding of a run, [delta_minutes] lies between 0 and
    [window_minutes] when the finding pairs a recon event with an egress
    event, and is exactly 0.0 when it is a delayed-exfil finding. *)
Theorem C9_delta_minutes_bounds (self : GeminiExfilDetector)
    (wall : datetime) (recon_events : list ReconEvent.t)
    (exfil_events : list ExfilEvent.t) (window_minutes : Z) :
  Forall (delta_rule window_minutes)
    (fst (correlate_events self wall recon_events exfil_events window_minutes)).
Proof.
  apply (correlate_events_inv wall window_minutes (canary_doc_ids self));
    [| |reflexivity].
  - intros exfil recon score f Hw (Hrt & _ & _ & _ & Hdm & _).
    unfold delta_rule. rewrite Hrt, Hdm.
    apply in_window_spec in Hw as [H0 Hw].
    split; [apply round2_Q_nonneg, H0|apply round2_Q_le_Z, Hw].
  - intros exfil score. reflexivity.
Qed.

(** C10: every delayed-exfil finding of a run has severity [medium] and
    neither file context nor intent analysis, whatever the canary set, the
    enricher and the classifier are; and an exfil event with no recon event
    in the window and a recon score above 5.0 always adds exactly that
    finding, so that it is never suppressed. *)
Theorem C10_delayed_exfil_bypasses (self : GeminiExfilDetector)
    (wall : datetime) (recon_events : list ReconEvent.t)
    (exfil_events : list ExfilEvent.t) (window_minutes : Z) :
  Forall delayed_rule
    (fst (correlate_events self wall recon_events exfil_events window_minutes))
  /\ forall recon_by_actor st exfil,
       let score :=
         get_recon_score (recon_tracker (self_ st)) (ExfilEvent.actor exfil)
                         (ExfilEvent.timestamp exfil) in
       existsb
         (fun recon =>
            in_window (delta_minutes_of exfil recon) window_minutes)
         (default [] (recon_by_actor !! ExfilEvent.actor exfil)) = false ->
       score > 5.0 ->
       findings (correlate_exfil wall window_minutes recon_by_actor st exfil)
       = findings st ++ [delayed exfil score]
       /\ Finding.severity (delayed exfil score) = "medium"
       /\ Finding.doc_id (delayed exfil score) = ExfilEvent.doc_id exfil
       /\ Finding.file_context (delayed exfil score) = None
       /\ Finding.intent_analysis (delayed exfil score) = None.
Proof.
  split.
  - apply (correlate_events_inv wall window_minutes (canary_doc_ids self));
      [| |reflexivity].
    + intros exfil recon score f _ (Hrt & _). unfold delayed_rule.
      rewrite Hrt. exact I.
    + intros exfil score. unfold delayed_rule. simpl. tauto.
  - intros rba st exfil score Hnone Hscore.
    splits; try reflexivity.
    unfold correlate_exfil. cbv zeta. fold score.
    rewrite (inner_loop_no_match _ _ _ _ _ _ Hnone). simpl.
    rewrite (proj2 (Rgtb_true score 5.0) Hscore). reflexivity.
Qed.

End Claims.

(** ** The severity engine against its table *)

Lemma high_risk_list (visibility : option string) :
  detector.high_risk visibility
  = match visibility with
    | Some v =>
        py.list_in v
          ["people_with_link"; "public_on_the_web"; "shared_externally"]
    | None => false
    end.
Proof.
  destruct visibility as [v|]; [|reflexivity].
  unfold detector.high_risk, detector.HIGH_RISK_VISIBILITY, py.list_in.
  simpl.
  destruct (String.eqb_spec v "people_with_link") as [->|N1];
    [apply bool_decide_eq_true;
     rewrite !elem_of_union, !elem_of_singleton; tauto|].
  destruct (String.eqb_spec v "public_on_the_web") as [->|N2];
    [apply bool_decide_eq_true;
     rewrite !elem_of_union, !elem_of_singleton; tauto|].
  destruct (String.eqb_spec v "shared_externally") as [->|N3];
    [apply bool_decide_eq_true;
     rewrite !elem_of_union, !elem_of_singleton; tauto|].
  apply bool_decide_eq_false.
  rewrite !elem_of_union, !elem_of_singleton. tauto.
Qed.

(** C3: for every egress event, delta and recon score, the severity and the
    reason codes that [_calculate_severity] returns are those of the first
    matching row of the base-severity table followed by the recon-score
    amplification: at 10.0 and above [high_recon_score] is appended and the
    severity promoted one step, from 5.0 up to 10.0 [elevated_recon_score]
    is appended and the severity kept. *)
Theorem C3_severity_engine_follows_table (exfil : detector.ExfilEvent.t)
    (delta_minutes : Q) (recon_score : R) :
  let result := detector._calculate_severity exfil delta_minutes recon_score in
  (fst (fst result), snd result)
  = spec.severity_engine exfil delta_minutes recon_score.
Proof.
  cbv zeta.
  unfold detector._calculate_severity, spec.severity_engine, spec.base_table,
    spec.external_share, spec.export_download, spec.ownership_transfer,
    spec.shortcut, spec.publish, spec.promote.
  rewrite high_risk_list.
  set (name := detector.ExfilEvent.event_name exfil).
  set (ext := andb (orb (py.str_in "change_acl" name)
                        (py.str_in "change_visibility" name)) _).
  set (ed := orb (py.str_in "download" name) (py.str_in "export" name)).
  set (transfer := py.str_in "transfer_ownership" name).
  set (publish := py.str_in "publish_to_web" name).
  set (shortcut := py.str_in "create_shortcut" name).
  set (g10 := Rgeb recon_score 10.0).
  set (g5 := Rgeb recon_score 5.0).
  cbv zeta.
  destruct (detector.ExfilEvent.is_revert exfil);
    [destruct g10, g5; reflexivity|].
  destruct (Qle_bool delta_minutes 10).
  - destruct ext, transfer, publish, ed, shortcut, g10, g5; reflexivity.
  - destruct (Qle_bool delta_minutes 30), ext, ed, transfer, g10, g5;
      reflexivity.
Qed.

(** ** Concrete runs *)

(** C2, as stated, fails: for a shortcut to a canary document shared with a
    partner address two minutes after the recon event, the intent is
    [legitimate] and the emitted finding has severity [medium], not [high]. *)
Lemma C2_canary_finding_downgraded :
  map (fun f => (Finding.doc_id f, Finding.recon_time f, Finding.severity f))
    (fst (correlate_events examples.c2_detector 0%Z [examples.c2_recon]
            [examples.c2_exfil] 30))
  = [(Some "doc-canary", Iso examples.T_11_00, "medium")]
  /\ is_canary (canary_doc_ids examples.c2_detector) (Some "doc-canary") = true.
Proof. split; vm_compute; reflexivity. Qed.

(** C8, as stated, fails: a recon event and a download at the same instant
    are matched into a finding, with delta 0. *)
Lemma C8_same_instant_matched :
  ReconEvent.timestamp examples.c2_recon = ExfilEvent.timestamp examples.c8_exfil
  /\ map (fun f => (Finding.recon_time f, Finding.exfil_time f,
                    Finding.event_ids f, Qnum (Finding.delta_minutes f)))
       (fst (correlate_events examples.c8_detector 0%Z [examples.c2_recon]
               [examples.c8_exfil] 30))
     = [(Iso examples.T_11_00, Iso examples.T_11_00, ("r-1", "e-1"), 0%Z)].
Proof. split; vm_compute; reflexivity. Qed.

(** Two [catch_me_up] activities score 10 at the instant they happen. *)
Lemma c10_score :
  get_recon_score examples.c10_tracker examples.alice examples.T_11_00 = 10.
Proof.
  unfold get_recon_score.
  replace (stored_activities examples.c10_tracker (key_of examples.alice))
    with (let a := {| ad_actor := examples.alice;
                      ad_timestamp := Some examples.T_11_00;
                      ad_app := "docs";
                      ad_action := "catch_me_up";
                      ad_score := Some 5.0;
                      ad_doc_id := None |} in [a; a])
    by (vm_compute; reflexivity).
  cbv zeta. cbn [fold_left]. unfold add_activity.
  cbn [ad_timestamp ad_score]. rewrite !decay_factor_same.
  replace (0 + 5.0 * 1 + 5.0 * 1) with (IZR 10) by lra.
  apply round2_R_IZR.
Qed.

(** C1, at a concrete pair: the share to a trusted domain is suppressed and
    leaves no finding. *)
Lemma C1_suppressed_never_emitted_witness :
  should_suppress
    (fst (classify_intent examples.c1_classifier 0%Z
            (ExfilEvent.actor examples.c1_exfil)
            (ExfilEvent.event_name examples.c1_exfil)
            (ExfilEvent.doc_id examples.c1_exfil)
            (ExfilEvent.owner examples.c1_exfil)
            (ExfilEvent.visibility examples.c1_exfil)
            (ExfilEvent.timestamp examples.c1_exfil)
            (ExfilEvent.new_value examples.c1_exfil))) = true
  /\ findings (correlate_recon 0%Z 30 examples.c1_exfil 0 examples.c1_state
                 examples.c2_recon) = [].
Proof.
  assert (H : should_suppress
    (fst (classify_intent examples.c1_classifier 0%Z
            (ExfilEvent.actor examples.c1_exfil)
            (ExfilEvent.event_name examples.c1_exfil)
            (ExfilEvent.doc_id examples.c1_exfil)
            (ExfilEvent.owner examples.c1_exfil)
            (ExfilEvent.visibility examples.c1_exfil)
            (ExfilEvent.timestamp examples.c1_exfil)
            (ExfilEvent.new_value examples.c1_exfil))) = true)
    by (vm_compute; reflexivity).
  split; [exact H|].
  exact (proj2 (C1_suppressed_never_emitted examples.c8_detector 0%Z [] [] 30)
           examples.c1_state examples.c2_recon examples.c1_exfil 0
           examples.c1_classifier eq_refl H).
Defined.

(** C2, at a concrete run: the finding for the canary document carries the
    canary marker and, its intent being legitimate, severity [medium]. *)
Lemma C2_canary_override_then_downgrade_witness :
  exists f,
    fst (correlate_events examples.c2_detector 0%Z [examples.c2_recon]
           [examples.c2_exfil] 30) = [f]
    /\ is_canary (canary_doc_ids examples.c2_detector) (Finding.doc_id f) = true
    /\ (exists rest,
          Finding.reason f = Text "CANARY DOCUMENT ACCESS - " :: rest)
    /\ (exists codes,
          Finding.reason_codes f = Some (codes ++ ["canary_doc_access"]))
    /\ Finding.severity f = canary_severity f.
Proof.
  pose proof (C2_canary_override_then_downgrade examples.c2_detector 0%Z
                [examples.c2_recon] [examples.c2_exfil] 30) as HF.
  assert (Hd : map (fun f => (Finding.doc_id f, Finding.recon_time f))
                 (fst (correlate_events examples.c2_detector 0%Z
                         [examples.c2_recon] [examples.c2_exfil] 30))
               = [(Some "doc-canary", Iso examples.T_11_00)])
    by (vm_compute; reflexivity).
  destruct (fst (correlate_events examples.c2_detector 0%Z [examples.c2_recon]
                   [examples.c2_exfil] 30)) as [|f [|g rest]];
    try discriminate Hd.
  injection Hd as Hdoc Hrt.
  exists f. split; [reflexivity|].
  assert (Hc : is_canary (canary_doc_ids examples.c2_detector)
                 (Finding.doc_id f) = true)
    by (rewrite Hdoc; vm_compute; reflexivity).
  split; [exact Hc|].
  apply Forall_inv in HF. specialize (HF Hc). rewrite Hrt in HF. exact HF.
Defined.

(** ** The classifier's baselines *)

Lemma get_domain_reputation_baselines self domain :
  user_baselines (snd (_get_domain_reputation self domain))
  = user_baselines self.
Proof.
  unfold _get_domain_reputation.
  destruct (domain_reputation_cache self !! py.lower domain); reflexivity.
Qed.

(** The classifier after [classify_intent]: the reputation lookup, then the
    baseline lookup. *)
Lemma classify_intent_state self wall actor exfil_event doc_id doc_owner
    visibility timestamp new_value :
  snd (classify_intent self wall actor exfil_event doc_id doc_owner visibility
         timestamp new_value)
  = snd (_get_or_create_baseline
           (match _extract_destination_domain new_value visibility with
            | Some d =>
                if String.eqb d "" then self
                else snd (_get_domain_reputation self d)
            | None => self
            end) wall actor).
Proof.
  unfold classify_intent. cbv zeta.
  destruct (_extract_destination_domain new_value visibility) as [d|].
  - destruct (String.eqb d "").
    + destruct (_get_or_create_baseline self wall actor) as [b s2]. reflexivity.
    + destruct (_get_domain_reputation self d) as [rep s1]. cbn [snd].
      destruct (String.eqb rep "trusted"); [|destruct (String.eqb rep "partner");
        [|destruct (String.eqb rep "unknown")]];
        destruct (_get_or_create_baseline s1 wall actor) as [b s2];
        reflexivity.
  - destruct (_get_or_create_baseline self wall actor) as [b s2]. reflexivity.
Qed.

(** C5, as stated, fails: classifying a download that has a destination
    domain leaves alice's share and download counters at 1. *)
Lemma C5_classification_does_not_count :
  let before := examples.c5_classifier in
  let result :=
    classify_intent before 0%Z examples.alice "download" None None None
      examples.T_11_02 (Some "bob@evil.example") in
  destination_domain (fst result) = Some "evil.example"
  /\ (typical_share_count <$> user_baselines before !! examples.alice)
     = Some 1%Z
  /\ (typical_share_count <$> user_baselines (snd result) !! examples.alice)
     = Some 1%Z
  /\ (typical_download_count <$> user_baselines before !! examples.alice)
     = Some 1%Z
  /\ (typical_download_count <$> user_baselines (snd result) !! examples.alice)
     = Some 1%Z.
Proof. cbv zeta. splits; vm_compute; reflexivity. Qed.

(** C5 (amended): [classify_intent] never calls [update_baseline].  It leaves
    every existing baseline as it is, counters and domains included, and
    only creates an empty baseline (both counters 0, no domain) for an actor
    that has none; the counters are incremented by [update_baseline] alone,
    which [build_baselines_from_history] calls. *)
Theorem C5_classification_keeps_baselines (self : IntentClassifier)
    (wall : datetime) (actor exfil_event : string)
    (doc_id doc_owner visibility : option string) (timestamp : datetime)
    (new_value : option string) :
  user_baselines
    (snd (classify_intent self wall actor exfil_event doc_id doc_owner
            visibility timestamp new_value))
  = match user_baselines self !! actor with
    | Some _ => user_baselines self
    | None => <[actor := fresh_baseline wall actor]> (user_baselines self)
    end.
Proof.
  rewrite classify_intent_state.
  set (s1 := match _extract_destination_domain new_value visibility with
             | Some d => _ | None => self end).
  assert (E : user_baselines s1 = user_baselines self).
  { unfold s1. destruct (_extract_destination_domain new_value visibility)
      as [d|]; [|reflexivity].
    destruct (String.eqb d ""); [reflexivity|].
    apply get_domain_reputation_baselines. }
  clearbody s1. unfold _get_or_create_baseline.
  destruct (user_baselines s1 !! actor) as [b|] eqn:L; rewrite E in L;
    rewrite L; cbn [snd]; [exact E|].
  unfold set_baselines. cbn [user_baselines]. rewrite E. reflexivity.
Qed.

(** ** File sensitivity *)

(** C6, as stated, fails: an owner whose local part holds none of the terms
    but whose domain holds [finance] makes the file [high]. *)
Lemma C6_owner_domain_counts :
  matches_sensitive_label examples.c6_enricher [] = false
  /\ existsb (fun term =>
                py.str_in term (py.lower (spec.local_part "bob@finance.example")))
       OWNER_TERMS = false
  /\ _determine_sensitivity examples.c6_enricher [] "bob@finance.example"
     = "high".
Proof. splits; vm_compute; reflexivity. Qed.

(** C6 (amended): for a file whose labels match no configured sensitive
    label, [_determine_sensitivity] answers [high] exactly when the
    lower-cased owner string as a whole, domain part included, contains one
    of exec, ceo, cfo, finance. *)
Theorem C6_owner_terms_anywhere (self : FileContextEnricher)
    (labels : list string) (owner : string) :
  matches_sensitive_label self labels = false ->
  (_determine_sensitivity self labels owner = "high" <->
   existsb (fun term => py.str_in term (py.lower owner)) OWNER_TERMS = true).
Proof.
  intros H. unfold _determine_sensitivity. rewrite H.
  destruct (existsb (fun term => py.str_in term (py.lower owner)) OWNER_TERMS).
  - split; reflexivity.
  - destruct (existsb _ restricted_terms); split; discriminate.
Qed.

Lemma C6_owner_terms_anywhere_witness :
  matches_sensitive_label examples.c6_enricher [] = false
  /\ (_determine_sensitivity examples.c6_enricher [] "bob@finance.example"
      = "high" <->
      existsb (fun term => py.str_in term (py.lower "bob@finance.example"))
        OWNER_TERMS = true).
Proof.
  split; [vm_compute; reflexivity|].
  apply (C6_owner_terms_anywhere examples.c6_enricher [] "bob@finance.example").
  vm_compute. reflexivity.
Defined.

(** C7, at a concrete tracker. *)
Lemma C7_score_non_increasing_witness :
  recorded examples.c10_tracker
  /\ (examples.T_11_00 <= examples.T_11_02)%Z
  /\ get_recon_score examples.c10_tracker examples.alice examples.T_11_02
     <= get_recon_score examples.c10_tracker examples.alice examples.T_11_00.
Proof.
  assert (Hr : recorded examples.c10_tracker).
  { unfold examples.c10_tracker. do 2 apply recorded_step.
    apply recorded_init. discriminate. }
  assert (Ht : (examples.T_11_00 <= examples.T_11_02)%Z)
    by (unfold examples.T_11_00, examples.T_11_02; lia).
  splits; [exact Hr|exact Ht|].
  exact (C7_score_non_increasing examples.c10_tracker examples.alice
           examples.T_11_00 examples.T_11_02 Hr Ht).
Defined.

(** C8, at a recon and an egress event of the same instant that the
    classifier does not suppress. *)
Lemma C8_matches_at_or_after_witness :
  ReconEvent.timestamp examples.c2_recon = ExfilEvent.timestamp examples.c8_exfil
  /\ (0 <= 30)%Z
  /\ suppresses (self_ examples.c8_state) 0%Z examples.c8_exfil = false
  /\ matched_recon (correlate_recon 0%Z 30 examples.c8_exfil 0
                      examples.c8_state examples.c2_recon) = true
  /\ exists f,
       findings (correlate_recon 0%Z 30 examples.c8_exfil 0
                   examples.c8_state examples.c2_recon)
       = findings examples.c8_state ++ [f]
       /\ Finding.recon_time f = Iso (ReconEvent.timestamp examples.c2_recon)
       /\ Finding.exfil_time f = Iso (ExfilEvent.timestamp examples.c8_exfil)
       /\ Finding.event_ids f
          = (ReconEvent.event_id examples.c2_recon,
             ExfilEvent.event_id examples.c8_exfil)
       /\ (Finding.delta_minutes f == 0)%Q.
Proof.
  assert (Hs : suppresses (self_ examples.c8_state) 0%Z examples.c8_exfil
               = false) by (vm_compute; reflexivity).
  pose proof (proj1 (proj2 (proj2
                (C8_matches_at_or_after 0%Z 30 examples.c8_exfil
                   examples.c2_recon 0 examples.c8_state)))
                eq_refl ltac:(lia)) as [Hm Hf].
  rewrite Hs in Hf.
  splits; [reflexivity|lia|exact Hs|exact Hm|exact Hf].
Defined.

(** C10, at an egress on a canary document towards a trusted domain, with no
    recon event in the window and a recon score of 10. *)
Lemma C10_delayed_exfil_bypasses_witness :
  existsb
    (fun recon => in_window (delta_minutes_of examples.c10_exfil recon) 30)
    (default [] ((∅ : gmap string (list ReconEvent.t))
                 !! ExfilEvent.actor examples.c10_exfil)) = false
  /\ get_recon_score examples.c10_tracker examples.alice examples.T_11_00 > 5.0
  /\ is_canary ["doc-canary"] (ExfilEvent.doc_id examples.c10_exfil) = true
  /\ findings (correlate_exfil 0%Z 30 ∅ examples.c10_state examples.c10_exfil)
     = [delayed examples.c10_exfil
          (get_recon_score examples.c10_tracker examples.alice
             examples.T_11_00)]
  /\ Finding.severity
       (delayed examples.c10_exfil
          (get_recon_score examples.c10_tracker examples.alice
             examples.T_11_00)) = "medium".
Proof.
  assert (Hs : get_recon_score examples.c10_tracker examples.alice
                 examples.T_11_00 > 5.0) by (rewrite c10_score; lra).
  assert (Hn : existsb
    (fun recon => in_window (delta_minutes_of examples.c10_exfil recon) 30)
    (default [] ((∅ : gmap string (list ReconEvent.t))
                 !! ExfilEvent.actor examples.c10_exfil)) = false)
    by reflexivity.
  destruct (proj2 (C10_delayed_exfil_bypasses examples.c8_detector 0%Z [] [] 30)
              ∅ examples.c10_state examples.c10_exfil Hn Hs)
    as (Hf & Hsev & _).
  splits; [exact Hn|exact Hs|vm_compute; reflexivity|exact Hf|exact Hsev].
Defined.

(** * Further properties *)

(** ** recon_tracker: storing and scoring *)

(** X1: the decay factor halves with every 48 hours that pass. *)
Theorem X1_decay_halves_every_48_hours (activity_time current_time : datetime) :
  _calculate_decay_factor activity_time (current_time + 48 * MICROS_PER_HOUR)%Z
  = _calculate_decay_factor activity_time current_time / 2.
Proof.
  unfold _calculate_decay_factor, total_seconds_R, DECAY_HALF_LIFE_HOURS.
  replace (IZR (current_time + 48 * MICROS_PER_HOUR - activity_time)%Z
           / IZR MICROS_PER_SECOND / 3600 / 48)
    with (IZR (current_time - activity_time)
          / IZR MICROS_PER_SECOND / 3600 / 48 + 1).
  - rewrite Rpower_plus, Rpower_1 by lra. lra.
  - replace (current_time + 48 * MICROS_PER_HOUR - activity_time)%Z
      with (current_time - activity_time + 172800000000)%Z
      by (unfold MICROS_PER_HOUR, MICROS_PER_SECOND; lia).
    rewrite plus_IZR. unfold MICROS_PER_SECOND. lra.
Qed.

Lemma key_of_inj a b : key_of a = key_of b -> a = b.
Proof. unfold key_of. simpl. intros H. injection H as H. exact H. Qed.

(** X2: on a readable store, [record_recon] appends exactly one activity,
    with the action's base score, to the actor's list and leaves every other
    actor's list as it was. *)
Theorem X2_record_recon_appends (self : ReconTracker) (actor : string)
    (timestamp : datetime) (app action : string) (doc_id : option string)
    (other : string) :
  readable self ->
  let self' := record_recon self actor timestamp app action doc_id in
  stored_activities self' (key_of actor)
  = stored_activities self (key_of actor)
    ++ [recorded_activity actor timestamp app action doc_id]
  /\ (other <> actor ->
      stored_activities self' (key_of other)
      = stored_activities self (key_of other))
  /\ readable self'.
Proof.
  intros Hr. cbv zeta.
  unfold readable, record_recon, stored_activities, _store_in_memory,
    _get_redis_activities, recorded_activity in *.
  destruct (redis_client self) as [r|] eqn:Er.
  - rewrite Hr. simpl. rewrite lookup_insert_eq. simpl. splits; try reflexivity.
    intros Hne. rewrite lookup_insert_ne; [reflexivity|].
    intros E. apply key_of_inj in E. congruence.
  - simpl. rewrite lookup_insert_eq. simpl. splits; try exact I;
      try reflexivity.
    intros Hne. rewrite lookup_insert_ne; [reflexivity|].
    intros E. apply key_of_inj in E. congruence.
Qed.

Lemma round2_R_0 : round2_R 0 = 0.
Proof. exact (round2_R_IZR 0). Qed.

(** X3: with a Redis client that does not answer, [record_recon] falls back
    to the in-memory store, but [get_recon_score] never reads that store
    while a client is set: the score stays 0.0 for every actor and time. *)
Theorem X3_unreachable_redis_scores_zero (self : ReconTracker) (r : redis)
    (actor : string) (timestamp : datetime) (app action : string)
    (doc_id : option string) (who : string) (now : datetime) :
  redis_client self = Some r -> redis_up r = false ->
  let self' := record_recon self actor timestamp app action doc_id in
  memory_store self' !! key_of actor
  = Some (default [] (memory_store self !! key_of actor)
          ++ [recorded_activity actor timestamp app action doc_id])
  /\ get_recon_score self' who now = 0.
Proof.
  intros Er Hdown. cbv zeta. unfold record_recon. rewrite Er, Hdown.
  split.
  - unfold _store_in_memory. simpl. rewrite lookup_insert_eq. reflexivity.
  - unfold get_recon_score, stored_activities, _store_in_memory. simpl.
    rewrite Er. unfold _get_redis_activities. rewrite Hdown. simpl.
    apply round2_R_0.
Qed.

Lemma X3_unreachable_redis_scores_zero_witness :
  let self := recon_tracker.__init__
                (Some {| redis_up := false; redis_data := ∅ |}) 14 in
  redis_client self = Some {| redis_up := false; redis_data := ∅ |}
  /\ redis_up {| redis_up := false; redis_data := ∅ |} = false
  /\ get_recon_score
       (record_recon self examples.alice examples.T_11_00 "docs" "catch_me_up"
          None) examples.alice examples.T_11_00 = 0.
Proof.
  cbv zeta. splits; [reflexivity|reflexivity|].
  apply (X3_unreachable_redis_scores_zero
           (recon_tracker.__init__
              (Some {| redis_up := false; redis_data := ∅ |}) 14)
           {| redis_up := false; redis_data := ∅ |}); reflexivity.
Defined.

Lemma X2_record_recon_appends_witness :
  readable (recon_tracker.__init__ None 14)
  /\ stored_activities
       (record_recon (recon_tracker.__init__ None 14) examples.alice
          examples.T_11_00 "docs" "catch_me_up" None) (key_of examples.alice)
     = stored_activities (recon_tracker.__init__ None 14)
         (key_of examples.alice)
       ++ [recorded_activity examples.alice examples.T_11_00 "docs"
             "catch_me_up" None].
Proof.
  split; [exact I|].
  apply (X2_record_recon_appends (recon_tracker.__init__ None 14)
           examples.alice examples.T_11_00 "docs" "catch_me_up" None
           examples.alice).
  exact I.
Defined.

Lemma sum_nonneg l t :
  nonneg_scores l -> forall acc, 0 <= acc ->
  0 <= fold_left (add_activity t) l acc.
Proof.
  intros Hl. induction Hl as [|a l Ha Hl IH]; simpl; intros acc Hacc.
  - exact Hacc.
  - apply IH. unfold add_activity.
    destruct (ad_timestamp a) as [at_|]; [|exact Hacc].
    destruct (ad_score a) as [s|]; [|exact Hacc].
    pose proof (Ha s eq_refl). pose proof (Rpower_half_pos
      (total_seconds_R t at_ / 3600 / DECAY_HALF_LIFE_HOURS)).
    unfold _calculate_decay_factor. nra.
Qed.

Lemma get_recon_score_antitone self actor t1 t2 :
  recorded self -> (t1 <= t2)%Z ->
  get_recon_score self actor t2 <= get_recon_score self actor t1.
Proof.
  intros Hrec Ht. unfold get_recon_score.
  apply round2_R_mono, sum_antitone; [|exact Ht|lra].
  apply stored_activities_nonneg, recorded_ok, Hrec.
Qed.

(** X4: the recon score of a tracker filled by [record_recon] is never
    negative, and is 0.0 for an actor without stored activity. *)
Theorem X4_score_nonnegative (self : ReconTracker) (actor : string)
    (now : datetime) :
  recorded self ->
  0 <= get_recon_score self actor now
  /\ (stored_activities self (key_of actor) = [] ->
      get_recon_score self actor now = 0).
Proof.
  intros Hrec. split.
  - unfold get_recon_score. rewrite <- round2_R_0 at 1.
    apply round2_R_mono, sum_nonneg; [|lra].
    apply stored_activities_nonneg, recorded_ok, Hrec.
  - intros E. unfold get_recon_score. rewrite E. simpl. apply round2_R_0.
Qed.

Lemma X4_score_nonnegative_witness :
  recorded examples.c10_tracker
  /\ 0 <= get_recon_score examples.c10_tracker examples.alice examples.T_11_02.
Proof.
  assert (Hr : recorded examples.c10_tracker).
  { unfold examples.c10_tracker. do 2 apply recorded_step.
    apply recorded_init. discriminate. }
  split; [exact Hr|].
  apply (X4_score_nonnegative examples.c10_tracker examples.alice
           examples.T_11_02 Hr).
Defined.

(** X5: the risk level of an actor never rises as time passes without new
    activity: once [low] it stays [low], and it was [high] before whenever
    it is [high] now. *)
Theorem X5_risk_level_never_rises (self : ReconTracker) (actor : string)
    (t1 t2 : datetime) :
  recorded self -> (t1 <= t2)%Z ->
  (get_risk_level self actor t1 = "low" -> get_risk_level self actor t2 = "low")
  /\ (get_risk_level self actor t2 = "high" ->
      get_risk_level self actor t1 = "high").
Proof.
  intros Hrec Ht.
  pose proof (get_recon_score_antitone self actor t1 t2 Hrec Ht) as Hs.
  unfold get_risk_level, SCORE_THRESHOLD_HIGH, SCORE_THRESHOLD_MEDIUM.
  set (s1 := get_recon_score self actor t1) in *.
  set (s2 := get_recon_score self actor t2) in *.
  clearbody s1 s2. unfold Rgeb.
  destruct (Rge_dec s1 10.0), (Rge_dec s1 5.0), (Rge_dec s2 10.0),
    (Rge_dec s2 5.0); split; intros H; try discriminate H; try reflexivity;
    lra.
Qed.

Lemma X5_risk_level_never_rises_witness :
  recorded examples.c10_tracker
  /\ (examples.T_11_00 <= examples.T_11_02)%Z
  /\ (get_risk_level examples.c10_tracker examples.alice examples.T_11_02
      = "high" ->
      get_risk_level examples.c10_tracker examples.alice examples.T_11_00
      = "high").
Proof.
  assert (Hr : recorded examples.c10_tracker).
  { unfold examples.c10_tracker. do 2 apply recorded_step.
    apply recorded_init. discriminate. }
  assert (Ht : (examples.T_11_00 <= examples.T_11_02)%Z)
    by (unfold examples.T_11_00, examples.T_11_02; lia).
  splits; [exact Hr|exact Ht|].
  apply (X5_risk_level_never_rises examples.c10_tracker examples.alice
           examples.T_11_00 examples.T_11_02 Hr Ht).
Defined.

(** ** intent_classifier: reputation, suppression, confidence, baselines *)

Lemma get_domain_reputation_sets self domain :
  trusted_domains (snd (_get_domain_reputation self domain))
  = trusted_domains self
  /\ partner_domains (snd (_get_domain_reputation self domain))
     = partner_domains self.
Proof.
  unfold _get_domain_reputation.
  destruct (domain_reputation_cache self !! py.lower domain); split;
    reflexivity.
Qed.

Lemma get_domain_reputation_ok self domain :
  cache_ok self ->
  fst (_get_domain_reputation self domain)
  = sets_reputation self (py.lower domain)
  /\ cache_ok (snd (_get_domain_reputation self domain)).
Proof.
  intros Hok. unfold _get_domain_reputation.
  destruct (domain_reputation_cache self !! py.lower domain) as [v|] eqn:E.
  - split; [exact (Hok _ _ E)|exact Hok].
  - split; [reflexivity|].
    intros k v Hk. simpl in Hk.
    destruct (decide (py.lower domain = k)) as [<-|Hne].
    + rewrite lookup_insert_eq in Hk. injection Hk as <-. reflexivity.
    + rewrite lookup_insert_ne in Hk by exact Hne. exact (Hok _ _ Hk).
Qed.

Lemma get_or_create_baseline_rest self wall actor :
  trusted_domains (snd (_get_or_create_baseline self wall actor))
  = trusted_domains self
  /\ partner_domains (snd (_get_or_create_baseline self wall actor))
     = partner_domains self
  /\ domain_reputation_cache (snd (_get_or_create_baseline self wall actor))
     = domain_reputation_cache self.
Proof.
  unfold _get_or_create_baseline.
  destruct (user_baselines self !! actor); splits; reflexivity.
Qed.

Lemma cache_ok_ext self self' :
  trusted_domains self' = trusted_domains self ->
  partner_domains self' = partner_domains self ->
  domain_reputation_cache self' = domain_reputation_cache self ->
  cache_ok self -> cache_ok self'.
Proof.
  intros Ht Hp Hc Hok k v Hk. rewrite Hc in Hk.
  unfold sets_reputation. rewrite Ht, Hp. exact (Hok k v Hk).
Qed.

Lemma classify_intent_cache_ok self wall actor exfil_event doc_id doc_owner
    visibility timestamp new_value :
  cache_ok self ->
  cache_ok (snd (classify_intent self wall actor exfil_event doc_id doc_owner
                   visibility timestamp new_value)).
Proof.
  intros Hok. rewrite classify_intent_state.
  set (s1 := match _extract_destination_domain new_value visibility with
             | Some d => _ | None => self end).
  assert (H1 : cache_ok s1).
  { unfold s1. destruct (_extract_destination_domain new_value visibility)
      as [d|]; [|exact Hok].
    destruct (String.eqb d ""); [exact Hok|].
    apply get_domain_reputation_ok, Hok. }
  clearbody s1.
  destruct (get_or_create_baseline_rest s1 wall actor) as (Ht & Hp & Hc).
  exact (cache_ok_ext _ _ Ht Hp Hc H1).
Qed.

Lemma update_baseline_rest self wall actor exfil_event destination_domain :
  let self' := update_baseline self wall actor exfil_event destination_domain in
  trusted_domains self' = trusted_domains self
  /\ partner_domains self' = partner_domains self
  /\ domain_reputation_cache self' = domain_reputation_cache self.
Proof.
  cbv zeta. unfold update_baseline.
  destruct (_get_or_create_baseline self wall actor) as [b s1] eqn:E.
  pose proof (get_or_create_baseline_rest self wall actor) as (Ht & Hp & Hc).
  rewrite E in Ht, Hp, Hc. cbn [snd] in Ht, Hp, Hc.
  destruct destination_domain as [d|]; [destruct (String.eqb d "")|];
    simpl; splits; assumption.
Qed.

Lemma reachable_cache_ok self : reachable self -> cache_ok self.
Proof.
  induction 1 as [allowed partner|self wall actor ev doc_id owner vis ts nv _ IH
                 |self wall actor ev dd _ IH].
  - intros k v Hk. simpl in Hk. rewrite lookup_empty in Hk. discriminate.
  - apply classify_intent_cache_ok, IH.
  - destruct (update_baseline_rest self wall actor ev dd) as (Ht & Hp & Hc).
    exact (cache_ok_ext _ _ Ht Hp Hc IH).
Qed.

(** [should_suppress] is set by the trusted-domain rule and by nothing
    else. *)
Lemma should_suppress_iff self wall actor exfil_event doc_id doc_owner
    visibility timestamp new_value :
  should_suppress
    (fst (classify_intent self wall actor exfil_event doc_id doc_owner
            visibility timestamp new_value)) = true
  <-> exists d,
        _extract_destination_domain new_value visibility = Some d
        /\ d <> ""
        /\ fst (_get_domain_reputation self d) = "trusted".
Proof.
  unfold classify_intent. cbv zeta.
  destruct (_extract_destination_domain new_value visibility) as [d|].
  - destruct (String.eqb_spec d "") as [->|Hne].
    + destruct (_get_or_create_baseline self wall actor) as [b s2].
      cbn [fst should_suppress].
      repeat match goal with
             | |- context [if ?c then _ else _] => destruct c
             end; cbn [say suppress v_should_suppress];
        (split; [discriminate|intros (d & E & Hd & _); congruence]).
    + destruct (_get_domain_reputation self d) as [rep s1] eqn:Erep.
      cbn [fst].
      destruct (String.eqb_spec rep "trusted") as [->|Hrep].
      * destruct (_get_or_create_baseline s1 wall actor) as [b s2].
        cbn [fst should_suppress].
        repeat match goal with
               | |- context [if ?c then _ else _] => destruct c
               end; cbn [say suppress v_should_suppress];
          (split; [intros _; exists d; rewrite Erep;
                   splits; [reflexivity|exact Hne|reflexivity]
                  |reflexivity]).
      * destruct (String.eqb rep "partner"); [|destruct (String.eqb rep "unknown")];
          destruct (_get_or_create_baseline s1 wall actor) as [b s2];
          cbn [fst should_suppress];
          repeat match goal with
                 | |- context [if ?c then _ else _] => destruct c
                 end; cbn [say suppress v_should_suppress];
          (split; [discriminate
                  |intros (d' & E & _ & Hr); injection E as <-;
                   rewrite Erep in Hr; cbn [fst] in Hr; congruence]).
  - destruct (_get_or_create_baseline self wall actor) as [b s2].
    cbn [fst should_suppress].
    repeat match goal with
           | |- context [if ?c then _ else _] => destruct c
           end; cbn [say suppress v_should_suppress];
      (split; [discriminate|intros (d & E & _); discriminate]).
Qed.

(** X6: in every classifier state of a run, a classification asks for
    suppression exactly when the egress event has a destination domain whose
    lower-cased form is one of the configured trusted domains; ownership,
    baselines, off-hours and download habits never suppress. *)
Theorem X6_suppression_iff_trusted_destination (self : IntentClassifier)
    (wall : datetime) (actor exfil_event : string)
    (doc_id doc_owner visibility : option string) (timestamp : datetime)
    (new_value : option string) :
  reachable self ->
  (should_suppress
     (fst (classify_intent self wall actor exfil_event doc_id doc_owner
             visibility timestamp new_value)) = true
   <-> exists d,
         _extract_destination_domain new_value visibility = Some d
         /\ d <> ""
         /\ py.lower d ∈ trusted_domains self).
Proof.
  intros Hr. apply reachable_cache_ok in Hr.
  rewrite should_suppress_iff.
  split; intros (d & E & Hne & H); exists d; splits; try assumption.
  - rewrite (proj1 (get_domain_reputation_ok self d Hr)) in H.
    unfold sets_reputation in H.
    destruct (bool_decide (py.lower d ∈ trusted_domains self)) eqn:Et.
    + apply bool_decide_eq_true in Et. exact Et.
    + destruct (bool_decide (py.lower d ∈ partner_domains self));
        discriminate H.
  - rewrite (proj1 (get_domain_reputation_ok self d Hr)).
    unfold sets_reputation.
    rewrite (bool_decide_eq_true_2 _ H). reflexivity.
Qed.

Lemma X6_suppression_iff_trusted_destination_witness :
  reachable examples.c1_classifier
  /\ should_suppress
       (fst (classify_intent examples.c1_classifier 0%Z examples.alice
               "change_user_access" None None None examples.T_11_02
               (Some "alice@Example-Partner.com"))) = true.
Proof.
  assert (Hr : reachable examples.c1_classifier) by apply reachable_init.
  split; [exact Hr|].
  apply (X6_suppression_iff_trusted_destination examples.c1_classifier 0%Z
           examples.alice "change_user_access" None None None examples.T_11_02
           (Some "alice@Example-Partner.com") Hr).
  exists "Example-Partner.com". splits; [reflexivity|discriminate|].
  vm_compute. reflexivity.
Defined.

Ltac split_ifs :=
  repeat match goal with
         | |- context [if ?c then _ else _] => destruct c
         end.

Ltac confidence_leaf :=
  cbn [fst confidence]; split_ifs;
  split; apply Qle_bool_imp_le; vm_compute; reflexivity.

(** X7: the confidence [classify_intent] reports lies between -0.35 and 1.5:
    the rules are added up without clamping, so the value can leave the
    range 0.0-1.0 that the docstring announces. *)
Theorem X7_confidence_range (self : IntentClassifier) (wall : datetime)
    (actor exfil_event : string) (doc_id doc_owner visibility : option string)
    (timestamp : datetime) (new_value : option string) :
  let ia := fst (classify_intent self wall actor exfil_event doc_id doc_owner
                   visibility timestamp new_value) in
  (- (35 # 100) <= confidence ia)%Q /\ (confidence ia <= 15 # 10)%Q.
Proof.
  unfold classify_intent. cbv zeta.
  destruct (_extract_destination_domain new_value visibility) as [d|].
  - destruct (String.eqb d "").
    + destruct (_get_or_create_baseline self wall actor) as [b s2].
      confidence_leaf.
    + destruct (_get_domain_reputation self d) as [rep s1].
      destruct (String.eqb rep "trusted");
        [|destruct (String.eqb rep "partner");
          [|destruct (String.eqb rep "unknown")]];
        destruct (_get_or_create_baseline s1 wall actor) as [b s2];
        confidence_leaf.
  - destruct (_get_or_create_baseline self wall actor) as [b s2].
    confidence_leaf.
Qed.

(** Both ends of the range are reached. *)
Example confidence_leaves_unit_interval :
  let unknown_at_night :=
    fst (classify_intent (intent_classifier.__init__ [] []) 0%Z examples.alice
           "change_user_access" None (Some "carol@corp.example") None 0%Z
           (Some "x@evil.example")) in
  let trusted_download :=
    fst (classify_intent
           (build_baselines_from_history
              (intent_classifier.__init__ ["example-partner.com"] []) 0%Z
              (repeat (ExfilEvent.mk examples.alice examples.T_11_00 "download"
                         None None None None (Some "a@example-partner.com")
                         None None None "e" None false) 11))
           0%Z examples.alice "download" None (Some examples.alice) None
           examples.T_11_00 (Some "a@example-partner.com")) in
  (confidence unknown_at_night == 15 # 10)%Q
  /\ intent unknown_at_night = "malicious"
  /\ (confidence trusted_download == - (35 # 100))%Q
  /\ should_suppress trusted_download = true.
Proof. cbv zeta. splits; vm_compute; reflexivity. Qed.

Lemma truthy_some d : py.truthy (Some d) = negb (String.eqb d "").
Proof. reflexivity. Qed.

(** The baseline of any actor after one [update_baseline]. *)
Lemma update_baseline_of self wall actor exfil_event destination_domain a :
  let b := baseline_of self wall a in
  let b' :=
    baseline_of (update_baseline self wall actor exfil_event destination_domain)
      wall a in
  let shared := andb (String.eqb a actor) (py.truthy destination_domain) in
  let downloaded :=
    andb (String.eqb a actor)
         (py.list_in exfil_event ["download"; "export"]) in
  typical_share_count b'
  = (typical_share_count b + if shared then 1 else 0)%Z
  /\ typical_download_count b'
     = (typical_download_count b + if downloaded then 1 else 0)%Z
  /\ typical_share_domains b'
     = if shared
       then {[default "" destination_domain]} ∪ typical_share_domains b
       else typical_share_domains b.
Proof.
  cbv zeta. unfold baseline_of, update_baseline, _get_or_create_baseline.
  destruct (String.eqb_spec a actor) as [->|Hne].
  - destruct (user_baselines self !! actor) as [b|] eqn:E;
      destruct destination_domain as [d|];
      try destruct (String.eqb d "") eqn:Ed;
      cbn [py.truthy andb negb]; try rewrite Ed;
      destruct (py.list_in exfil_event ["download"; "export"]);
      cbn [snd set_baselines user_baselines negb];
      rewrite lookup_insert_eq; cbn; splits;
      first [reflexivity | lia].
  - assert (Hne' : actor <> a) by congruence.
    destruct (user_baselines self !! actor) as [b|] eqn:E;
      destruct destination_domain as [d|];
      try destruct (String.eqb d "");
      cbn [snd set_baselines user_baselines andb];
      rewrite ?lookup_insert_ne by exact Hne';
      splits; first [reflexivity | lia].
Qed.

(** X8: [update_baseline] counts one share and remembers the domain when a
    destination domain is given, counts one download when the event is named
    exactly [download] or [export], and touches no other actor's baseline. *)
Theorem X8_update_baseline_counts (self : IntentClassifier) (wall : datetime)
    (actor exfil_event : string) (destination_domain : option string)
    (other : string) :
  let self' :=
    update_baseline self wall actor exfil_event destination_domain in
  let b := baseline_of self wall actor in
  let b' := baseline_of self' wall actor in
  typical_share_count b'
  = (typical_share_count b + if py.truthy destination_domain then 1 else 0)%Z
  /\ typical_download_count b'
     = (typical_download_count b
        + if py.list_in exfil_event ["download"; "export"] then 1 else 0)%Z
  /\ typical_share_domains b'
     = (if py.truthy destination_domain
        then {[default "" destination_domain]} ∪ typical_share_domains b
        else typical_share_domains b)
  /\ (other <> actor ->
      user_baselines self' !! other = user_baselines self !! other).
Proof.
  cbv zeta.
  pose proof (update_baseline_of self wall actor exfil_event
                destination_domain actor) as (Hs & Hd & Hdom).
  cbv zeta in Hs, Hd, Hdom. rewrite String.eqb_refl in Hs, Hd, Hdom.
  cbn [andb] in Hs, Hd, Hdom.
  splits; try assumption.
  intros Hne. unfold update_baseline, _get_or_create_baseline.
  destruct (user_baselines self !! actor);
    destruct destination_domain as [d|]; try destruct (String.eqb d "");
    cbn [snd set_baselines user_baselines];
    rewrite ?lookup_insert_ne by congruence; reflexivity.
Qed.

Lemma build_step ic wall event events :
  build_baselines_from_history ic wall (event :: events)
  = build_baselines_from_history
      (update_baseline ic wall (ExfilEvent.actor event)
         (ExfilEvent.event_name event) (destination_of event))
      wall events.
Proof. reflexivity. Qed.

(** The counters and domains after [build_baselines_from_history]. *)
Lemma build_baselines_counts (events : list ExfilEvent.t) :
  forall (self : IntentClassifier) (wall : datetime) (actor : string),
    let self' := build_baselines_from_history self wall events in
    let b := baseline_of self wall actor in
    let b' := baseline_of self' wall actor in
    typical_share_count b'
    = (typical_share_count b + Z.of_nat (length (shares_by actor events)))%Z
    /\ typical_download_count b'
       = (typical_download_count b
          + Z.of_nat (length (downloads_by actor events)))%Z
    /\ typical_share_domains b ⊆ typical_share_domains b'
    /\ Forall (fun e => default "" (destination_of e) ∈ typical_share_domains b')
         (shares_by actor events).
Proof.
  induction events as [|event events IH]; intros self wall actor; cbv zeta.
  - simpl. splits; try lia; [reflexivity|constructor].
  - rewrite build_step.
    set (s1 := update_baseline self wall (ExfilEvent.actor event)
                 (ExfilEvent.event_name event) (destination_of event)).
    destruct (IH s1 wall actor) as (Hs & Hd & Hsub & Hall).
    cbv zeta in Hs, Hd, Hsub, Hall.
    pose proof (update_baseline_of self wall (ExfilEvent.actor event)
                  (ExfilEvent.event_name event) (destination_of event) actor)
      as (Us & Ud & Udom).
    cbv zeta in Us, Ud, Udom. fold s1 in Us, Ud, Udom.
    rewrite String.eqb_sym in Us, Ud, Udom.
    unfold shares_by, downloads_by in *. cbn [List.filter].
    rewrite Hs, Hd, Us, Ud.
    assert (Hsub0 : typical_share_domains (baseline_of self wall actor)
                    ⊆ typical_share_domains (baseline_of s1 wall actor)).
    { rewrite Udom. destruct (_ && _); [apply union_subseteq_r|reflexivity]. }
    destruct (String.eqb (ExfilEvent.actor event) actor
              && py.truthy (destination_of event)) eqn:E1;
      destruct (String.eqb (ExfilEvent.actor event) actor
                && py.list_in (ExfilEvent.event_name event)
                     ["download"; "export"]) eqn:E2;
      cbn [length]; splits; try lia; try (etrans; eassumption);
      try exact Hall;
      (constructor; [|exact Hall]); apply Hsub; rewrite Udom;
      apply elem_of_union_l, elem_of_singleton; reflexivity.
Qed.

(** ** The correlator, continued *)

(** *** A general invariant of the two loops *)

Section LoopInvariant.

Variables (wall : datetime) (w : Z).
Variable Inv : list Finding.t -> GeminiExfilDetector -> Prop.
Variable good : ExfilEvent.t -> ReconEvent.t -> Prop.
Variable given : ExfilEvent.t -> Prop.

Hypothesis recon_step :
  forall exfil score st recon,
    good exfil recon ->
    Inv (findings st) (self_ st) ->
    Inv (findings (correlate_recon wall w exfil score st recon))
        (self_ (correlate_recon wall w exfil score st recon)).

Hypothesis delayed_step :
  forall fs self exfil score,
    given exfil -> Inv fs self -> Inv (fs ++ [delayed exfil score]) self.

Lemma inner_loop_general exfil score recons :
  Forall (good exfil) recons ->
  forall st,
    Inv (findings st) (self_ st) ->
    Inv (findings (fold_left (correlate_recon wall w exfil score) recons st))
        (self_ (fold_left (correlate_recon wall w exfil score) recons st)).
Proof.
  induction 1 as [|recon recons Hg _ IH]; intros st HI; simpl.
  - exact HI.
  - apply IH, recon_step; assumption.
Qed.

Lemma outer_loop_general rba exfils :
  Forall (fun exfil =>
            given exfil
            /\ Forall (good exfil) (default [] (rba !! ExfilEvent.actor exfil)))
         exfils ->
  forall st,
    Inv (findings st) (self_ st) ->
    Inv (findings (fold_left (correlate_exfil wall w rba) exfils st))
        (self_ (fold_left (correlate_exfil wall w rba) exfils st)).
Proof.
  induction 1 as [|exfil exfils [Hgiven Hg] _ IH]; intros st HI; simpl.
  - exact HI.
  - apply IH. unfold correlate_exfil. cbv zeta.
    set (score := get_recon_score _ _ _).
    set (st0 := {| findings := findings st; matched_recon := false;
                   self_ := self_ st |}).
    pose proof (inner_loop_general exfil score _ Hg st0 HI) as H1.
    destruct (negb _ && Rgtb score 5.0); simpl.
    + apply delayed_step; [exact Hgiven|exact H1].
    + exact H1.
Qed.

End LoopInvariant.

(** The bucket of an actor holds the recon events of that actor, in their
    order. *)
Lemma bucket_fold recon_events :
  forall (m : gmap string (list ReconEvent.t)) (a : string),
    default [] (fold_left bucket recon_events m !! a)
    = default [] (m !! a)
      ++ List.filter (fun r => String.eqb (ReconEvent.actor r) a) recon_events.
Proof.
  induction recon_events as [|recon rest IH]; intros m a; simpl.
  - rewrite app_nil_r. reflexivity.
  - rewrite IH. unfold bucket.
    destruct (String.eqb_spec (ReconEvent.actor recon) a) as [->|Hne].
    + rewrite lookup_insert_eq. simpl. rewrite <- app_assoc. reflexivity.
    + rewrite lookup_insert_ne by exact Hne. reflexivity.
Qed.

Lemma recon_by_actor_spec recon_events a :
  default [] (fold_left bucket recon_events ∅ !! a)
  = List.filter (fun r => String.eqb (ReconEvent.actor r) a) recon_events.
Proof. rewrite bucket_fold, lookup_empty. reflexivity. Qed.

(** A run of [correlate_events], as an invariant: [Inv] holds of the
    detector once the baselines are built, every pair of an egress event and
    a recon event of the same actor keeps it, and so does a delayed-exfil
    finding for an egress event of the run. *)
Lemma correlate_events_general wall w
    (Inv : list Finding.t -> GeminiExfilDetector -> Prop)
    self recon_events exfil_events :
  (forall exfil score st recon,
     In exfil exfil_events -> In recon recon_events ->
     ReconEvent.actor recon = ExfilEvent.actor exfil ->
     Inv (findings st) (self_ st) ->
     Inv (findings (correlate_recon wall w exfil score st recon))
         (self_ (correlate_recon wall w exfil score st recon))) ->
  (forall fs s exfil score,
     In exfil exfil_events ->
     Inv fs s -> Inv (fs ++ [delayed exfil score]) s) ->
  Inv []
    (match intent_classifier self with
     | Some ic =>
         set_collaborators self (file_enricher self)
           (Some (build_baselines_from_history ic wall exfil_events))
     | None => self
     end) ->
  Inv (fst (correlate_events self wall recon_events exfil_events w))
      (snd (correlate_events self wall recon_events exfil_events w)).
Proof.
  intros Hstep Hdel H0. unfold correlate_events. cbv zeta. cbn [fst snd].
  apply (outer_loop_general wall w Inv
           (fun exfil recon =>
              In exfil exfil_events /\ In recon recon_events
              /\ ReconEvent.actor recon = ExfilEvent.actor exfil)
           (fun exfil => In exfil exfil_events)).
  - intros exfil score st recon (He & Hr & Ha). apply Hstep; assumption.
  - exact Hdel.
  - apply List.Forall_forall. intros exfil He. split; [exact He|].
    rewrite recon_by_actor_spec. apply List.Forall_forall. intros recon Hr.
    apply List.filter_In in Hr as [Hr Ha].
    apply String.eqb_eq in Ha. splits; assumption.
  - exact H0.
Qed.

(** X9: after [build_baselines_from_history], an actor's share counter has
    grown by the number of events of that actor with a destination domain,
    the download counter by the number of events named exactly [download]
    or [export], and every destination domain of the actor's events is among
    the typical share domains. *)
Theorem X9_build_baselines_counts (events : list ExfilEvent.t) :
  forall (self : IntentClassifier) (wall : datetime) (actor : string),
    let self' := build_baselines_from_history self wall events in
    let b := baseline_of self wall actor in
    let b' := baseline_of self' wall actor in
    typical_share_count b'
    = (typical_share_count b + Z.of_nat (length (shares_by actor events)))%Z
    /\ typical_download_count b'
       = (typical_download_count b
          + Z.of_nat (length (downloads_by actor events)))%Z
    /\ typical_share_domains b ⊆ typical_share_domains b'
    /\ Forall (fun e => default "" (destination_of e) ∈ typical_share_domains b')
         (shares_by actor events).
Proof. apply build_baselines_counts. Qed.

(** *** The first-time rule inside a run *)

Lemma classify_intent_baselines self wall actor exfil_event doc_id doc_owner
    visibility timestamp new_value :
  user_baselines
    (snd (classify_intent self wall actor exfil_event doc_id doc_owner
            visibility timestamp new_value))
  = match user_baselines self !! actor with
    | Some _ => user_baselines self
    | None => <[actor := fresh_baseline wall actor]> (user_baselines self)
    end.
Proof.
  rewrite classify_intent_state.
  set (s1 := match _extract_destination_domain new_value visibility with
             | Some d => _ | None => self end).
  assert (E : user_baselines s1 = user_baselines self).
  { unfold s1. destruct (_extract_destination_domain new_value visibility)
      as [d|]; [|reflexivity].
    destruct (String.eqb d ""); [reflexivity|].
    apply get_domain_reputation_baselines. }
  clearbody s1. unfold _get_or_create_baseline.
  destruct (user_baselines s1 !! actor) as [b|] eqn:L; rewrite E in L;
    rewrite L; cbn [snd]; [exact E|].
  unfold set_baselines. cbn [user_baselines]. rewrite E. reflexivity.
Qed.

(** Classifying does not change what [baseline_of] answers. *)
Lemma classify_intent_baseline_of self wall actor exfil_event doc_id doc_owner
    visibility timestamp new_value a :
  baseline_of
    (snd (classify_intent self wall actor exfil_event doc_id doc_owner
            visibility timestamp new_value)) wall a
  = baseline_of self wall a.
Proof.
  unfold baseline_of. rewrite classify_intent_baselines.
  destruct (user_baselines self !! actor) as [b|] eqn:E; [reflexivity|].
  destruct (decide (actor = a)) as [<-|Hne].
  - rewrite lookup_insert_eq, E. reflexivity.
  - rewrite lookup_insert_ne by exact Hne. reflexivity.
Qed.

Lemma get_or_create_fst self wall actor :
  fst (_get_or_create_baseline self wall actor) = baseline_of self wall actor.
Proof.
  unfold _get_or_create_baseline, baseline_of.
  destruct (user_baselines self !! actor); reflexivity.
Qed.

Lemma classify_intent_destination self wall actor exfil_event doc_id doc_owner
    visibility timestamp new_value :
  destination_domain
    (fst (classify_intent self wall actor exfil_event doc_id doc_owner
            visibility timestamp new_value))
  = _extract_destination_domain new_value visibility.
Proof.
  unfold classify_intent. cbv zeta.
  destruct (_extract_destination_domain new_value visibility) as [d|].
  - destruct (String.eqb d "").
    + destruct (_get_or_create_baseline self wall actor) as [b s2].
      reflexivity.
    + destruct (_get_domain_reputation self d) as [rep s1].
      destruct (String.eqb rep "trusted");
        [|destruct (String.eqb rep "partner");
          [|destruct (String.eqb rep "unknown")]];
        destruct (_get_or_create_baseline s1 wall actor) as [b s2];
        reflexivity.
  - destruct (_get_or_create_baseline self wall actor) as [b s2]. reflexivity.
Qed.

Ltac familiar_leaf Hd :=
  cbn [fst reasons]; rewrite (bool_decide_eq_true_2 _ Hd);
  split_ifs; cbn [say suppress v_reasons];
  (split; [simpl; tauto|simpl; intuition discriminate]).

(** A destination the baseline knows is reported as historical, never as a
    first-time share. *)
Lemma classify_intent_familiar self wall actor exfil_event doc_id doc_owner
    visibility timestamp new_value d :
  _extract_destination_domain new_value visibility = Some d -> d <> "" ->
  d ∈ typical_share_domains (baseline_of self wall actor) ->
  let ia := fst (classify_intent self wall actor exfil_event doc_id doc_owner
                   visibility timestamp new_value) in
  In ("User has historically shared with " ++ d)%string (reasons ia)
  /\ ~ In ("First-time share with " ++ d)%string (reasons ia).
Proof.
  intros He Hne Hd. unfold classify_intent. cbv zeta. rewrite He.
  rewrite (proj2 (String.eqb_neq d "") Hne).
  destruct (_get_domain_reputation self d) as [rep s1] eqn:Erep.
  assert (Hb : baseline_of s1 wall actor = baseline_of self wall actor).
  { unfold baseline_of.
    pose proof (get_domain_reputation_baselines self d) as H.
    rewrite Erep in H. cbn [snd] in H. rewrite H. reflexivity. }
  rewrite <- Hb, <- get_or_create_fst in Hd.
  destruct (String.eqb rep "trusted");
    [|destruct (String.eqb rep "partner");
      [|destruct (String.eqb rep "unknown")]];
    destruct (_get_or_create_baseline s1 wall actor) as [b s2];
    cbn [fst] in Hd; familiar_leaf Hd.
Qed.

Lemma build_baselines_facts (events : list ExfilEvent.t) :
  forall (self : IntentClassifier) (wall : datetime) (actor : string),
    let self' := build_baselines_from_history self wall events in
    let b := baseline_of self wall actor in
    let b' := baseline_of self' wall actor in
    typical_share_domains b ⊆ typical_share_domains b'
    /\ Forall (fun e => default "" (destination_of e) ∈ typical_share_domains b')
         (shares_by actor events).
Proof.
  intros self wall actor.
  destruct (build_baselines_counts events self wall actor)
    as (_ & _ & H1 & H2).
  split; assumption.
Qed.

Lemma build_baselines_familiar events self wall :
  Forall (familiar (build_baselines_from_history self wall events) wall) events.
Proof.
  apply List.Forall_forall. intros e He Ht.
  destruct (build_baselines_facts events self wall (ExfilEvent.actor e))
    as [_ H].
  cbv zeta in H. rewrite List.Forall_forall in H. apply H.
  unfold shares_by. apply List.filter_In. split; [exact He|].
  rewrite String.eqb_refl, Ht. reflexivity.
Qed.

Lemma draft_chain_intent_analysis canary exfil recon delta score sev :
  Finding.intent_analysis
    (if is_canary canary (ExfilEvent.doc_id exfil)
     then draft exfil recon delta score "high"
            (Text "CANARY DOCUMENT ACCESS - " :: snd (fst sev))
            (snd sev ++ ["canary_doc_access"])
     else draft exfil recon delta score (fst (fst sev)) (snd (fst sev))
            (snd sev)) = None.
Proof. destruct (is_canary _ _); reflexivity. Qed.

(** X10: inside [correlate_events] the first-time-destination rule never
    applies.  The baselines are built from the very events being correlated,
    so whenever a finding's intent analysis names a destination domain, that
    domain counts as one the actor has historically shared with. *)
Theorem X10_first_time_rule_never_fires (self : GeminiExfilDetector)
    (wall : datetime) (recon_events : list ReconEvent.t)
    (exfil_events : list ExfilEvent.t) (window_minutes : Z) :
  Forall historically_shared
    (fst (correlate_events self wall recon_events exfil_events window_minutes)).
Proof.
  apply (correlate_events_general wall window_minutes
           (fun fs s =>
              Forall historically_shared fs
              /\ forall ic, intent_classifier s = Some ic ->
                            Forall (familiar ic wall) exfil_events)).
  - intros exfil score st recon He _ _ [HP HF].
    rewrite correlate_recon_unfold. cbv zeta.
    destruct (in_window _ _); [|split; assumption].
    set (sev := _calculate_severity _ _ _).
    set (f0 := if is_canary _ _ then _ else _).
    destruct (enrich_step (file_enricher (self_ st)) wall exfil f0)
      as [f1 e1] eqn:Een.
    pose proof (enrich_step_fields _ _ _ _ _ _ Een)
      as (_ & _ & _ & _ & _ & _ & Hia & _).
    assert (Hf0 : Finding.intent_analysis f0 = None)
      by apply draft_chain_intent_analysis.
    rewrite Hf0 in Hia. cbn [fst snd].
    destruct (intent_classifier (self_ st)) as [ic|] eqn:Eic.
    + specialize (HF ic eq_refl).
      set (ci := classify_intent ic wall _ _ _ _ _ _ _).
      assert (HF' : forall ic', Some (snd ci) = Some ic' ->
                                Forall (familiar ic' wall) exfil_events).
      { intros ic' E. injection E as <-.
        apply List.Forall_forall. intros e Hin Ht. unfold ci.
        rewrite classify_intent_baseline_of.
        rewrite List.Forall_forall in HF. exact (HF e Hin Ht). }
      destruct (should_suppress (fst ci)); simpl; (split; [|exact HF']);
        [exact HP|].
      apply Forall_app. split; [exact HP|]. constructor; [|constructor].
      intros ia d Hi Hd Hne.
      pose proof (downgrade_fields (fst ci)
                    (Finding.set_intent_analysis f1 (Some (fst ci))))
        as (_ & _ & _ & _ & _ & _ & Dia & _).
      rewrite Dia in Hi. cbn in Hi. injection Hi as <-.
      unfold ci in Hd. rewrite classify_intent_destination in Hd.
      rewrite List.Forall_forall in HF. pose proof (HF exfil He) as Hfam.
      unfold familiar, destination_of in Hfam. rewrite Hd in Hfam.
      cbn in Hfam.
      apply (classify_intent_familiar ic wall _ _ _ _ _ _ _ d Hd Hne).
      apply Hfam. rewrite (proj2 (String.eqb_neq d "") Hne). reflexivity.
    + simpl. split; [|intros ic E; discriminate E].
      apply Forall_app. split; [exact HP|]. constructor; [|constructor].
      intros ia d Hi. rewrite Hia in Hi. discriminate Hi.
  - intros fs s exfil score _ [HP HF]. split; [|exact HF].
    apply Forall_app. split; [exact HP|]. constructor; [|constructor].
    intros ia d Hi. discriminate Hi.
  - split; [constructor|].
    destruct (intent_classifier self) as [ic0|] eqn:E0; simpl.
    + intros ic E. injection E as <-. apply build_baselines_familiar.
    + intros ic E. rewrite E0 in E. discriminate E.
Qed.

(** *** Severities *)

Lemma calculate_severity_valid exfil delta score :
  valid_severity (fst (fst (_calculate_severity exfil delta score))).
Proof.
  unfold _calculate_severity, valid_severity. cbv zeta.
  set (name := ExfilEvent.event_name exfil).
  set (ext := andb (orb (py.str_in "change_acl" name)
                        (py.str_in "change_visibility" name)) _).
  set (ed := orb (py.str_in "download" name) (py.str_in "export" name)).
  set (transfer := py.str_in "transfer_ownership" name).
  set (publish := py.str_in "publish_to_web" name).
  set (shortcut := py.str_in "create_shortcut" name).
  set (g10 := Rgeb score 10.0).
  set (g5 := Rgeb score 5.0).
  destruct (ExfilEvent.is_revert exfil);
    [destruct g10, g5; cbn; tauto|].
  destruct (Qle_bool delta 10).
  - destruct ext, transfer, publish, ed, shortcut, g10, g5; cbn; tauto.
  - destruct (Qle_bool delta 30), ext, ed, transfer, g10, g5; cbn; tauto.
Qed.

Lemma enrich_finding_identity fe wall f d :
  identity_fields (fst (enrich_finding fe wall f d)) = identity_fields f
  /\ Finding.intent_analysis (fst (enrich_finding fe wall f d))
     = Finding.intent_analysis f
  /\ (valid_severity (Finding.severity f) ->
      valid_severity (Finding.severity (fst (enrich_finding fe wall f d)))).
Proof.
  unfold enrich_finding, valid_severity.
  destruct (negb (py.truthy d)); [splits; tauto|].
  destruct (get_file_metadata fe wall (default "" d)) as [[m|] fe0];
    [|splits; tauto].
  destruct (String.eqb (sensitivity m) "high"); [|splits; cbn; tauto].
  cbn [Finding.severity Finding.set_file_context].
  destruct (String.eqb (Finding.severity f) "medium");
    [splits; cbn; tauto|].
  destruct (String.eqb (Finding.severity f) "low"); splits; cbn; tauto.
Qed.

Lemma enrich_step_identity enricher wall exfil f :
  identity_fields (fst (enrich_step enricher wall exfil f)) = identity_fields f
  /\ Finding.intent_analysis (fst (enrich_step enricher wall exfil f))
     = Finding.intent_analysis f
  /\ (valid_severity (Finding.severity f) ->
      valid_severity (Finding.severity (fst (enrich_step enricher wall exfil f)))).
Proof.
  unfold enrich_step. destruct enricher as [fe|]; [|splits; tauto].
  destruct (py.truthy (ExfilEvent.doc_id exfil)); [|splits; tauto].
  pose proof (enrich_finding_identity fe wall f (ExfilEvent.doc_id exfil)) as H.
  destruct (enrich_finding fe wall f (ExfilEvent.doc_id exfil)) as [d fe'].
  exact H.
Qed.

Lemma downgrade_identity ia f :
  identity_fields (downgrade ia f) = identity_fields f
  /\ (valid_severity (Finding.severity f) ->
      valid_severity (Finding.severity (downgrade ia f))).
Proof.
  unfold downgrade, valid_severity.
  destruct (String.eqb (intent ia) "legitimate"); [|tauto].
  destruct (String.eqb (Finding.severity f) "high"); [cbn; tauto|].
  destruct (String.eqb (Finding.severity f) "medium"); cbn; tauto.
Qed.

(** The finding a matching pair appends, if it appends one. *)
Lemma correlate_recon_appends wall w exfil score st recon :
  findings (correlate_recon wall w exfil score st recon) = findings st
  \/ exists f,
       findings (correlate_recon wall w exfil score st recon)
       = findings st ++ [f]
       /\ in_window (delta_minutes_of exfil recon) w = true
       /\ valid_severity (Finding.severity f)
       /\ identity_fields f
          = identity_fields
              (draft exfil recon (delta_minutes_of exfil recon) score "" [] (
                 snd (_calculate_severity exfil (delta_minutes_of exfil recon)
                        score)
                 ++ if is_canary (canary_doc_ids (self_ st))
                         (ExfilEvent.doc_id exfil)
                    then ["canary_doc_access"] else [])).
Proof.
  rewrite correlate_recon_unfold. cbv zeta.
  destruct (in_window _ _) eqn:Ew; [|left; reflexivity].
  set (sev := _calculate_severity _ _ _).
  set (f0 := if is_canary _ _ then _ else _).
  assert (F0 : valid_severity (Finding.severity f0)
               /\ identity_fields f0
                  = identity_fields
                      (draft exfil recon (delta_minutes_of exfil recon) score
                         "" []
                         (snd sev
                          ++ if is_canary (canary_doc_ids (self_ st))
                                  (ExfilEvent.doc_id exfil)
                             then ["canary_doc_access"] else []))).
  { unfold f0. destruct (is_canary _ _).
    - split; [left; reflexivity|reflexivity].
    - split; [apply calculate_severity_valid|].
      unfold identity_fields. cbn. rewrite app_nil_r. reflexivity. }
  destruct F0 as [Hv Hid].
  destruct (enrich_step_identity (file_enricher (self_ st)) wall exfil f0)
    as (Eid & _ & Ev).
  destruct (intent_classifier (self_ st)) as [ic|].
  - set (ci := classify_intent ic wall _ _ _ _ _ _ _).
    destruct (should_suppress (fst ci)); [left; reflexivity|].
    right. eexists. split; [reflexivity|]. split; [reflexivity|].
    destruct (downgrade_identity (fst ci)
                (Finding.set_intent_analysis
                   (fst (enrich_step (file_enricher (self_ st)) wall exfil f0))
                   (Some (fst ci)))) as [Did Dv].
    split.
    + apply Dv. cbn. apply Ev, Hv.
    + rewrite Did. rewrite <- Hid, <- Eid. reflexivity.
  - right. eexists. split; [reflexivity|]. split; [reflexivity|].
    split; [apply Ev, Hv|]. rewrite Eid. exact Hid.
Qed.

(** X11: the severity of every finding of a run is one of [high], [medium]
    and [low]. *)
Theorem X11_severity_is_high_medium_or_low (self : GeminiExfilDetector)
    (wall : datetime) (recon_events : list ReconEvent.t)
    (exfil_events : list ExfilEvent.t) (window_minutes : Z) :
  Forall (fun f => valid_severity (Finding.severity f))
    (fst (correlate_events self wall recon_events exfil_events window_minutes)).
Proof.
  apply (correlate_events_general wall window_minutes
           (fun fs _ => Forall (fun f => valid_severity (Finding.severity f)) fs)).
  - intros exfil score st recon _ _ _ HP.
    destruct (correlate_recon_appends wall window_minutes exfil score st recon)
      as [->|(f & -> & _ & Hv & _)]; [exact HP|].
    apply Forall_app. split; [exact HP|]. constructor; [exact Hv|constructor].
  - intros fs s exfil score _ HP. apply Forall_app. split; [exact HP|].
    constructor; [right; left; reflexivity|constructor].
  - constructor.
Qed.

(** X12: every finding of a run names events that were given to it.  A
    finding that pairs two events names a recon event of [recon_events] and
    an egress event of [exfil_events], both of the same actor, which is the
    finding's actor; a delayed-exfil finding names an egress event of
    [exfil_events] and carries its actor. *)
Theorem X12_findings_pair_events_of_one_actor (self : GeminiExfilDetector)
    (wall : datetime) (recon_events : list ReconEvent.t)
    (exfil_events : list ExfilEvent.t) (window_minutes : Z) :
  Forall (names_given_events recon_events exfil_events)
    (fst (correlate_events self wall recon_events exfil_events window_minutes)).
Proof.
  apply (correlate_events_general wall window_minutes
           (fun fs _ =>
              Forall (names_given_events recon_events exfil_events) fs)).
  - intros exfil score st recon He Hr Ha HP.
    destruct (correlate_recon_appends wall window_minutes exfil score st recon)
      as [->|(f & -> & _ & _ & Hid)]; [exact HP|].
    apply Forall_app. split; [exact HP|]. constructor; [|constructor].
    unfold identity_fields in Hid. cbn in Hid.
    injection Hid as Hactor Hev _ _ _ Hra Hrt _ _ Hids _ _ _.
    unfold names_given_events. rewrite Hrt.
    exists recon, exfil. splits; assumption.
  - intros fs s exfil score He HP. apply Forall_app. split; [exact HP|].
    constructor; [|constructor].
    exists exfil. splits; [exact He|reflexivity|reflexivity|reflexivity].
  - constructor.
Qed.

(** *** Runs without signal, and silenced runs *)

Lemma get_recon_score_empty tracker actor now :
  stored_activities tracker (key_of actor) = [] ->
  get_recon_score tracker actor now = 0.
Proof.
  intros E. unfold get_recon_score. rewrite E. simpl. apply round2_R_0.
Qed.

Lemma Rgtb_0_5 : Rgtb 0 5.0 = false.
Proof. apply Rgtb_false. lra. Qed.

(** X13: without recon events and without stored recon activity, a run
    reports nothing, whatever the egress events are. *)
Theorem X13_no_recon_no_findings (self : GeminiExfilDetector)
    (wall : datetime) (exfil_events : list ExfilEvent.t) (window_minutes : Z) :
  (forall actor,
     stored_activities (recon_tracker self) (key_of actor) = []) ->
  fst (correlate_events self wall [] exfil_events window_minutes) = [].
Proof.
  intros Hempty. unfold correlate_events. cbv zeta. cbn [fst fold_left].
  set (self0 := match intent_classifier self with
                | Some ic => _ | None => self end).
  assert (H0 : recon_tracker self0 = recon_tracker self)
    by (unfold self0; destruct (intent_classifier self); reflexivity).
  clearbody self0.
  assert (G : forall st,
             findings st = [] -> recon_tracker (self_ st) = recon_tracker self ->
             findings (fold_left (correlate_exfil wall window_minutes ∅)
                         exfil_events st) = []).
  { induction exfil_events as [|exfil rest IH]; intros st Hf Ht; simpl.
    - exact Hf.
    - apply IH; unfold correlate_exfil; cbv zeta;
        rewrite lookup_empty; cbn [default fold_left matched_recon negb andb];
        rewrite Ht, (get_recon_score_empty _ _ _ (Hempty _)), Rgtb_0_5;
        cbn; assumption. }
  apply G; [reflexivity|exact H0].
Qed.

Lemma X13_no_recon_no_findings_witness :
  (forall actor,
     stored_activities (recon_tracker examples.c2_detector) (key_of actor) = [])
  /\ fst (correlate_events examples.c2_detector 0%Z [] [examples.c2_exfil] 30)
     = [].
Proof.
  assert (H : forall actor,
            stored_activities (recon_tracker examples.c2_detector)
              (key_of actor) = []).
  { intros actor. unfold stored_activities. simpl. rewrite lookup_empty.
    reflexivity. }
  split; [exact H|].
  apply (X13_no_recon_no_findings examples.c2_detector 0%Z
           [examples.c2_exfil] 30 H).
Defined.

(** *** What a run leaves alone *)

(** X14: a run neither records recon activity nor changes the canary list:
    the tracker and [canary_doc_ids] after [correlate_events] are those
    before. *)
Theorem X14_run_leaves_tracker_and_canaries (self : GeminiExfilDetector)
    (wall : datetime) (recon_events : list ReconEvent.t)
    (exfil_events : list ExfilEvent.t) (window_minutes : Z) :
  let after :=
    snd (correlate_events self wall recon_events exfil_events window_minutes) in
  recon_tracker after = recon_tracker self
  /\ canary_doc_ids after = canary_doc_ids self.
Proof.
  cbv zeta.
  apply (correlate_events_general wall window_minutes
           (fun _ s => recon_tracker s = recon_tracker self
                       /\ canary_doc_ids s = canary_doc_ids self)).
  - intros exfil score st recon _ _ _ [Ht Hc].
    pose proof (correlate_recon_shape wall window_minutes exfil score st recon)
      as (Hc' & Ht' & _).
    cbv zeta in Hc', Ht'. rewrite Hc', Ht'. split; assumption.
  - intros fs s exfil score _ H. exact H.
  - destruct (intent_classifier self); split; reflexivity.
Qed.

(** *** A trusted destination silences the delayed-exfil finding too *)

Lemma classify_intent_sets self wall actor exfil_event doc_id doc_owner
    visibility timestamp new_value :
  trusted_domains
    (snd (classify_intent self wall actor exfil_event doc_id doc_owner
            visibility timestamp new_value)) = trusted_domains self.
Proof.
  rewrite classify_intent_state.
  rewrite (proj1 (get_or_create_baseline_rest _ wall actor)).
  destruct (_extract_destination_domain new_value visibility) as [d|];
    [|reflexivity].
  destruct (String.eqb d ""); [reflexivity|].
  apply get_domain_reputation_sets.
Qed.

Lemma should_suppress_trusted self wall actor exfil_event doc_id doc_owner
    visibility timestamp new_value d :
  reachable self ->
  _extract_destination_domain new_value visibility = Some d -> d <> "" ->
  py.lower d ∈ trusted_domains self ->
  should_suppress
    (fst (classify_intent self wall actor exfil_event doc_id doc_owner
            visibility timestamp new_value)) = true.
Proof.
  intros Hr He Hne Ht. apply should_suppress_iff.
  exists d. splits; try assumption.
  rewrite (proj1 (get_domain_reputation_ok self d (reachable_cache_ok _ Hr))).
  unfold sets_reputation. rewrite (bool_decide_eq_true_2 _ Ht). reflexivity.
Qed.

Lemma inner_loop_silenced wall w exfil score recons :
  forall st ic,
    intent_classifier (self_ st) = Some ic -> reachable ic ->
    trusted_destination ic exfil ->
    let st' := fold_left (correlate_recon wall w exfil score) recons st in
    findings st' = findings st
    /\ exists ic',
         intent_classifier (self_ st') = Some ic' /\ reachable ic'
         /\ trusted_destination ic' exfil.
Proof.
  induction recons as [|recon recons IH]; intros st ic Hic Hr Ht; cbv zeta.
  - simpl. split; [reflexivity|]. exists ic. splits; assumption.
  - cbn [fold_left].
    assert (Hstep :
      findings (correlate_recon wall w exfil score st recon) = findings st
      /\ exists ic',
           intent_classifier
             (self_ (correlate_recon wall w exfil score st recon)) = Some ic'
           /\ reachable ic' /\ trusted_destination ic' exfil).
    { rewrite correlate_recon_unfold. cbv zeta.
      destruct (in_window _ _).
      - rewrite Hic. destruct Ht as (d & Hd & Hne & Hin).
        rewrite (should_suppress_trusted ic wall _ _ _ _ _ _ _ d Hr Hd Hne Hin).
        cbn. split; [reflexivity|]. eexists. split; [reflexivity|].
        split; [apply reachable_classify, Hr|].
        exists d. splits; try assumption.
        rewrite classify_intent_sets. exact Hin.
      - split; [reflexivity|]. exists ic. splits; assumption. }
    destruct Hstep as [Hf (ic' & Hic' & Hr' & Ht')].
    destruct (IH _ ic' Hic' Hr' Ht') as [Hf' Hex]. cbv zeta in Hf', Hex.
    split; [rewrite Hf', Hf; reflexivity|exact Hex].
Qed.

(** X15: when the classifier trusts the destination of an egress event and
    some recon event of the actor is in the window, the event produces no
    finding at all: every pair is suppressed, and because a suppressed pair
    still counts as matched, no delayed-exfil finding is raised either,
    however high the recon score. *)
Theorem X15_trusted_destination_silences_everything (wall : datetime)
    (window_minutes : Z) (recon_by_actor : gmap string (list ReconEvent.t))
    (st : loop) (exfil : ExfilEvent.t) (ic : IntentClassifier) :
  intent_classifier (self_ st) = Some ic -> reachable ic ->
  trusted_destination ic exfil ->
  existsb
    (fun recon => in_window (delta_minutes_of exfil recon) window_minutes)
    (default [] (recon_by_actor !! ExfilEvent.actor exfil)) = true ->
  findings (correlate_exfil wall window_minutes recon_by_actor st exfil)
  = findings st.
Proof.
  intros Hic Hr Ht Hm. unfold correlate_exfil. cbv zeta.
  set (score := get_recon_score _ _ _).
  set (st0 := {| findings := findings st; matched_recon := false;
                 self_ := self_ st |}).
  rewrite inner_loop_matched, Hm. cbn [matched_recon st0 orb negb andb].
  destruct (inner_loop_silenced wall window_minutes exfil score
              (default [] (recon_by_actor !! ExfilEvent.actor exfil))
              st0 ic Hic Hr Ht) as [Hf _].
  exact Hf.
Qed.

Lemma X15_trusted_destination_silences_everything_witness :
  let rba : gmap string (list ReconEvent.t) :=
    {[ examples.alice := [examples.c2_recon] ]} in
  intent_classifier (self_ examples.c10_state) = Some examples.c1_classifier
  /\ reachable examples.c1_classifier
  /\ trusted_destination examples.c1_classifier examples.c10_exfil
  /\ existsb
       (fun recon => in_window (delta_minutes_of examples.c10_exfil recon) 30)
       (default [] (rba !! ExfilEvent.actor examples.c10_exfil)) = true
  /\ findings (correlate_exfil 0%Z 30 rba examples.c10_state examples.c10_exfil)
     = [].
Proof.
  cbv zeta.
  assert (H1 : reachable examples.c1_classifier) by apply reachable_init.
  assert (H2 : trusted_destination examples.c1_classifier examples.c10_exfil).
  { exists "example-partner.com". splits; [reflexivity|discriminate|].
    vm_compute. reflexivity. }
  assert (H3 : existsb
       (fun recon => in_window (delta_minutes_of examples.c10_exfil recon) 30)
       (default [] (({[ examples.alice := [examples.c2_recon] ]}
                     : gmap string (list ReconEvent.t))
                    !! ExfilEvent.actor examples.c10_exfil)) = true)
    by (vm_compute; reflexivity).
  splits; [reflexivity|exact H1|exact H2|exact H3|].
  exact (X15_trusted_destination_silences_everything 0%Z 30 _
           examples.c10_state examples.c10_exfil examples.c1_classifier
           eq_refl H1 H2 H3).
Defined.

(** *** One finding per matching recon event *)

Lemma correlate_recon_unclassified wall w exfil score st recon :
  intent_classifier (self_ st) = None ->
  let st' := correlate_recon wall w exfil score st recon in
  intent_classifier (self_ st') = None
  /\ length (findings st')
     = (length (findings st)
        + if in_window (delta_minutes_of exfil recon) w then 1 else 0)%nat.
Proof.
  intros Hic. cbv zeta. rewrite correlate_recon_unfold. cbv zeta.
  destruct (in_window _ _).
  - rewrite Hic. cbn. rewrite length_app. cbn. split; [reflexivity|lia].
  - split; [exact Hic|lia].
Qed.

Lemma inner_loop_unclassified wall w exfil score recons :
  forall st,
    intent_classifier (self_ st) = None ->
    let st' := fold_left (correlate_recon wall w exfil score) recons st in
    intent_classifier (self_ st') = None
    /\ length (findings st')
       = (length (findings st)
          + length (List.filter
                      (fun recon => in_window (delta_minutes_of exfil recon) w)
                      recons))%nat.
Proof.
  induction recons as [|recon recons IH]; intros st Hic; cbv zeta.
  - simpl. split; [exact Hic|lia].
  - cbn [fold_left List.filter].
    destruct (correlate_recon_unclassified wall w exfil score st recon Hic)
      as [Hic' Hlen]. cbv zeta in Hic', Hlen.
    destruct (IH _ Hic') as [Hic'' Hlen']. cbv zeta in Hic'', Hlen'.
    split; [exact Hic''|]. rewrite Hlen', Hlen.
    destruct (in_window _ _); cbn [length]; lia.
Qed.

Lemma existsb_filter_length {A} (p : A -> bool) (l : list A) :
  existsb p l = negb (Nat.eqb (length (List.filter p l)) 0).
Proof.
  induction l as [|x l IH]; simpl; [reflexivity|].
  destruct (p x); simpl; [reflexivity|exact IH].
Qed.

Lemma inner_loop_tracker wall w exfil score recons :
  forall st,
    recon_tracker
      (self_ (fold_left (correlate_recon wall w exfil score) recons st))
    = recon_tracker (self_ st).
Proof.
  induction recons as [|recon recons IH]; intros st; simpl; [reflexivity|].
  rewrite IH.
  apply (correlate_recon_shape wall w exfil score st recon).
Qed.

(** X16: without an intent classifier nothing is suppressed, and the number
    of findings is exact: every egress event contributes one finding per
    recon event of its actor inside the window (no de-duplication), or one
    delayed-exfil finding when there is no such recon event and the score
    exceeds 5.0. *)
Theorem X16_one_finding_per_matching_recon (self : GeminiExfilDetector)
    (wall : datetime) (recon_events : list ReconEvent.t)
    (exfil_events : list ExfilEvent.t) (window_minutes : Z) :
  intent_classifier self = None ->
  length
    (fst (correlate_events self wall recon_events exfil_events window_minutes))
  = list_sum
      (map (contribution (recon_tracker self) recon_events window_minutes)
         exfil_events).
Proof.
  intros Hic. unfold correlate_events. cbv zeta. rewrite Hic. cbn [fst].
  set (rba := fold_left bucket recon_events ∅).
  assert (G : forall st,
             intent_classifier (self_ st) = None ->
             recon_tracker (self_ st) = recon_tracker self ->
             length (findings (fold_left (correlate_exfil wall window_minutes rba)
                                 exfil_events st))
             = (length (findings st)
                + list_sum (map (contribution (recon_tracker self) recon_events
                                   window_minutes) exfil_events))%nat).
  { induction exfil_events as [|exfil rest IH]; intros st Hn Ht.
    - simpl. lia.
    - cbn [fold_left map list_sum].
      set (st1 := correlate_exfil wall window_minutes rba st exfil).
      assert (H1 : intent_classifier (self_ st1) = None
                   /\ recon_tracker (self_ st1) = recon_tracker self
                   /\ length (findings st1)
                      = (length (findings st)
                         + contribution (recon_tracker self) recon_events
                             window_minutes exfil)%nat).
      { unfold st1, correlate_exfil. cbv zeta. rewrite Ht.
        set (score := get_recon_score _ _ _).
        set (st0 := {| findings := findings st; matched_recon := false;
                       self_ := self_ st |}).
        set (recons := default [] (rba !! ExfilEvent.actor exfil)).
        destruct (inner_loop_unclassified wall window_minutes exfil score
                    recons st0 Hn) as [Hn' Hlen]. cbv zeta in Hn', Hlen.
        pose proof (inner_loop_tracker wall window_minutes exfil score recons
                      st0) as Ht'.
        pose proof (inner_loop_matched wall window_minutes exfil score recons
                      st0) as Hm.
        cbn [matched_recon st0 orb] in Hm.
        rewrite existsb_filter_length in Hm.
        assert (Hrec : List.filter
                         (fun recon =>
                            in_window (delta_minutes_of exfil recon)
                              window_minutes) recons
                       = matches recon_events window_minutes exfil).
        { unfold recons, rba, matches. rewrite recon_by_actor_spec.
          reflexivity. }
        rewrite Hrec in Hm, Hlen.
        unfold contribution. fold score. rewrite Hm.
        destruct (length (matches recon_events window_minutes exfil))
          as [|n] eqn:En; rewrite ?En in Hlen.
        - cbn [Nat.eqb negb andb]. destruct (Rgtb score 5.0); cbn.
          + splits; [exact Hn'|rewrite Ht'; exact Ht|].
            rewrite length_app, Hlen. cbn. clear. lia.
          + splits; [exact Hn'|rewrite Ht'; exact Ht|]. rewrite Hlen.
            cbn. clear. lia.
        - cbn [Nat.eqb negb andb].
          splits; [exact Hn'|rewrite Ht'; exact Ht|]. rewrite Hlen.
          reflexivity. }
      destruct H1 as (Hn1 & Ht1 & Hl1).
      rewrite (IH st1 Hn1 Ht1), Hl1. unfold list_sum. cbn [fold_right].
      clear. lia. }
  rewrite G; [reflexivity|exact Hic|reflexivity].
Qed.

Lemma X16_one_finding_per_matching_recon_witness :
  intent_classifier examples.c8_detector = None
  /\ length
       (fst (correlate_events examples.c8_detector 0%Z
               [examples.c2_recon; examples.c2_recon] [examples.c8_exfil] 30))
     = 2%nat.
Proof.
  split; [reflexivity|].
  rewrite (X16_one_finding_per_matching_recon examples.c8_detector 0%Z
             [examples.c2_recon; examples.c2_recon] [examples.c8_exfil] 30
             eq_refl).
  reflexivity.
Defined.

(** X10, at a concrete run: the partner domain of the shortcut event is
    reported as historically shared although no earlier event exists. *)
Lemma X10_first_time_rule_never_fires_witness :
  exists f ia,
    fst (correlate_events examples.c2_detector 0%Z [examples.c2_recon]
           [examples.c2_exfil] 30) = [f]
    /\ Finding.intent_analysis f = Some ia
    /\ destination_domain ia = Some "partner.example"
    /\ In "User has historically shared with partner.example" (reasons ia).
Proof.
  pose proof (X10_first_time_rule_never_fires examples.c2_detector 0%Z
                [examples.c2_recon] [examples.c2_exfil] 30) as HF.
  assert (Hd : map (fun f => destination_domain <$> Finding.intent_analysis f)
                 (fst (correlate_events examples.c2_detector 0%Z
                         [examples.c2_recon] [examples.c2_exfil] 30))
               = [Some (Some "partner.example")])
    by (vm_compute; reflexivity).
  destruct (fst (correlate_events examples.c2_detector 0%Z [examples.c2_recon]
                   [examples.c2_exfil] 30)) as [|f [|g rest]];
    try discriminate Hd.
  injection Hd as Hd.
  destruct (Finding.intent_analysis f) as [ia|] eqn:Eia; [|discriminate Hd].
  injection Hd as Hd.
  exists f, ia. splits; try reflexivity; try assumption.
  apply Forall_inv in HF.
  exact (proj1 (HF ia "partner.example" Eia Hd ltac:(discriminate))).
Defined.

(** ** Revert detection *)

Example detect_reverts_flags_the_toggle :
  map ExfilEvent.is_revert (_detect_reverts revert_example)
  = [true; false; true].
Proof. vm_compute. reflexivity. Qed.


Lemma mark_from_shape flagged events :
  forall i,
    Forall2 (fun e e' => e' = e \/ e' = set_is_revert e) events
      (mark_from flagged i events).
Proof.
  induction events as [|e rest IH]; intros i; simpl; constructor.
  - destruct (bool_decide (i ∈ flagged)); [right|left]; reflexivity.
  - apply IH.
Qed.

(** X17: [_detect_reverts] returns the same events in the same order; each
    one is either untouched or has [is_revert] set, so the pass never clears
    a flag and never changes another field. *)
Theorem X17_detect_reverts_only_raises_flags (exfil_events : list ExfilEvent.t) :
  Forall2 (fun e e' => e' = e \/ e' = set_is_revert e) exfil_events
    (_detect_reverts exfil_events).
Proof. apply mark_from_shape. Qed.

(** *** Every flag has a partner *)

Lemma truthy_doc_id e :
  py.truthy (ExfilEvent.doc_id e) = true ->
  ExfilEvent.doc_id e = Some (default "" (ExfilEvent.doc_id e)).
Proof. destruct (ExfilEvent.doc_id e); [reflexivity|discriminate]. Qed.

Lemma group_changes_ok all rest :
  forall i m,
    (forall j e, rest !! j = Some e -> all !! (i + j)%nat = Some e) ->
    entries_ok all m -> entries_ok all (group_changes i rest m).
Proof.
  induction rest as [|event rest IH]; intros i m Hall Hm; simpl.
  - exact Hm.
  - apply IH.
    + intros j e Hj. replace (S i + j)%nat with (i + S j)%nat by lia.
      apply Hall. exact Hj.
    + destruct (is_visibility_change event) eqn:Ev; [|exact Hm].
      intros d l Hl.
      destruct (decide (default "" (ExfilEvent.doc_id event) = d)) as [<-|Hne].
      * rewrite lookup_insert_eq in Hl. injection Hl as <-.
        apply Forall_app. split.
        -- destruct (m !! default "" (ExfilEvent.doc_id event)) as [l0|] eqn:E;
             [exact (Hm _ _ E)|constructor].
        -- constructor; [|constructor]. unfold entry_ok. cbn [fst snd].
           splits; [|exact Ev|].
           ++ specialize (Hall 0%nat event eq_refl).
              rewrite Nat.add_0_r in Hall. exact Hall.
           ++ apply truthy_doc_id.
              unfold is_visibility_change in Ev.
              apply andb_true_iff in Ev as [Ev _]. exact Ev.
      * rewrite lookup_insert_ne in Hl by exact Hne. exact (Hm _ _ Hl).
Qed.

Lemma insert_sorted_In x l y :
  In y (insert_sorted x l) <-> y = x \/ In y l.
Proof.
  induction l as [|z l IH]; simpl.
  - intuition.
  - destruct (_ <=? _)%Z; simpl; rewrite ?IH; intuition.
Qed.

Lemma sort_fold_In l :
  forall acc y,
    In y (fold_left (fun sorted x => insert_sorted x sorted) l acc)
    <-> In y l \/ In y acc.
Proof.
  induction l as [|x l IH]; intros acc y; simpl.
  - intuition.
  - rewrite IH, insert_sorted_In. intuition.
Qed.

Lemma sort_by_timestamp_In l y : In y (sort_by_timestamp l) <-> In y l.
Proof. unfold sort_by_timestamp. rewrite sort_fold_In. simpl. intuition. Qed.

Lemma insert_sorted_HdRel a x l :
  not_later a x -> HdRel not_later a l -> HdRel not_later a (insert_sorted x l).
Proof.
  intros Hax Hal. destruct l as [|z l]; simpl.
  - constructor. exact Hax.
  - destruct (_ <=? _)%Z; constructor; [|exact Hax].
    inversion Hal. assumption.
Qed.

Lemma insert_sorted_Sorted x l :
  Sorted not_later l -> Sorted not_later (insert_sorted x l).
Proof.
  induction 1 as [|z l Hs IH Hd]; simpl.
  - constructor; constructor.
  - destruct (ExfilEvent.timestamp (snd z) <=? ExfilEvent.timestamp (snd x))%Z
      eqn:E.
    + constructor; [exact IH|].
      apply insert_sorted_HdRel; [|exact Hd].
      unfold not_later. lia.
    + constructor; [constructor; assumption|].
      constructor. unfold not_later. lia.
Qed.

Lemma sort_by_timestamp_Sorted l : Sorted not_later (sort_by_timestamp l).
Proof.
  unfold sort_by_timestamp.
  assert (G : forall acc, Sorted not_later acc ->
                          Sorted not_later
                            (fold_left (fun sorted x => insert_sorted x sorted)
                               l acc)).
  { induction l as [|x l IH]; intros acc Ha; simpl; [exact Ha|].
    apply IH, insert_sorted_Sorted, Ha. }
  apply G. constructor.
Qed.

Lemma revert_pairs_sound l :
  Sorted not_later l ->
  forall j,
    In j (revert_pairs l) ->
    exists x y,
      In x l /\ In y l /\ not_later x y
      /\ is_revert_pair (snd x) (snd y) = true
      /\ (j = fst x \/ j = fst y).
Proof.
  induction 1 as [|curr rest Hs IH Hd]; intros j Hj; simpl in Hj.
  - destruct Hj.
  - destruct rest as [|next rest']; [destruct Hj|].
    apply in_app_or in Hj as [Hj|Hj].
    + destruct (is_revert_pair (snd curr) (snd next)) eqn:E; [|destruct Hj].
      exists curr, next. inversion Hd; subst.
      splits; [left; reflexivity|right; left; reflexivity|assumption|exact E|].
      simpl in Hj. intuition.
    + destruct (IH j Hj) as (x & y & Hx & Hy & Hxy & Hp & Hor).
      exists x, y. splits; try assumption; right; assumption.
Qed.

Lemma is_revert_pair_spec curr next_event :
  is_revert_pair curr next_event = true ->
  (ExfilEvent.timestamp next_event - ExfilEvent.timestamp curr <= 600000000)%Z
  /\ high_risk (ExfilEvent.visibility curr) = true
  /\ high_risk (ExfilEvent.visibility next_event) = false.
Proof.
  unfold is_revert_pair. cbv zeta.
  destruct (Qle_bool _ 10) eqn:E; [|discriminate].
  intros H. apply andb_true_iff in H as [H1 H2].
  apply negb_true_iff in H2. splits; try assumption.
  apply Qle_bool_iff in E.
  unfold total_seconds_Q, MICROS_PER_SECOND in E.
  set (d := (ExfilEvent.timestamp next_event - ExfilEvent.timestamp curr)%Z)
    in *.
  clearbody d. unfold Qle, Qdiv, Qmult, Qinv, inject_Z in E. simpl in E. lia.
Qed.

Lemma reverted_sound events j :
  In j (reverted events) ->
  exists e i' e',
    events !! j = Some e /\ events !! i' = Some e'
    /\ (revert_partners e e' \/ revert_partners e' e).
Proof.
  unfold reverted. intros Hj.
  apply in_flat_map in Hj as ([d l] & Hin & Hj). cbn [snd] in Hj.
  apply list_elem_of_In, elem_of_map_to_list in Hin.
  assert (Hok : entries_ok events (group_changes 0%nat events ∅)).
  { apply group_changes_ok.
    - intros k e Hk. exact Hk.
    - intros d' l' H. rewrite lookup_empty in H. discriminate. }
  pose proof (Hok d l Hin) as Hl. rewrite List.Forall_forall in Hl.
  destruct (revert_pairs_sound _ (sort_by_timestamp_Sorted l) j Hj)
    as (x & y & Hx & Hy & Hxy & Hp & Hor).
  apply (proj1 (sort_by_timestamp_In _ _)) in Hx.
  apply (proj1 (sort_by_timestamp_In _ _)) in Hy.
  destruct (Hl x Hx) as (Lx & Vx & Dx). destruct (Hl y Hy) as (Ly & Vy & Dy).
  destruct (is_revert_pair_spec _ _ Hp) as (Ht & H1 & H2).
  assert (Hpart : revert_partners (snd x) (snd y)).
  { unfold revert_partners. splits; try assumption. congruence. }
  destruct Hor as [->| ->].
  - exists (snd x), (fst y), (snd y). splits; [assumption|assumption|].
    left. exact Hpart.
  - exists (snd y), (fst x), (snd x). splits; [assumption|assumption|].
    right. exact Hpart.
Qed.

Lemma mark_from_lookup flagged events :
  forall i j e',
    mark_from flagged i events !! j = Some e' ->
    exists e,
      events !! j = Some e
      /\ e' = if bool_decide ((i + j)%nat ∈ flagged)
              then set_is_revert e else e.
Proof.
  induction events as [|e rest IH]; intros i j e' H; simpl in H.
  - destruct j; discriminate H.
  - destruct j as [|j]; simpl in H.
    + injection H as <-. exists e. rewrite Nat.add_0_r. split; reflexivity.
    + destruct (IH (S i) j e' H) as (e0 & He0 & ->).
      exists e0. replace (i + S j)%nat with (S i + j)%nat by lia.
      split; [exact He0|reflexivity].
Qed.

(** X18: a flag that [_detect_reverts] raises always has a partner: the
    event is a visibility change of some document, and the list holds another
    visibility change of the same document, at most ten minutes away, such
    that the earlier of the two exposes the document (high-risk visibility)
    and the later one does not.  Events without a doc_id, or whose name does
    not contain [visibility], are never flagged. *)
Theorem X18_revert_flag_has_partner (exfil_events : list ExfilEvent.t)
    (i : nat) (e' : ExfilEvent.t) :
  _detect_reverts exfil_events !! i = Some e' ->
  exists e,
    exfil_events !! i = Some e
    /\ (ExfilEvent.is_revert e' = true ->
        ExfilEvent.is_revert e = true
        \/ exists j p,
             exfil_events !! j = Some p
             /\ (revert_partners e p \/ revert_partners p e)).
Proof.
  intros H. apply mark_from_lookup in H as (e & He & ->).
  exists e. split; [exact He|]. cbn [Nat.add].
  destruct (bool_decide (i ∈ reverted exfil_events)) eqn:E.
  - intros _. right. apply bool_decide_eq_true in E.
    apply list_elem_of_In in E.
    destruct (reverted_sound _ _ E) as (e0 & j & p & He0 & Hp & Hor).
    pose proof (eq_trans (eq_sym He) He0) as Heq. injection Heq as ->.
    exists j, p. split; assumption.
  - intros Hr. left. exact Hr.
Qed.

Lemma X18_revert_flag_has_partner_witness :
  _detect_reverts revert_example !! 2%nat
  = Some (set_is_revert
            (ExfilEvent.mk "alice@corp.example" 1704877440000000%Z
               "change_document_visibility" (Some "D2") None (Some "private")
               None None None None None "e-3" None false))
  /\ exists e,
       revert_example !! 2%nat = Some e
       /\ (ExfilEvent.is_revert e = true
           \/ exists j p,
                revert_example !! j = Some p
                /\ (revert_partners e p \/ revert_partners p e)).
Proof.
  assert (H : _detect_reverts revert_example !! 2%nat
              = Some (set_is_revert
                        (ExfilEvent.mk "alice@corp.example" 1704877440000000%Z
                           "change_document_visibility" (Some "D2") None
                           (Some "private") None None None None None "e-3"
                           None false)))
    by (vm_compute; reflexivity).
  split; [exact H|].
  destruct (X18_revert_flag_has_partner revert_example 2%nat _ H)
    as (e & He & Himp).
  exists e. split; [exact He|exact (Himp eq_refl)].
Defined.

(** *** A second pass changes nothing *)

Lemma mark_entry_fields flagged x :
  fst (mark_entry flagged x) = fst x
  /\ ExfilEvent.timestamp (snd (mark_entry flagged x))
     = ExfilEvent.timestamp (snd x)
  /\ ExfilEvent.visibility (snd (mark_entry flagged x))
     = ExfilEvent.visibility (snd x).
Proof.
  unfold mark_entry. cbn [fst snd].
  destruct (bool_decide (fst x ∈ flagged)); splits; reflexivity.
Qed.

Lemma group_changes_mark flagged rest :
  forall i (m : gmap string (list (reference * ExfilEvent.t))),
    group_changes i (mark_from flagged i rest) (map (mark_entry flagged) <$> m)
    = map (mark_entry flagged) <$> group_changes i rest m.
Proof.
  induction rest as [|event rest IH]; intros i m; simpl; [reflexivity|].
  rewrite <- IH. f_equal.
  assert (Hv : is_visibility_change
                 (if bool_decide (i ∈ flagged) then set_is_revert event
                  else event) = is_visibility_change event)
    by (destruct (bool_decide (i ∈ flagged)); reflexivity).
  assert (Hd : ExfilEvent.doc_id
                 (if bool_decide (i ∈ flagged) then set_is_revert event
                  else event) = ExfilEvent.doc_id event)
    by (destruct (bool_decide (i ∈ flagged)); reflexivity).
  rewrite Hv, Hd.
  destruct (is_visibility_change event); [|reflexivity].
  cbv zeta. rewrite fmap_insert, lookup_fmap.
  f_equal.
  destruct (m !! default "" (ExfilEvent.doc_id event)) as [l|]; simpl.
  - rewrite map_app. reflexivity.
  - reflexivity.
Qed.

Lemma insert_sorted_mark flagged x l :
  insert_sorted (mark_entry flagged x) (map (mark_entry flagged) l)
  = map (mark_entry flagged) (insert_sorted x l).
Proof.
  induction l as [|y l IH]; [reflexivity|].
  cbn [insert_sorted map].
  rewrite (proj1 (proj2 (mark_entry_fields flagged x))).
  rewrite (proj1 (proj2 (mark_entry_fields flagged y))).
  destruct (_ <=? _)%Z; cbn [map]; [rewrite IH|]; reflexivity.
Qed.

Lemma sort_by_timestamp_mark flagged l :
  sort_by_timestamp (map (mark_entry flagged) l)
  = map (mark_entry flagged) (sort_by_timestamp l).
Proof.
  unfold sort_by_timestamp.
  change (@nil (reference * ExfilEvent.t))
    with (map (mark_entry flagged) []) at 1.
  generalize (@nil (reference * ExfilEvent.t)) as acc.
  induction l as [|x l IH]; intros acc; simpl; [reflexivity|].
  rewrite insert_sorted_mark. apply IH.
Qed.

Lemma is_revert_pair_mark flagged x y :
  is_revert_pair (snd (mark_entry flagged x)) (snd (mark_entry flagged y))
  = is_revert_pair (snd x) (snd y).
Proof.
  unfold is_revert_pair.
  destruct (mark_entry_fields flagged x) as (_ & Tx & Vx).
  destruct (mark_entry_fields flagged y) as (_ & Ty & Vy).
  rewrite Tx, Ty, Vx, Vy. reflexivity.
Qed.

Lemma revert_pairs_mark flagged l :
  revert_pairs (map (mark_entry flagged) l) = revert_pairs l.
Proof.
  induction l as [|x l IH]; [reflexivity|].
  destruct l as [|y l]; [reflexivity|].
  change (revert_pairs (map (mark_entry flagged) (x :: y :: l)))
    with ((if is_revert_pair (snd (mark_entry flagged x))
                (snd (mark_entry flagged y))
           then [fst (mark_entry flagged x); fst (mark_entry flagged y)]
           else [])
          ++ revert_pairs (map (mark_entry flagged) (y :: l))).
  rewrite IH, is_revert_pair_mark.
  rewrite (proj1 (mark_entry_fields flagged x)).
  rewrite (proj1 (mark_entry_fields flagged y)). reflexivity.
Qed.

Lemma reverted_mark flagged events j :
  In j (reverted (mark_from flagged 0%nat events)) <-> In j (reverted events).
Proof.
  unfold reverted.
  pose proof (group_changes_mark flagged events 0%nat ∅) as H.
  rewrite fmap_empty in H. rewrite H.
  rewrite !in_flat_map. split.
  - intros ([d l] & Hin & Hj). cbn [snd] in Hj.
    apply list_elem_of_In, elem_of_map_to_list in Hin.
    rewrite lookup_fmap in Hin.
    destruct (group_changes 0%nat events ∅ !! d) as [l0|] eqn:E;
      [|discriminate Hin].
    injection Hin as <-.
    rewrite sort_by_timestamp_mark, revert_pairs_mark in Hj.
    exists (d, l0). split; [|exact Hj].
    apply list_elem_of_In, elem_of_map_to_list. exact E.
  - intros ([d l] & Hin & Hj). cbn [snd] in Hj.
    apply list_elem_of_In, elem_of_map_to_list in Hin.
    exists (d, map (mark_entry flagged) l). split.
    + apply list_elem_of_In, elem_of_map_to_list.
      rewrite lookup_fmap, Hin. reflexivity.
    + cbn [snd]. rewrite sort_by_timestamp_mark, revert_pairs_mark. exact Hj.
Qed.

Lemma mark_from_ext flagged flagged' events :
  (forall j, In j flagged <-> In j flagged') ->
  forall i, mark_from flagged i events = mark_from flagged' i events.
Proof.
  intros H. induction events as [|e rest IH]; intros i; simpl; [reflexivity|].
  rewrite IH. f_equal.
  rewrite (bool_decide_ext (i ∈ flagged) (i ∈ flagged')); [reflexivity|].
  rewrite !list_elem_of_In. apply H.
Qed.

Lemma mark_from_twice flagged events :
  forall i,
    mark_from flagged i (mark_from flagged i events)
    = mark_from flagged i events.
Proof.
  induction events as [|e rest IH]; intros i; simpl; [reflexivity|].
  rewrite IH. destruct (bool_decide (i ∈ flagged)); reflexivity.
Qed.

(** X19: [_detect_reverts] is idempotent: the flags do not feed back into
    the detection, so a second pass returns the list of the first. *)
Theorem X19_detect_reverts_idempotent (exfil_events : list ExfilEvent.t) :
  _detect_reverts (_detect_reverts exfil_events) = _detect_reverts exfil_events.
Proof.
  unfold _detect_reverts.
  rewrite (mark_from_ext _ (reverted exfil_events)).
  - apply mark_from_twice.
  - intros j. apply reverted_mark.
Qed.

(** ** file_context: the metadata cache and enrichment *)

(** X20: [get_file_metadata] caches what it fetched and nothing else.  A
    cached document is answered from the cache and the enricher stays as it
    is.  When the call answers with metadata, that metadata is in the cache
    afterwards, any later call for the same document returns it and leaves
    the enricher as it is, and the cache entries of other documents are
    untouched.  The call answers [None] exactly when the document is not
    cached and the Drive request fails or returns an empty owners list, and
    then the enricher is unchanged: failures are not cached. *)
Theorem X20_file_metadata_cache (self : FileContextEnricher)
    (wall wall' : datetime) (doc_id : string) :
  let result := get_file_metadata self wall doc_id in
  (forall cached,
     file_cache self !! doc_id = Some cached -> result = (Some cached, self))
  /\ (fst result = None <->
      file_cache self !! doc_id = None
      /\ (drive_files_get self doc_id = None
          \/ exists info,
               drive_files_get self doc_id = Some info
               /\ fi_owners info = Some []))
  /\ match fst result with
     | Some metadata =>
         file_cache (snd result) !! doc_id = Some metadata
         /\ get_file_metadata (snd result) wall' doc_id
            = (Some metadata, snd result)
         /\ forall other,
              other <> doc_id ->
              file_cache (snd result) !! other = file_cache self !! other
     | None => snd result = self
     end.
Proof.
  cbv zeta. unfold get_file_metadata.
  destruct (file_cache self !! doc_id) as [m|] eqn:Ec.
  - cbn [fst snd]. rewrite Ec. splits; try reflexivity.
    + intros cached E. injection E as <-. reflexivity.
    + split; [discriminate|]. intros [E _]. discriminate.
  - split; [discriminate|].
    destruct (drive_files_get self doc_id) as [info|] eqn:Ed.
    + destruct (fi_owners info) as [[|first owners]|] eqn:Eo;
        cbn [default from_option]; unfold Datatypes.id.
      * cbn [fst snd]. splits; try reflexivity.
        split; [|reflexivity]. intros _. split; [reflexivity|].
        right. exists info. split; [reflexivity|exact Eo].
      * cbn [fst snd set_file_cache file_cache drive_files_get].
        rewrite lookup_insert_eq. splits; try reflexivity.
        -- split; [discriminate|].
           intros [_ [E|(info' & E & Eo')]]; [discriminate|].
           injection E as <-. congruence.
        -- intros other Hne. rewrite lookup_insert_ne by congruence.
           reflexivity.
      * cbn [fst snd set_file_cache file_cache drive_files_get].
        rewrite lookup_insert_eq. splits; try reflexivity.
        -- split; [discriminate|].
           intros [_ [E|(info' & E & Eo')]]; [discriminate|].
           injection E as <-. congruence.
        -- intros other Hne. rewrite lookup_insert_ne by congruence.
           reflexivity.
    + cbn [fst snd]. splits; try reflexivity.
      split; [|reflexivity]. intros _. split; [reflexivity|]. left. reflexivity.
Qed.

(** X21: enrichment never lowers a severity.  It leaves severity and reason
    alone, or, for a file of high sensitivity, promotes the severity by one
    step (low to medium, medium to high) and appends
    [" (high-sensitivity file)"] to the reason; every identifying field and
    the intent analysis are kept. *)
Theorem X21_enrichment_promotes_or_keeps (self : FileContextEnricher)
    (wall : datetime) (f : Finding.t) (doc_id : option string) :
  let f' := fst (enrich_finding self wall f doc_id) in
  identity_fields f' = identity_fields f
  /\ Finding.intent_analysis f' = Finding.intent_analysis f
  /\ ((Finding.severity f' = Finding.severity f
       /\ Finding.reason f' = Finding.reason f)
      \/ (Finding.severity f' = spec.promote (Finding.severity f)
          /\ Finding.severity f' <> Finding.severity f
          /\ Finding.reason f'
             = Finding.reason f ++ [Text " (high-sensitivity file)"]
          /\ exists c,
               Finding.file_context f' = Some c
               /\ fc_sensitivity c = "high")).
Proof.
  cbv zeta.
  destruct (enrich_finding_identity self wall f doc_id) as (Hid & Hia & _).
  split; [exact Hid|]. split; [exact Hia|].
  unfold enrich_finding, spec.promote.
  destruct (negb (py.truthy doc_id)); [left; split; reflexivity|].
  destruct (get_file_metadata self wall (default "" doc_id)) as [[m|] fe0];
    [|left; split; reflexivity].
  destruct (String.eqb_spec (sensitivity m) "high") as [Eh|Eh];
    [|left; split; reflexivity].
  cbn [Finding.severity Finding.set_file_context fst].
  destruct (String.eqb_spec (Finding.severity f) "medium") as [Em|Em].
  - right. rewrite Em. cbn. splits; try reflexivity; try discriminate.
    eexists. split; [reflexivity|exact Eh].
  - destruct (String.eqb_spec (Finding.severity f) "low") as [El|El].
    + right. rewrite El. cbn. splits; try reflexivity; try discriminate.
      eexists. split; [reflexivity|exact Eh].
    + left. split; reflexivity.
Qed.

(** ** burstiness: the range of the score *)

Section Burstiness.

Import burstiness.

Lemma round2_R_10 : round2_R 10.0 = 10.0.
Proof.
  replace 10.0 with (IZR 10) by lra. apply round2_R_IZR.
Qed.

Lemma insert_Sorted t l : Sorted Z.le l -> Sorted Z.le (insert t l).
Proof.
  induction 1 as [|y l Hs IH Hd]; simpl.
  - constructor; constructor.
  - destruct (y <=? t)%Z eqn:E.
    + constructor; [exact IH|].
      destruct l as [|z l]; simpl.
      * constructor. lia.
      * destruct (z <=? t)%Z; constructor; [|lia].
        inversion Hd. assumption.
    + constructor; [constructor; assumption|]. constructor. lia.
Qed.

Lemma sorted_Sorted timestamps : Sorted Z.le (sorted timestamps).
Proof.
  unfold sorted.
  assert (G : forall acc, Sorted Z.le acc ->
                          Sorted Z.le
                            (fold_left (fun acc t => insert t acc) timestamps
                               acc)).
  { induction timestamps as [|t l IH]; intros acc Ha; simpl; [exact Ha|].
    apply IH, insert_Sorted, Ha. }
  apply G. constructor.
Qed.

Lemma inter_arrival_nonneg l :
  Sorted Z.le l -> Forall (fun x => 0 <= x) (inter_arrival l).
Proof.
  induction 1 as [|a l Hs IH Hd]; simpl; [constructor|].
  destruct l as [|b l]; [constructor|].
  constructor; [|exact IH].
  inversion Hd; subst. unfold total_seconds_R, MICROS_PER_SECOND.
  assert (0 <= IZR (b - a)) by (apply IZR_le; lia). 
  apply Rmult_le_pos; [assumption|]. left. apply Rinv_0_lt_compat. lra.
Qed.

Lemma Rsum_nonneg xs : Forall (fun x => 0 <= x) xs -> 0 <= Rsum xs.
Proof.
  induction 1 as [|x xs Hx _ IH]; simpl; [lra|]. lra.
Qed.

Lemma mean_nonneg xs : Forall (fun x => 0 <= x) xs -> 0 <= mean xs.
Proof.
  intros H. unfold mean. destruct xs as [|x xs].
  - simpl. unfold Rdiv. rewrite Rmult_0_l. lra.
  - apply Rmult_le_pos; [apply Rsum_nonneg, H|].
    left. apply Rinv_0_lt_compat, lt_0_INR. simpl. lia.
Qed.

Lemma maximum_nonneg xs : Forall (fun x => 0 <= x) xs -> 0 <= maximum xs.
Proof.
  unfold maximum. intros H.
  assert (G : forall d, 0 <= d -> 0 <= fold_right Rmax d xs).
  { induction H as [|x xs Hx _ IH]; intros d Hd; simpl; [exact Hd|].
    apply Rle_trans with (r2 := x); [exact Hx|apply Rmax_l]. }
  apply G. destruct H; simpl; [lra|assumption].
Qed.

(** X22: the burstiness score never exceeds 10.0, and for a non-negative
    action count it is never negative: the range 0.0-10.0 of the docstring
    holds for every list of timestamps. *)
Theorem X22_burstiness_score_range (timestamps : list datetime)
    (action_count : Z) :
  calculate_burstiness_score timestamps action_count <= 10.0
  /\ ((0 <= action_count)%Z ->
      0 <= calculate_burstiness_score timestamps action_count).
Proof.
  unfold calculate_burstiness_score. cbv zeta.
  destruct (length timestamps <? 2)%nat; [split; intros; lra|].
  set (ia := inter_arrival (sorted timestamps)).
  assert (Hia : Forall (fun x => 0 <= x) ia)
    by (apply inter_arrival_nonneg, sorted_Sorted).
  destruct (orb _ _); [split; intros; lra|].
  unfold Reqb. destruct (Req_dec_T (mean ia) 0) as [|Hm]; cbv iota;
    [split; intros; lra|].
  split.
  - apply Rle_trans with (r2 := round2_R 10.0);
      [apply round2_R_mono, Rmin_l|rewrite round2_R_10; lra].
  - intros Hc. apply Rle_trans with (r2 := round2_R 0);
      [rewrite round2_R_0; lra|apply round2_R_mono].
    apply Rmin_glb; [lra|].
    pose proof (mean_nonneg ia Hia) as Hm0.
    assert (Hmpos : 0 < mean ia) by lra.
    assert (Hcv : 0 <= match stdev ia with
                       | Some std_interval => std_interval / mean ia
                       | None => 0.0
                       end).
    { unfold stdev. destruct (length ia <? 2)%nat; [lra|]. cbv zeta.
      apply Rmult_le_pos; [apply sqrt_pos|].
      left. apply Rinv_0_lt_compat, Hmpos. }
    assert (Hc' : 0 <= IZR action_count) by (apply IZR_le; exact Hc).
    assert (Hd : 0 <= (if Rgtb (maximum ia) 0
                       then IZR action_count / (maximum ia / 60.0)
                       else IZR action_count)).
    { destruct (Rgtb (maximum ia) 0) eqn:Eg; [|exact Hc'].
      apply Rgtb_true in Eg.
      apply Rmult_le_pos; [exact Hc'|].
      left. apply Rinv_0_lt_compat. lra. }
    nra.
Qed.

Lemma X22_burstiness_score_range_witness :
  (0 <= 3)%Z
  /\ 0 <= calculate_burstiness_score [0%Z; 1000000%Z; 5000000%Z] 3.
Proof.
  split; [lia|].
  apply (X22_burstiness_score_range [0%Z; 1000000%Z; 5000000%Z] 3). lia.
Defined.

Lemma sorted_repeat t n : sorted (repeat t n) = repeat t n.
Proof.
  unfold sorted.
  assert (G : forall n m,
             fold_left (fun acc x => insert x acc) (repeat t n) (repeat t m)
             = repeat t (m + n)).
  { clear n. induction n as [|n IH]; intros m; simpl.
    - rewrite Nat.add_0_r. reflexivity.
    - assert (E : insert t (repeat t m) = repeat t (S m)).
      { induction m as [|m IHm]; simpl; [reflexivity|].
        rewrite Z.leb_refl, IHm. reflexivity. }
      rewrite E, IH. f_equal. lia. }
  exact (G n 0%nat).
Qed.

Lemma inter_arrival_repeat t n :
  forallb (fun x => Reqb x 0) (inter_arrival (repeat t n)) = true.
Proof.
  induction n as [|n IH]; [reflexivity|].
  destruct n as [|n]; [reflexivity|].
  change (inter_arrival (repeat t (S (S n))))
    with (total_seconds_R t t :: inter_arrival (repeat t (S n))).
  cbn [forallb]. rewrite IH, andb_true_r.
  unfold Reqb, total_seconds_R. rewrite Z.sub_diag.
  destruct (Req_dec_T (0 / IZR MICROS_PER_SECOND) 0) as [|Hne];
    [reflexivity|].
  exfalso. apply Hne. unfold Rdiv. apply Rmult_0_l.
Qed.

(** X23: fewer than two timestamps score 0.0, and two or more actions at
    one and the same instant score the maximum 10.0, whatever the action
    count; such a list is a burst at every threshold up to 10.0. *)
Theorem X23_burstiness_degenerate_inputs (t : datetime) (n : nat)
    (action_count : Z) (threshold : R) :
  calculate_burstiness_score [] action_count = 0.0
  /\ calculate_burstiness_score [t] action_count = 0.0
  /\ calculate_burstiness_score (repeat t (S (S n))) action_count = 10.0
  /\ (threshold <= 10.0 ->
      is_burst_pattern (repeat t (S (S n))) threshold = true).
Proof.
  assert (H : forall c, calculate_burstiness_score (repeat t (S (S n))) c
                        = 10.0).
  { intros c. unfold calculate_burstiness_score. cbv zeta.
    rewrite repeat_length. cbn [Nat.ltb Nat.leb].
    rewrite sorted_repeat, inter_arrival_repeat, orb_true_r. reflexivity. }
  splits; [reflexivity|reflexivity|apply H|].
  intros Ht. unfold is_burst_pattern. cbv zeta. rewrite H.
  apply Rgeb_true. lra.
Qed.

Lemma X23_burstiness_degenerate_inputs_witness :
  6.0 <= 10.0
  /\ is_burst_pattern (repeat examples.T_11_00 3) 6.0 = true.
Proof.
  split; [lra|].
  apply (X23_burstiness_degenerate_inputs examples.T_11_00 1 0 6.0). lra.
Defined.

End Burstiness.
